(** * File-sharing API handler (lambdas/api_handler/main.py)

    A shallow embedding of the request router, of its three handlers
    (upload, list, download) and of the helpers they use, together with
    the properties of the service's specification that are stated about
    them.

    Python values are a tagged union [pyval]; text is a sequence of code
    points; the two stores the handlers talk to are finite maps carried
    in an explicit [world], threaded through a state-and-exception
    monad.  What the interpreter and the service clients decide (the
    identifier drawn by [uuid4], the clock, a failing call and its
    message) is read from an explicit [env]. *)

From Stdlib Require Import ZArith NArith QArith Qpower Qabs Lia Lqa Bool Ascii String.
From Stdlib Require Import Floats.SpecFloat.
From Stdlib Require Import Sorting.Sorted.
From stdpp Require Import gmap list sorting.

Local Open Scope Z_scope.

(** ** Text and bytes *)

(** A Python [str] is a sequence of Unicode code points. *)
Definition pystr := list N.

(** The [str] denoted by an ASCII literal of the source. *)
Definition u (s : string) : pystr := map N_of_ascii (list_ascii_of_string s).
Arguments u s%_string_scope.

Definition pystr_eqb (a b : pystr) : bool := bool_decide (a = b).

(** Lexicographic [<] of two sequences of code points, as [str.__lt__]. *)
Fixpoint pystr_ltb (a b : pystr) : bool :=
  match a, b with
  | [], [] => false
  | [], _ :: _ => true
  | _ :: _, [] => false
  | x :: a', y :: b' => if (x <? y)%N then true else if (y <? x)%N then false else pystr_ltb a' b'
  end.

Definition byte_of_N (n : N) : Byte.byte :=
  match Byte.of_N (n mod 256) with Some b => b | None => Byte.x00 end.

(** UTF-8 encoding of one code point; [None] for a surrogate (or a number
    that is no code point), where [str.encode] raises. *)
Definition utf8_encode_cp (c : N) : option (list Byte.byte) :=
  if (c <? 128)%N then Some [byte_of_N c]
  else if (c <? 2048)%N then
    Some [byte_of_N (192 + c / 64); byte_of_N (128 + c mod 64)]
  else if (c <? 65536)%N then
    if ((55296 <=? c) && (c <=? 57343))%N then None
    else Some [byte_of_N (224 + c / 4096); byte_of_N (128 + (c / 64) mod 64);
               byte_of_N (128 + c mod 64)]
  else if (c <? 1114112)%N then
    Some [byte_of_N (240 + c / 262144); byte_of_N (128 + (c / 4096) mod 64);
          byte_of_N (128 + (c / 64) mod 64); byte_of_N (128 + c mod 64)]
  else None.

Fixpoint utf8_encode (s : pystr) : option (list Byte.byte) :=
  match s with
  | [] => Some []
  | c :: s' =>
      match utf8_encode_cp c, utf8_encode s' with
      | Some b, Some bs => Some (b ++ bs)
      | _, _ => None
      end
  end.

(** ** Decimal numbers *)

(** A finite [decimal.Decimal]: sign, coefficient and exponent, of value
    [(-1)^sign * coefficient * 10^exponent].  The metadata store only
    produces finite numbers. *)
Record decimal := Decimal { dec_sign : bool; dec_int : N; dec_exp : Z }.

Definition dec_signed (d : decimal) : Z :=
  if dec_sign d then - Z.of_N (dec_int d) else Z.of_N (dec_int d).

(** The rational number a decimal denotes. *)
Definition dec_value (d : decimal) : Q :=
  (inject_Z (dec_signed d) * Qpower (inject_Z 10) (dec_exp d))%Q.

(** Numerical comparison of two decimals ([Decimal._cmp]). *)
Definition dec_cmp (a b : decimal) : comparison :=
  let e := Z.min (dec_exp a) (dec_exp b) in
  (dec_signed a * 10 ^ (dec_exp a - e)) ?= (dec_signed b * 10 ^ (dec_exp b - e)).

Definition dec_eqb (a b : decimal) : bool :=
  match dec_cmp a b with Eq => true | _ => false end.

(** [Decimal.to_integral_value()] under the default context, which rounds
    half to even. *)
Definition to_integral_value (d : decimal) : decimal :=
  if 0 <=? dec_exp d then d
  else
    let p := (10 ^ Z.to_N (- dec_exp d))%N in
    let q := (dec_int d / p)%N in
    let r := (dec_int d mod p)%N in
    let q' := match (2 * r ?= p)%N with
              | Lt => q
              | Gt => (q + 1)%N
              | Eq => if N.even q then q else (q + 1)%N
              end in
    Decimal (dec_sign d) q' 0.

(** [int(d)]: truncation towards zero. *)
Definition int_of_decimal (d : decimal) : Z :=
  let s := if dec_sign d then (-1) else 1 in
  if 0 <=? dec_exp d then s * (Z.of_N (dec_int d) * 10 ^ dec_exp d)
  else s * Z.of_N (dec_int d / 10 ^ Z.to_N (- dec_exp d)).

(** A decimal has a zero fractional part when its exponent is not
    negative, or when the digits below the unit are all zero. *)
Definition dec_is_integral (d : decimal) : bool :=
  (0 <=? dec_exp d) || (dec_int d mod 10 ^ Z.to_N (- dec_exp d) =? 0)%N.

(** ** Floating-point numbers *)

(** A Python [float] is an IEEE 754 binary64 number. *)
Definition pyfloat := spec_float.

(** The integer nearest to [num / den], halves going to the even one. *)
Definition round_half_even (num den : Z) : Z :=
  let q := num / den in
  let r := num mod den in
  match 2 * r ?= den with
  | Lt => q
  | Gt => q + 1
  | Eq => if Z.even q then q else q + 1
  end.

(** Numerator and denominator of [(n / d) / 2^e] as integers. *)
Definition scaled_num (n e : Z) : Z := if e <? 0 then n * 2 ^ (- e) else n.
Definition scaled_den (d e : Z) : Z := if e <? 0 then d else d * 2 ^ e.

(** The exponent of the binary64 number nearest to [n / d], for positive
    [n] and [d]: the one that leaves 53 significant bits, and no less
    than -1074. *)
Definition binary64_exponent (n d : Z) : Z :=
  let e0 := Z.log2 n - Z.log2 d - 52 in
  let e1 := if scaled_num n e0 <? 2 ^ 52 * scaled_den d e0 then e0 - 1 else e0 in
  Z.max e1 (-1074).

(** A float from its sign, a mantissa of at most [2^53] and an exponent:
    a mantissa of [2^53] moves to the next exponent, an exponent beyond
    971 gives an infinity, a mantissa of zero a zero. *)
Definition pack_binary64 (s : bool) (m e : Z) : pyfloat :=
  let m' := if m =? 2 ^ 53 then 2 ^ 52 else m in
  let e' := if m =? 2 ^ 53 then e + 1 else e in
  match m' with
  | Zpos p => if e' <=? 971 then S754_finite s p e' else S754_infinity s
  | _ => S754_zero s
  end.

(** The binary64 number nearest to [n / d], ties to even, with the sign
    [s]; [n] is not negative and [d] is positive. *)
Definition round_binary64 (s : bool) (n d : Z) : pyfloat :=
  if n =? 0 then S754_zero s
  else
    let e := binary64_exponent n d in
    pack_binary64 s (round_half_even (scaled_num n e) (scaled_den d e)) e.

(** [float(d)]: the binary64 number nearest to the decimal, ties to
    even. *)
Definition float_of_decimal (d : decimal) : pyfloat :=
  if 0 <=? dec_exp d
  then round_binary64 (dec_sign d) (Z.of_N (dec_int d) * 10 ^ dec_exp d) 1
  else round_binary64 (dec_sign d) (Z.of_N (dec_int d)) (10 ^ (- dec_exp d)).

(** ** Python values *)

#[warnings="-register-all"]
Inductive pyval :=
| VNone
| VBool (b : bool)
| VInt (z : Z)
| VFloat (f : pyfloat)
| VStr (s : pystr)
| VList (l : list pyval)
| VDict (d : list (pystr * pyval))
| VDecimal (d : decimal).

(** The induction principle that reaches into lists and dicts. *)
Section pyval_nested_ind.
Variable P : pyval -> Prop.
Hypothesis HNone : P VNone.
Hypothesis HBool : forall b, P (VBool b).
Hypothesis HInt : forall z, P (VInt z).
Hypothesis HFloat : forall f, P (VFloat f).
Hypothesis HStr : forall s, P (VStr s).
Hypothesis HList : forall l, Forall P l -> P (VList l).
Hypothesis HDict : forall d, Forall (fun kv => P (snd kv)) d -> P (VDict d).
Hypothesis HDecimal : forall d, P (VDecimal d).

Fixpoint pyval_nested_ind (v : pyval) : P v :=
  match v with
  | VNone => HNone
  | VBool b => HBool b
  | VInt z => HInt z
  | VFloat f => HFloat f
  | VStr s => HStr s
  | VList l =>
      HList l ((fix go (l : list pyval) : Forall P l :=
                  match l with
                  | [] => @List.Forall_nil _ P
                  | x :: l' => @List.Forall_cons _ P x l' (pyval_nested_ind x) (go l')
                  end) l)
  | VDict d =>
      HDict d ((fix go (d : list (pystr * pyval)) : Forall (fun kv => P (snd kv)) d :=
                  match d with
                  | [] => @List.Forall_nil _ _
                  | kv :: d' =>
                      @List.Forall_cons _ (fun kv => P (snd kv)) kv d'
                        (pyval_nested_ind (snd kv)) (go d')
                  end) d)
  | VDecimal d => HDecimal d
  end.
End pyval_nested_ind.

(** [isinstance(obj, Decimal)] somewhere inside a value. *)
Fixpoint has_decimal (v : pyval) : bool :=
  match v with
  | VList l => existsb has_decimal l
  | VDict d => existsb (fun kv => has_decimal (snd kv)) d
  | VDecimal _ => true
  | _ => false
  end.

(** ** The numeric normalizer *)

Fixpoint _convert_decimals (obj : pyval) : pyval :=
  match obj with
  | VList l => VList (map _convert_decimals l)
  | VDict d => VDict (map (fun kv => (fst kv, _convert_decimals (snd kv))) d)
  | VDecimal d =>
      if dec_eqb d (to_integral_value d) then VInt (int_of_decimal d)
      else VFloat (float_of_decimal d)
  | _ => obj
  end.

(** ** Exceptions and results *)

(** An exception: its class, and the text [str(e)] gives. *)
Record exn := Exn { exn_class : string; exn_str : pystr }.

Inductive result (A : Type) :=
| Ok (a : A)
| Raise (e : exn).
Arguments Ok {A} a.
Arguments Raise {A} e.

Definition rbind {A B} (r : result A) (k : A -> result B) : result B :=
  match r with Ok a => k a | Raise e => Raise e end.

(** ** Operations of the interpreter on values *)

Definition type_name (v : pyval) : pystr :=
  match v with
  | VNone => u "NoneType"
  | VBool _ => u "bool"
  | VInt _ => u "int"
  | VFloat _ => u "float"
  | VStr _ => u "str"
  | VList _ => u "list"
  | VDict _ => u "dict"
  | VDecimal _ => u "decimal.Decimal"
  end.

Definition AttributeError (v : pyval) (attr : pystr) : exn :=
  Exn "AttributeError"
    (u "'" ++ type_name v ++ u "' object has no attribute '" ++ attr ++ u "'").

Definition TypeError (msg : pystr) : exn := Exn "TypeError" msg.

(** Truth value of an object, as [not x] and [x or y] test it. *)
Definition py_truthy (v : pyval) : bool :=
  match v with
  | VNone => false
  | VBool b => b
  | VInt z => negb (z =? 0)
  | VFloat f => match f with S754_zero _ => false | _ => true end
  | VStr s => match s with [] => false | _ => true end
  | VList l => match l with [] => false | _ => true end
  | VDict d => match d with [] => false | _ => true end
  | VDecimal d => negb (dec_int d =? 0)%N
  end.

(** [x or y]. *)
Definition py_or (x y : pyval) : pyval := if py_truthy x then x else y.

(** The entry of a dict under a key. *)
Fixpoint dict_lookup (k : pystr) (d : list (pystr * pyval)) : option pyval :=
  match d with
  | [] => None
  | (k', v) :: d' => if pystr_eqb k k' then Some v else dict_lookup k d'
  end.

(** [d[k] = v]: the entry is replaced in place, or added at the end. *)
Fixpoint dict_set (k : pystr) (v : pyval) (d : list (pystr * pyval)) : list (pystr * pyval) :=
  match d with
  | [] => [(k, v)]
  | (k', v') :: d' => if pystr_eqb k k' then (k, v) :: d' else (k', v') :: dict_set k v d'
  end.

(** [obj.get(k, default)]: only a dict has the method. *)
Definition py_get (obj : pyval) (k : pystr) (default : pyval) : result pyval :=
  match obj with
  | VDict d => Ok (match dict_lookup k d with Some v => v | None => default end)
  | _ => Raise (AttributeError obj (u "get"))
  end.

(** [obj[k]] on a dict. *)
Definition py_getitem (obj : pyval) (k : pystr) : result pyval :=
  match obj with
  | VDict d =>
      match dict_lookup k d with
      | Some v => Ok v
      | None => Raise (Exn "KeyError" (u "'" ++ k ++ u "'"))
      end
  | _ => Raise (TypeError (u "'" ++ type_name obj ++ u "' object is not subscriptable"))
  end.

(** [k in obj] for a dict. *)
Definition dict_contains (k : pystr) (d : list (pystr * pyval)) : bool :=
  match dict_lookup k d with Some _ => true | None => false end.

(** *** Numbers as extended rationals, for comparisons across types *)

Inductive xnum :=
| XNaN
| XInf (neg : bool)
| XFin (q : Q).

Definition pow2 (e : Z) : Q :=
  match e with
  | Z0 => 1%Q
  | Zpos p => inject_Z (2 ^ Zpos p)
  | Zneg p => (1 # Pos.pow 2 p)%Q
  end.

Definition pow10 (e : Z) : Q :=
  match e with
  | Z0 => 1%Q
  | Zpos p => inject_Z (10 ^ Zpos p)
  | Zneg p => (1 # Pos.pow 10 p)%Q
  end.

Definition float_xnum (f : pyfloat) : xnum :=
  match f with
  | S754_zero _ => XFin 0%Q
  | S754_infinity s => XInf s
  | S754_nan => XNaN
  | S754_finite s m e =>
      XFin (inject_Z (if s then Zneg m else Zpos m) * pow2 e)%Q
  end.

Definition xnum_of (v : pyval) : option xnum :=
  match v with
  | VBool b => Some (XFin (inject_Z (if b then 1 else 0)))
  | VInt z => Some (XFin (inject_Z z))
  | VFloat f => Some (float_xnum f)
  | VDecimal d => Some (XFin (inject_Z (dec_signed d) * pow10 (dec_exp d))%Q)
  | _ => None
  end.

Definition xnum_eqb (a b : xnum) : bool :=
  match a, b with
  | XFin p, XFin q => Qeq_bool p q
  | XInf s, XInf t => Bool.eqb s t
  | _, _ => false
  end.

Definition xnum_ltb (a b : xnum) : bool :=
  match a, b with
  | XFin p, XFin q => negb (Qle_bool q p)
  | XInf s, XInf t => s && negb t
  | XInf s, XFin _ => s
  | XFin _, XInf t => negb t
  | _, _ => false
  end.

(** [a == b] on values (never raises on these types). *)
Fixpoint py_eq (a b : pyval) : bool :=
  match a, b with
  | VNone, VNone => true
  | VStr s, VStr t => pystr_eqb s t
  | VList la, VList lb =>
      (fix go (la lb : list pyval) : bool :=
         match la, lb with
         | [], [] => true
         | x :: la', y :: lb' => py_eq x y && go la' lb'
         | _, _ => false
         end) la lb
  | VDict da, VDict db =>
      (length da =? length db)%nat &&
      (fix go (da : list (pystr * pyval)) : bool :=
         match da with
         | [] => true
         | kv :: da' =>
             match dict_lookup (fst kv) db with
             | Some w => py_eq (snd kv) w && go da'
             | None => false
             end
         end) da
  | _, _ =>
      match xnum_of a, xnum_of b with
      | Some x, Some y => xnum_eqb x y
      | _, _ => false
      end
  end.

Definition unorderable (a b : pyval) : exn :=
  TypeError (u "'<' not supported between instances of '" ++ type_name a
             ++ u "' and '" ++ type_name b ++ u "'").

(** [a < b]: text with text, numbers with numbers, lists element by
    element; any other pairing raises [TypeError]. *)
Fixpoint py_lt (a b : pyval) : result bool :=
  match a, b with
  | VStr s, VStr t => Ok (pystr_ltb s t)
  | VList la, VList lb =>
      (fix go (la lb : list pyval) : result bool :=
         match la, lb with
         | [], [] => Ok false
         | [], _ :: _ => Ok true
         | _ :: _, [] => Ok false
         | x :: la', y :: lb' => if py_eq x y then go la' lb' else py_lt x y
         end) la lb
  | _, _ =>
      match xnum_of a, xnum_of b with
      | Some x, Some y => Ok (xnum_ltb x y)
      | _, _ => Raise (unorderable a b)
      end
  end.

(** ** The JSON decoder ([json.loads])

    The decoder of the standard library, as far as the handler can see
    it: the value decoded from a text, or the fact that decoding failed.
    The interpreter's limits on nesting depth and on the number of digits
    of an integer are left out. *)

Definition is_ws (c : N) : bool :=
  ((c =? 32) || (c =? 9) || (c =? 10) || (c =? 13))%N.

Fixpoint skip_ws (s : pystr) : pystr :=
  match s with
  | c :: s' => if is_ws c then skip_ws s' else s
  | [] => []
  end.

Definition is_digit (c : N) : bool := ((48 <=? c) && (c <=? 57))%N.

Fixpoint span_digits (s : pystr) : pystr * pystr :=
  match s with
  | c :: s' =>
      if is_digit c then let '(ds, r) := span_digits s' in (c :: ds, r) else ([], s)
  | [] => ([], [])
  end.

Definition digits_value (ds : pystr) : N :=
  fold_left (fun acc c => (10 * acc + (c - 48))%N) ds 0%N.

Definition hex_value (c : N) : option N :=
  if is_digit c then Some (c - 48)%N
  else if ((97 <=? c) && (c <=? 102))%N then Some (c - 87)%N
  else if ((65 <=? c) && (c <=? 70))%N then Some (c - 55)%N
  else None.

Definition hex4 (a b c d : N) : option N :=
  match hex_value a, hex_value b, hex_value c, hex_value d with
  | Some x, Some y, Some z, Some w => Some (4096 * x + 256 * y + 16 * z + w)%N
  | _, _, _, _ => None
  end.

Fixpoint strip_prefix (p s : pystr) : option pystr :=
  match p, s with
  | [], _ => Some s
  | x :: p', y :: s' => if (x =? y)%N then strip_prefix p' s' else None
  | _ :: _, [] => None
  end.

(** The body of a string literal, after its opening quote: the decoded
    text and what follows the closing quote.  [acc] holds the text read
    so far, reversed. *)
Fixpoint scanstring (s acc : pystr) : option (pystr * pystr) :=
  match s with
  | [] => None
  | c :: s' =>
      if (c =? 34)%N then Some (rev acc, s')
      else if (c <? 32)%N then None
      else if (c =? 92)%N then
        match s' with
        | [] => None
        | e :: s'' =>
            if (e =? 117)%N then
              match s'' with
              | h1 :: h2 :: h3 :: h4 :: r =>
                  match hex4 h1 h2 h3 h4 with
                  | None => None
                  | Some hi =>
                      let lone := scanstring r (hi :: acc) in
                      if ((55296 <=? hi) && (hi <=? 56319))%N then
                        match r with
                        | b :: v :: l1 :: l2 :: l3 :: l4 :: r' =>
                            if ((b =? 92) && (v =? 117))%N then
                              match hex4 l1 l2 l3 l4 with
                              | Some lo =>
                                  if ((56320 <=? lo) && (lo <=? 57343))%N then
                                    scanstring r'
                                      ((65536 + ((hi - 55296) * 1024 + (lo - 56320)))%N :: acc)
                                  else lone
                              | None => lone
                              end
                            else lone
                        | _ => lone
                        end
                      else lone
                  end
              | _ => None
              end
            else
              let plain (x : N) := scanstring s'' (x :: acc) in
              if (e =? 34)%N then plain 34%N
              else if (e =? 92)%N then plain 92%N
              else if (e =? 47)%N then plain 47%N
              else if (e =? 98)%N then plain 8%N
              else if (e =? 102)%N then plain 12%N
              else if (e =? 110)%N then plain 10%N
              else if (e =? 114)%N then plain 13%N
              else if (e =? 116)%N then plain 9%N
              else None
        end
      else scanstring s' (c :: acc)
  end.

(** A number literal: an optional minus sign, then a single 0 or a digit
    1-9 followed by digits, then optionally a point with at least one
    digit, then optionally e or E, a sign and at least one digit.  With a
    fraction or an exponent it is a [float], else an [int]. *)
Definition match_number (s : pystr) : option (pyval * pystr) :=
  let '(neg, s1) := match s with
                    | c :: r => if (c =? 45)%N then (true, r) else (false, s)
                    | [] => (false, s)
                    end in
  let int_part :=
    match s1 with
    | c :: r =>
        if (c =? 48)%N then Some ([c], r)
        else if is_digit c then let '(ds, r') := span_digits r in Some (c :: ds, r')
        else None
    | [] => None
    end in
  match int_part with
  | None => None
  | Some (ids, r1) =>
      let '(frac, r2) :=
        match r1 with
        | c :: r =>
            if (c =? 46)%N then
              match span_digits r with
              | ([], _) => (None, r1)
              | (fds, r') => (Some fds, r')
              end
            else (None, r1)
        | [] => (None, r1)
        end in
      let '(ex, r3) :=
        match r2 with
        | c :: r =>
            if ((c =? 101) || (c =? 69))%N then
              let '(eneg, r') :=
                match r with
                | sg :: r'' =>
                    if (sg =? 45)%N then (true, r'')
                    else if (sg =? 43)%N then (false, r'')
                    else (false, r)
                | [] => (false, r)
                end in
              match span_digits r' with
              | ([], _) => (None, r2)
              | (eds, r'') =>
                  (Some (if eneg then - Z.of_N (digits_value eds)
                         else Z.of_N (digits_value eds)), r'')
              end
            else (None, r2)
        | [] => (None, r2)
        end in
      match frac, ex with
      | None, None =>
          Some (VInt (if neg then - Z.of_N (digits_value ids)
                      else Z.of_N (digits_value ids)), r3)
      | _, _ =>
          let fds := match frac with Some f => f | None => [] end in
          let e := match ex with Some e => e | None => 0 end in
          Some (VFloat (float_of_decimal
                          (Decimal neg (digits_value (ids ++ fds))
                             (e - Z.of_nat (length fds)))), r3)
      end
  end.

(** One JSON value at the head of the text ([scan_once]), with the
    element loop of an array and the member loop of an object.  Every
    call spends one unit of [fuel]; [json_fuel] gives enough for any
    text. *)
Fixpoint scan_once (fuel : nat) (s : pystr) : option (pyval * pystr) :=
  match fuel with
  | O => None
  | S fuel' =>
      match s with
      | [] => None
      | c :: r =>
          if (c =? 34)%N then
            match scanstring r [] with
            | Some (t, r') => Some (VStr t, r')
            | None => None
            end
          else if (c =? 123)%N then
            match skip_ws r with
            | c' :: r' =>
                if (c' =? 125)%N then Some (VDict [], r')
                else if (c' =? 34)%N then parse_members fuel' r' []
                else None
            | [] => None
            end
          else if (c =? 91)%N then
            match skip_ws r with
            | c' :: r' =>
                if (c' =? 93)%N then Some (VList [], r')
                else parse_elements fuel' (c' :: r') []
            | [] => None
            end
          else
            match strip_prefix (u "null") s, strip_prefix (u "true") s,
                  strip_prefix (u "false") s with
            | Some r', _, _ => Some (VNone, r')
            | _, Some r', _ => Some (VBool true, r')
            | _, _, Some r' => Some (VBool false, r')
            | _, _, _ =>
                match strip_prefix (u "NaN") s, strip_prefix (u "Infinity") s,
                      strip_prefix (u "-Infinity") s with
                | Some r', _, _ => Some (VFloat S754_nan, r')
                | _, Some r', _ => Some (VFloat (S754_infinity false), r')
                | _, _, Some r' => Some (VFloat (S754_infinity true), r')
                | _, _, _ => match_number s
                end
            end
      end
  end
with parse_elements (fuel : nat) (s : pystr) (acc : list pyval) : option (pyval * pystr) :=
  match fuel with
  | O => None
  | S fuel' =>
      match scan_once fuel' s with
      | None => None
      | Some (v, r) =>
          match skip_ws r with
          | c :: r' =>
              if (c =? 93)%N then Some (VList (rev (v :: acc)), r')
              else if (c =? 44)%N then parse_elements fuel' (skip_ws r') (v :: acc)
              else None
          | [] => None
          end
      end
  end
with parse_members (fuel : nat) (s : pystr) (acc : list (pystr * pyval)) : option (pyval * pystr) :=
  match fuel with
  | O => None
  | S fuel' =>
      match scanstring s [] with
      | None => None
      | Some (k, r) =>
          match skip_ws r with
          | c :: r1 =>
              if (c =? 58)%N then
                match scan_once fuel' (skip_ws r1) with
                | None => None
                | Some (v, r2) =>
                    let acc' := dict_set k v acc in
                    match skip_ws r2 with
                    | c' :: r3 =>
                        if (c' =? 125)%N then Some (VDict acc', r3)
                        else if (c' =? 44)%N then
                          match skip_ws r3 with
                          | c'' :: r4 =>
                              if (c'' =? 34)%N then parse_members fuel' r4 acc' else None
                          | [] => None
                          end
                        else None
                    | [] => None
                    end
                end
              else None
          | [] => None
          end
      end
  end.

Definition json_fuel (s : pystr) : nat := (2 * length s + 2)%nat.

Definition JSONDecodeError : exn := Exn "JSONDecodeError" [].

(** [json.loads(s)].  The text of the exceptions, which the handler
    never reads, is left empty. *)
Definition json_loads (s : pyval) : result pyval :=
  match s with
  | VStr t =>
      match t with
      | 65279%N :: _ => Raise JSONDecodeError
      | _ =>
          match scan_once (json_fuel t) (skip_ws t) with
          | Some (v, r) =>
              match skip_ws r with
              | [] => Ok v
              | _ :: _ => Raise JSONDecodeError
              end
          | None => Raise JSONDecodeError
          end
      end
  | _ => Raise (Exn "TypeError" [])
  end.

(** ** The JSON encoder ([json.dumps]) *)

(** The text [json.dumps] writes for a value, named by the value it
    denotes. *)
Inductive jsontext := JsonText (v : pyval).

(** [json.dumps(v)]: a [Decimal] is the one kind of value here that the
    encoder refuses. *)
Definition json_dumps (v : pyval) : result jsontext :=
  if has_decimal v
  then Raise (TypeError (u "Object of type Decimal is not JSON serializable"))
  else Ok (JsonText v).

(** ** The world around the handler *)

(** What [file_content.encode() if isinstance(file_content, str) else
    file_content] evaluates to: encoded bytes, or the object as it is. *)
Inductive payload :=
| Bytes (b : list Byte.byte)
| Object (v : pyval).

Record s3_object := S3Object {
  obj_body : payload;
  obj_content_type : pyval;
  obj_metadata : list (pystr * pyval)
}.

(** The requests sent to the two services. *)
Inductive call :=
| PutObject (Bucket Key : pystr) (Body : payload) (ContentType : pyval)
    (Metadata : list (pystr * pyval))
| PutItem (TableName : pystr) (Item : list (pystr * pyval))
| Scan (TableName : pystr)
| GetItem (TableName : pystr) (Key : list (pystr * pyval))
| GeneratePresignedUrl (ClientMethod Bucket Key : pystr) (ExpiresIn : Z).

(** The blob store (objects by bucket and key), the metadata table
    (records by [file_id]) and the requests made so far, oldest first.
    Logging is not part of the world. *)
Record world := World {
  blobs : gmap (pystr * pystr) s3_object;
  table : gmap pystr (list (pystr * pyval));
  calls : list call
}.

(** What the surroundings decide for one invocation: the configuration,
    the identifier and the time drawn, whether a service call fails and
    with which exception, and the library functions whose result the
    handler only passes on. *)
Record env := Env {
  BUCKET_NAME : pystr;
  TABLE_NAME : pystr;
  uuid4 : pystr;
  utcnow_isoformat : pystr;
  format_other : pyval -> pystr;
  unquote_escapes : pystr -> pystr;
  presigned_url : pystr -> pystr -> Z -> pystr;
  put_object_error : option exn;
  put_item_error : option exn;
  scan_error : option exn;
  get_item_error : option exn;
  presign_error : option exn
}.

(** State and exceptions: a computation maps the world to a result and
    the world it leaves, also when it raises. *)
Definition M (A : Type) : Type := world -> result A * world.

Definition ret {A} (a : A) : M A := fun w => (Ok a, w).

Definition bind {A B} (m : M A) (k : A -> M B) : M B :=
  fun w => match m w with
           | (Ok a, w') => k a w'
           | (Raise e, w') => (Raise e, w')
           end.

Definition lift {A} (r : result A) : M A := fun w => (r, w).

(** [try: m  except Exception as e: h e]. *)
Definition try_except {A} (m : M A) (h : exn -> M A) : M A :=
  fun w => match m w with
           | (Ok a, w') => (Ok a, w')
           | (Raise e, w') => h e w'
           end.

(** The same for code that does not touch the world. *)
Definition rcatch {A} (r : result A) (h : exn -> result A) : result A :=
  match r with Ok a => Ok a | Raise e => h e end.

#[export] Instance result_ret : MRet result := fun A a => Ok a.
#[export] Instance result_bind : MBind result := fun A B k r => rbind r k.
#[export] Instance M_ret : MRet M := fun A a => ret a.
#[export] Instance M_bind : MBind M := fun A B k m => bind m k.

Definition record_call (c : call) (w : world) : world :=
  World (blobs w) (table w) (calls w ++ [c]).

(** A number is stored, and read back, as a [Decimal]. *)
Fixpoint ddb_typed (v : pyval) : pyval :=
  match v with
  | VInt z => VDecimal (Decimal (z <? 0) (Z.abs_N z) 0)
  | VList l => VList (map ddb_typed l)
  | VDict d => VDict (map (fun kv => (fst kv, ddb_typed (snd kv))) d)
  | _ => v
  end.

(** [s3.put_object(Bucket=, Key=, Body=, ContentType=, Metadata=)]. *)
Definition s3_put_object (E : env) (Bucket Key : pystr) (Body : payload)
    (ContentType : pyval) (Metadata : list (pystr * pyval)) : M unit :=
  fun w =>
    let w' := record_call (PutObject Bucket Key Body ContentType Metadata) w in
    match put_object_error E with
    | Some e => (Raise e, w')
    | None =>
        (Ok tt, World (<[(Bucket, Key) := S3Object Body ContentType Metadata]> (blobs w'))
                  (table w') (calls w'))
    end.

(** [s3.generate_presigned_url(ClientMethod, Params={Bucket, Key},
    ExpiresIn=)]. *)
Definition s3_generate_presigned_url (E : env) (ClientMethod Bucket Key : pystr)
    (ExpiresIn : Z) : M pystr :=
  fun w =>
    let w' := record_call (GeneratePresignedUrl ClientMethod Bucket Key ExpiresIn) w in
    match presign_error E with
    | Some e => (Raise e, w')
    | None => (Ok (presigned_url E Bucket Key ExpiresIn), w')
    end.

(** [table.put_item(Item=)]: the record replaces the one stored under
    the same [file_id]. *)
Definition table_put_item (E : env) (Item : list (pystr * pyval)) : M unit :=
  fun w =>
    let w' := record_call (PutItem (TABLE_NAME E) Item) w in
    match put_item_error E with
    | Some e => (Raise e, w')
    | None =>
        match dict_lookup (u "file_id") Item with
        | Some (VStr k) =>
            (Ok tt, World (blobs w')
                      (<[k := map (fun kv => (fst kv, ddb_typed (snd kv))) Item]> (table w'))
                      (calls w'))
        | _ => (Raise (Exn "ClientError" (u "One of the required keys was not given a value")), w')
        end
    end.

(** [table.scan()]: every record of the table, in the store's order. *)
Definition table_scan (E : env) : M pyval :=
  fun w =>
    let w' := record_call (Scan (TABLE_NAME E)) w in
    match scan_error E with
    | Some e => (Raise e, w')
    | None =>
        let items := map (fun kv => VDict (snd kv)) (map_to_list (table w')) in
        (Ok (VDict [(u "Items", VList items);
                    (u "Count", VInt (Z.of_nat (length items)));
                    (u "ScannedCount", VInt (Z.of_nat (length items)))]), w')
    end.

(** [table.get_item(Key={"file_id": ...})]: the response carries an
    [Item] only when a record is stored under the key. *)
Definition table_get_item (E : env) (Key : list (pystr * pyval)) : M pyval :=
  fun w =>
    let w' := record_call (GetItem (TABLE_NAME E) Key) w in
    match get_item_error E with
    | Some e => (Raise e, w')
    | None =>
        match dict_lookup (u "file_id") Key with
        | Some (VStr k) =>
            match table w' !! k with
            | Some item => (Ok (VDict [(u "Item", VDict item)]), w')
            | None => (Ok (VDict []), w')
            end
        | _ => (Raise (Exn "ClientError" (u "The provided key element does not match the schema")), w')
        end
    end.

(** ** The handler *)

Definition MAX_BYTES : Z := 20 * 1024 * 1024.

(** The response envelope.  [headers] is the optional third argument;
    no caller passes it. *)
Record response := Response {
  statusCode : Z;
  headers : list (pystr * pyval);
  body : jsontext
}.

Definition _resp (status : Z) (body : pyval) (headers : option (list (pystr * pyval)))
  : result response :=
  text ← json_dumps body;
  let out_headers := [(u "content-type", VStr (u "application/json"))] in
  Ok (Response status
        (match headers with
         | Some h => fold_left (fun acc kv => dict_set (fst kv) (snd kv) acc) h out_headers
         | None => out_headers
         end)
        text).

Definition _parse_request (event : pyval) : result (pyval * pyval) :=
  rc0 ← py_get event (u "requestContext") VNone;
  let rc := py_or rc0 (VDict []) in
  http ← py_get rc (u "http") VNone;
  let v1 :=
    method ← py_get event (u "httpMethod") (VStr []);
    path ← py_get event (u "path") (VStr []);
    Ok (method, path) in
  match http with
  | VDict h =>
      if dict_contains (u "method") h then
        method ← py_get http (u "method") (VStr []);
        path ← py_get event (u "rawPath") (VStr []);
        Ok (method, path)
      else v1
  | _ => v1
  end.

Definition _json_body (event : pyval) : result pyval :=
  rcatch
    (body ← py_get event (u "body") VNone;
     match body with
     | VNone => Ok (VDict [])
     | _ => json_loads body
     end)
    (fun _ => Ok (VDict [])).

(** [f"{v}"]: a [str] is inserted as it is; how any other value is
    written is the interpreter's business. *)
Definition py_format (E : env) (v : pyval) : pystr :=
  match v with
  | VStr s => s
  | _ => format_other E v
  end.

(** [len(data)]. *)
Definition py_len (data : payload) : result Z :=
  match data with
  | Bytes b => Ok (Z.of_nat (length b))
  | Object (VStr s) => Ok (Z.of_nat (length s))
  | Object (VList l) => Ok (Z.of_nat (length l))
  | Object (VDict d) => Ok (Z.of_nat (length d))
  | Object v => Raise (TypeError (u "object of type '" ++ type_name v ++ u "' has no len()"))
  end.

(** [file_content.encode() if isinstance(file_content, str) else
    file_content]. *)
Definition encode_content (file_content : pyval) : result payload :=
  match file_content with
  | VStr s =>
      match utf8_encode s with
      | Some b => Ok (Bytes b)
      | None =>
          Raise (Exn "UnicodeEncodeError"
                   (u "'utf-8' codec can't encode character: surrogates not allowed"))
      end
  | v => Ok (Object v)
  end.

Definition is_none (v : pyval) : bool :=
  match v with VNone => true | _ => false end.

Definition error_body (msg : pystr) : pyval := VDict [(u "error", VStr msg)].

Definition handle_upload (E : env) (event : pyval) : M response :=
  body ← lift (_json_body event);
  file_name ← lift (py_get body (u "file_name") VNone);
  file_content ← lift (py_get body (u "file_content") VNone);
  content_type0 ← lift (py_get body (u "content_type") VNone);
  let content_type := py_or content_type0 (VStr (u "text/plain")) in
  if negb (py_truthy file_name) || is_none file_content then
    lift (_resp 400 (error_body (u "Provide file_name and file_content")) None)
  else
    data ← lift (encode_content file_content);
    size_bytes ← lift (py_len data);
    if size_bytes >? MAX_BYTES then
      lift (_resp 413 (error_body (u "File too large (>20MB)")) None)
    else
      let file_id := uuid4 E in
      let key := file_id ++ u "_" ++ py_format E file_name in
      returned ← try_except
        (_ ← s3_put_object E (BUCKET_NAME E) key data content_type
               [(u "file-id", VStr file_id); (u "original-name", file_name)];
         mret None)
        (fun e =>
           r ← lift (_resp 500 (error_body (u "S3 upload failed: " ++ exn_str e)) None);
           mret (Some r));
      match returned with
      | Some r => mret r
      | None =>
          returned ← try_except
            (_ ← table_put_item E
                   [(u "file_id", VStr file_id);
                    (u "file_name", file_name);
                    (u "size", VInt size_bytes);
                    (u "upload_timestamp", VStr (utcnow_isoformat E));
                    (u "content_type", content_type)];
             mret None)
            (fun e =>
               r ← lift (_resp 500 (error_body (u "DynamoDB write failed: " ++ exn_str e)) None);
               mret (Some r));
          match returned with
          | Some r => mret r
          | None =>
              lift (_resp 200 (VDict [(u "file_id", VStr file_id);
                                      (u "file_name", file_name)]) None)
          end
      end.

(** *** [list.sort(key=..., reverse=True)] *)

(** The place of a new element in a list already in order: behind every
    element that is not greater, which keeps the sort stable. *)
Fixpoint sort_insert (x : pyval * pyval) (l : list (pyval * pyval))
  : result (list (pyval * pyval)) :=
  match l with
  | [] => Ok [x]
  | y :: l' =>
      lt ← py_lt (fst x) (fst y);
      if lt : bool then Ok (x :: y :: l')
      else (r ← sort_insert x l'; Ok (y :: r))
  end.

Fixpoint sort_keyed (acc l : list (pyval * pyval)) : result (list (pyval * pyval)) :=
  match l with
  | [] => Ok acc
  | x :: l' => acc' ← sort_insert x acc; sort_keyed acc' l'
  end.

Fixpoint keyed (key : pyval -> result pyval) (l : list pyval)
  : result (list (pyval * pyval)) :=
  match l with
  | [] => Ok []
  | x :: l' => k ← key x; r ← keyed key l'; Ok ((k, x) :: r)
  end.

(** The keys are computed once, up front; with [reverse=True] the list
    is reversed, sorted in ascending order with [<], and reversed
    again.  Which pairs the interpreter compares is its own matter; it
    shows only when a comparison raises. *)
Definition py_sort_reverse (key : pyval -> result pyval) (l : pyval) : result pyval :=
  match l with
  | VList xs =>
      ks ← keyed key xs;
      sorted ← sort_keyed [] (rev ks);
      Ok (VList (rev (map snd sorted)))
  | _ => Raise (AttributeError l (u "sort"))
  end.

Definition handle_list (E : env) : M response :=
  try_except
    (resp ← table_scan E;
     items ← lift (py_get resp (u "Items") (VList []));
     let items := _convert_decimals items in
     items ← lift (py_sort_reverse (fun x => py_get x (u "upload_timestamp") (VStr [])) items);
     lift (_resp 200 items None))
    (fun e => lift (_resp 500 (error_body (u "DynamoDB scan failed: " ++ exn_str e)) None)).

Definition handle_download (E : env) (file_id : pystr) : M response :=
  fetched ← try_except
    (res ← table_get_item E [(u "file_id", VStr file_id)];
     item ← lift (py_get res (u "Item") VNone);
     if negb (py_truthy item) then
       r ← lift (_resp 404 (error_body (u "File not found")) None);
       mret (inl r)
     else mret (inr (_convert_decimals item)))
    (fun e =>
       r ← lift (_resp 500 (error_body (u "DynamoDB read failed: " ++ exn_str e)) None);
       mret (inl r));
  match fetched with
  | inl r => mret r
  | inr item =>
      file_name ← lift (py_getitem item (u "file_name"));
      let key := file_id ++ u "_" ++ py_format E file_name in
      try_except
        (url ← s3_generate_presigned_url E (u "get_object") (BUCKET_NAME E) key 3600;
         lift (_resp 200 (VDict [(u "file_id", VStr file_id);
                                 (u "file_name", file_name);
                                 (u "download_url", VStr url)]) None))
        (fun e =>
           lift (_resp 500 (error_body (u "Could not generate download URL: " ++ exn_str e)) None))
  end.

(** *** Text operations of the router *)

Definition py_startswith (v : pyval) (prefix : pystr) : result bool :=
  match v with
  | VStr s => Ok (match strip_prefix prefix s with Some _ => true | None => false end)
  | _ => Raise (AttributeError v (u "startswith"))
  end.

(** [s.split(sep, 1)]: cut at the first occurrence of [sep]. *)
Fixpoint split_once (sep s : pystr) : list pystr :=
  match strip_prefix sep s with
  | Some r => [[]; r]
  | None =>
      match s with
      | [] => [[]]
      | c :: s' =>
          match split_once sep s' with
          | [a; b] => [c :: a; b]
          | _ => [s]
          end
      end
  end.

Definition py_split_once (v : pyval) (sep : pystr) : result (list pystr) :=
  match v with
  | VStr s => Ok (split_once sep s)
  | _ => Raise (AttributeError v (u "split"))
  end.

Definition py_index {A} (l : list A) (i : nat) : result A :=
  match l !! i with
  | Some x => Ok x
  | None => Raise (Exn "IndexError" (u "list index out of range"))
  end.

(** [urllib.parse.unquote]: a text without a percent sign is returned as
    it is; decoding the escapes of any other is the library's. *)
Definition unquote (E : env) (s : pystr) : pystr :=
  if existsb (N.eqb 37) s then unquote_escapes E s else s.

(** The entry point.  The log line written first has no effect on the
    answer and is left out, as is the unused [context] argument. *)
Definition lambda_handler (E : env) (event : pyval) : M response :=
  mp ← lift (_parse_request event);
  let method := fst mp in
  let path := snd mp in
  if py_eq method (VStr (u "GET"))
     && (py_eq path (VStr (u "/")) || py_eq path (VStr (u "/health"))) then
    lift (_resp 200 (VDict [(u "status", VStr (u "ok"))]) None)
  else if py_eq method (VStr (u "POST")) && py_eq path (VStr (u "/upload")) then
    handle_upload E event
  else if py_eq method (VStr (u "GET")) && py_eq path (VStr (u "/files")) then
    handle_list E
  else if py_eq method (VStr (u "GET")) then
    is_download ← lift (py_startswith path (u "/files/"));
    if is_download : bool then
      parts ← lift (py_split_once path (u "/files/"));
      rest ← lift (py_index parts 1);
      handle_download E (unquote E rest)
    else lift (_resp 404 (error_body (u "Not Found")) None)
  else lift (_resp 404 (error_body (u "Not Found")) None).

(** ** Vocabulary of the specification *)

Definition is_dict (v : pyval) : bool :=
  match v with VDict _ => true | _ => false end.

Definition is_str (v : pyval) : bool :=
  match v with VStr _ => true | _ => false end.

Definition is_scan (c : call) : bool :=
  match c with Scan _ => true | _ => false end.

(** The value of a body field, [None] when the field is missing, as
    [body.get(k)] gives it. *)
Definition field (k : pystr) (d : list (pystr * pyval)) : pyval :=
  match dict_lookup k d with Some v => v | None => VNone end.

(** The field of an event record under a key, the empty text when it is
    missing. *)
Definition field_or_empty (k : pystr) (event : list (pystr * pyval)) : pyval :=
  match dict_lookup k event with Some v => v | None => VStr [] end.

Definition request_context (event : list (pystr * pyval)) : pyval :=
  field (u "requestContext") event.

(** The method field of the nested HTTP descriptor, when the event
    carries one. *)
Definition descriptor_method (event : list (pystr * pyval)) : option pyval :=
  match dict_lookup (u "requestContext") event with
  | Some (VDict rc) =>
      match dict_lookup (u "http") rc with
      | Some (VDict h) => dict_lookup (u "method") h
      | _ => None
      end
  | _ => None
  end.

Definition text_or_missing (v : option pyval) : bool :=
  match v with Some v => is_str v | None => true end.

(** Every field the request normalizer reads holds text, when present. *)
Definition request_fields_are_text (event : list (pystr * pyval)) : bool :=
  text_or_missing (descriptor_method event)
  && text_or_missing (dict_lookup (u "rawPath") event)
  && text_or_missing (dict_lookup (u "httpMethod") event)
  && text_or_missing (dict_lookup (u "path") event).

Definition json_headers : list (pystr * pyval) :=
  [(u "content-type", VStr (u "application/json"))].

(** The response [_resp(status, body)] builds when [body] can be
    encoded. *)
Definition respond (status : Z) (body : pyval) : response :=
  Response status json_headers (JsonText body).

(** The pieces of an upload, as the handler computes them from the
    parsed body. *)
Definition upload_key (E : env) (file_name : pyval) : pystr :=
  uuid4 E ++ u "_" ++ py_format E file_name.

Definition upload_content_type (body : list (pystr * pyval)) : pyval :=
  py_or (field (u "content_type") body) (VStr (u "text/plain")).

Definition upload_metadata (E : env) (body : list (pystr * pyval)) : list (pystr * pyval) :=
  [(u "file-id", VStr (uuid4 E)); (u "original-name", field (u "file_name") body)].

Definition upload_put_object (E : env) (body : list (pystr * pyval)) (data : payload) : call :=
  PutObject (BUCKET_NAME E) (upload_key E (field (u "file_name") body)) data
    (upload_content_type body) (upload_metadata E body).

Definition upload_object (E : env) (body : list (pystr * pyval)) (data : payload) : s3_object :=
  S3Object data (upload_content_type body) (upload_metadata E body).

Definition upload_item (E : env) (body : list (pystr * pyval)) (size_bytes : Z)
  : list (pystr * pyval) :=
  [(u "file_id", VStr (uuid4 E));
   (u "file_name", field (u "file_name") body);
   (u "size", VInt size_bytes);
   (u "upload_timestamp", VStr (utcnow_isoformat E));
   (u "content_type", upload_content_type body)].

(** The pieces of a download. *)
Definition download_key (E : env) (file_id : pystr) (file_name : pyval) : pystr :=
  file_id ++ u "_" ++ py_format E file_name.

Definition download_body (E : env) (file_id : pystr) (file_name : pyval) : pyval :=
  VDict [(u "file_id", VStr file_id);
         (u "file_name", file_name);
         (u "download_url",
          VStr (presigned_url E (BUCKET_NAME E) (download_key E file_id file_name) 3600))].

(** A character that stands for itself inside a JSON string literal. *)
Definition plain_char (c : N) : bool :=
  (negb (c =? 34) && negb (c <? 32) && negb (c =? 92))%N.

(** The timestamp a record is listed under: its [upload_timestamp], the
    empty text when the record has none. *)
Definition timestamp_of (record : pyval) : pystr :=
  match record with
  | VDict d =>
      match dict_lookup (u "upload_timestamp") d with
      | Some (VStr s) => s
      | _ => []
      end
  | _ => []
  end.

(** The timestamp of a stored record is a text, when it has one. *)
Definition timestamp_is_text (item : list (pystr * pyval)) : bool :=
  text_or_missing (dict_lookup (u "upload_timestamp") item).

(** [a] may come before [b] in a listing, newest first: the timestamp of
    [a] is not below that of [b]. *)
Definition newest_first (a b : pyval) : Prop :=
  pystr_ltb (timestamp_of a) (timestamp_of b) = false.

Definition scanned_records (w : world) : list pyval :=
  map (fun kv => VDict (snd kv)) (map_to_list (table w)).

Definition is_timed_record (x : pyval) : bool :=
  match x with VDict d => timestamp_is_text d | _ => false end.

Definition key_text (p : pyval * pyval) : pystr :=
  match fst p with VStr s => s | _ => [] end.

Definition keyed_ascending (p q : pyval * pyval) : Prop :=
  pystr_ltb (key_text q) (key_text p) = false.

(** A content that is a JSON number or boolean. *)
Definition has_no_len (v : pyval) : bool :=
  match v with VBool _ | VInt _ | VFloat _ => true | _ => false end.

(** *** Rounding to the nearest binary64 number *)

Definition float_sign (f : pyfloat) : bool :=
  match f with
  | S754_zero s | S754_infinity s | S754_finite s _ _ => s
  | S754_nan => false
  end.

(** The absolute value of a finite float, as a rational. *)
Definition float_magnitude (f : pyfloat) : Q :=
  match f with
  | S754_finite _ m e => (inject_Z (Zpos m) * pow2 e)%Q
  | _ => 0%Q
  end.

(** The finite binary64 numbers: 53 bits of mantissa, exponents from
    -1074 to 971. *)
Definition binary64_value (g : Q) : Prop :=
  exists M E : Z, Z.abs M < 2 ^ 53 /\ -1074 <= E <= 971 /\ (g == inject_Z M * pow2 E)%Q.

(** From this magnitude on, rounding to nearest overflows: the middle
    between the largest finite binary64 number and [2^1024]. *)
Definition binary64_overflow : Q := inject_Z (2 ^ 1024 - 2 ^ 970).

(** A float in its canonical form: a full mantissa, or the least
    exponent. *)
Definition canonical_binary64 (f : pyfloat) : Prop :=
  match f with
  | S754_zero _ => True
  | S754_finite _ m e =>
      Zpos m < 2 ^ 53 /\ -1074 <= e <= 971 /\ (2 ^ 52 <= Zpos m \/ e = -1074)
  | _ => False
  end.

Definition even_mantissa (f : pyfloat) : Prop :=
  match f with
  | S754_finite _ m _ => Z.even (Zpos m) = true
  | _ => True
  end.

(** [f] is what rounding to nearest, ties to even, makes of the
    magnitude [x]: infinite from the overflow threshold on; below it a
    canonical finite float that no binary64 number beats in distance to
    [x], and of even mantissa when another one is as near. *)
Definition nearest_binary64 (x : Q) (f : pyfloat) : Prop :=
  match f with
  | S754_nan => False
  | S754_infinity _ => (binary64_overflow <= x)%Q
  | _ =>
      canonical_binary64 f /\
      (x < binary64_overflow)%Q /\
      (forall g, binary64_value g ->
                 (Qabs (x - float_magnitude f) <= Qabs (x - g))%Q) /\
      (forall g, binary64_value g -> ~ (g == float_magnitude f)%Q ->
                 (Qabs (x - float_magnitude f) == Qabs (x - g))%Q -> even_mantissa f)
  end.

(** ** Sample requests and surroundings *)

Definition json_string (s : pystr) : pystr := 34%N :: s ++ [34%N].

(** The JSON text of an upload body with a name and a content, the
    latter given as JSON text. *)
Definition upload_text (file_name content_json : pystr) : pystr :=
  u "{" ++ json_string (u "file_name") ++ u ":" ++ json_string file_name ++ u ","
  ++ json_string (u "file_content") ++ u ":" ++ content_json ++ u "}".

(** An event of the older transport schema. *)
Definition v1_event (method path : pystr) (fields : list (pystr * pyval)) : pyval :=
  VDict ((u "httpMethod", VStr method) :: (u "path", VStr path) :: fields).

(** An event of the newer transport schema. *)
Definition v2_event (method path : pystr) (fields : list (pystr * pyval)) : pyval :=
  VDict ((u "requestContext", VDict [(u "http", VDict [(u "method", VStr method)])])
         :: (u "rawPath", VStr path) :: fields).

Definition upload_event (text : pystr) : pyval :=
  v1_event (u "POST") (u "/upload") [(u "body", VStr text)].

(** An upload of [n] letters a under the name a.txt. *)
Definition sized_upload_event (n : nat) : pyval :=
  upload_event (upload_text (u "a.txt") (json_string (repeat 97%N n))).

Definition sized_upload_body (n : nat) : list (pystr * pyval) :=
  [(u "file_name", VStr (u "a.txt")); (u "file_content", VStr (repeat 97%N n))].

Definition array_body_event : pyval := upload_event (u "[1]").

Definition text_context_event : pyval := VDict [(u "requestContext", VStr (u "x"))].

Definition sample_env : env :=
  Env (u "bucket") (u "files") (u "id-1") (u "2024-01-01T00:00:00+00:00")
    (fun _ => u "?") (fun s => s)
    (fun bucket key _ => u "https://" ++ bucket ++ u "/" ++ key)
    None None None None None.

Definition empty_world : world := World ∅ ∅ [].

Definition sample_fields_event : pyval :=
  v2_event (u "GET") (u "/files/abc") [(u "httpMethod", VStr (u "POST"))].

Definition sample_record : list (pystr * pyval) :=
  [(u "file_id", VStr (u "id-0")); (u "file_name", VStr (u "notes.txt"));
   (u "size", VDecimal (Decimal false 12 0));
   (u "upload_timestamp", VStr (u "2023-12-31T10:00:00+00:00"));
   (u "content_type", VStr (u "text/plain"))].

Definition sample_world : world := World ∅ {[ u "id-0" := sample_record ]} [].

Definition nameless_upload_event : pyval :=
  upload_event (u "{" ++ json_string (u "file_content") ++ u ":" ++ json_string (u "hello") ++ u "}").

Definition empty_content_event : pyval :=
  upload_event (upload_text (u "a.txt") (json_string [])).

Definition number_content_event : pyval :=
  upload_event (upload_text (u "a.txt") (u "5")).

Definition array_content_event : pyval :=
  upload_event (upload_text (u "a.txt") (u "[]")).

(** The surroundings in which the blob store refuses the write. *)
Definition s3_rejecting_env : env :=
  Env (u "bucket") (u "files") (u "id-1") (u "2024-01-01T00:00:00+00:00")
    (fun _ => u "?") (fun s => s)
    (fun bucket key _ => u "https://" ++ bucket ++ u "/" ++ key)
    (Some (Exn "ParamValidationError" (u "Parameter validation failed: Invalid type for parameter Body")))
    None None None None.

(** The surroundings in which the metadata store refuses the write. *)
Definition table_rejecting_env : env :=
  Env (u "bucket") (u "files") (u "id-1") (u "2024-01-01T00:00:00+00:00")
    (fun _ => u "?") (fun s => s)
    (fun bucket key _ => u "https://" ++ bucket ++ u "/" ++ key)
    None (Some (Exn "ClientError" (u "throttled"))) None None None.

Definition small_upload_event : pyval :=
  upload_event (upload_text (u "a.txt") (json_string (u "hello"))).

Definition small_upload_body : list (pystr * pyval) :=
  [(u "file_name", VStr (u "a.txt")); (u "file_content", VStr (u "hello"))].

Definition timed_record (file_id timestamp : pystr) : list (pystr * pyval) :=
  [(u "file_id", VStr file_id); (u "file_name", VStr (u "f.txt"));
   (u "size", VDecimal (Decimal false 3 0)); (u "upload_timestamp", VStr timestamp)].

(** Three records uploaded at T1 < T2 < T3 and one without a
    timestamp. *)
Definition listing_world : world :=
  World ∅
    (<[u "a" := timed_record (u "a") (u "2024-01-02T00:00:00+00:00")]>
       (<[u "b" := [(u "file_id", VStr (u "b"))]]>
          (<[u "c" := timed_record (u "c") (u "2024-01-03T00:00:00+00:00")]>
             (<[u "d" := timed_record (u "d") (u "2024-01-01T00:00:00+00:00")]> ∅))))
    [].

(** ** Further vocabulary and samples *)

(** The (method, path) pairs of texts the router has a route for. *)
Definition routed (method path : pystr) : bool :=
  (pystr_eqb method (u "GET")
   && (pystr_eqb path (u "/") || pystr_eqb path (u "/health") || pystr_eqb path (u "/files")
       || match strip_prefix (u "/files/") path with Some _ => true | None => false end))
  || (pystr_eqb method (u "POST") && pystr_eqb path (u "/upload")).

(** The status codes the handlers answer with. *)
Definition known_status (status : Z) : bool :=
  (status =? 200) || (status =? 400) || (status =? 404) || (status =? 413) || (status =? 500).

Definition broken_env : env :=
  Env (u "bucket") (u "files") (u "id-1") (u "2024-01-01T00:00:00+00:00")
    (fun _ => u "?") (fun s => s)
    (fun bucket key _ => u "https://" ++ bucket ++ u "/" ++ key)
    (Some (Exn "EndpointConnectionError" (u "s3 unreachable")))
    (Some (Exn "EndpointConnectionError" (u "dynamodb unreachable")))
    (Some (Exn "EndpointConnectionError" (u "dynamodb unreachable")))
    (Some (Exn "EndpointConnectionError" (u "dynamodb unreachable")))
    (Some (Exn "NoCredentialsError" (u "Unable to locate credentials"))).

(** A code point of the surrogate range, which UTF-8 cannot encode. *)
Definition is_surrogate (c : N) : bool := ((55296 <=? c) && (c <=? 57343))%N.

(** An upload whose content is the JSON escape of a lone surrogate. *)
Definition surrogate_content_event : pyval :=
  upload_event (upload_text (u "a.txt") (json_string (u "\ud800"))).

Definition text_body_event : pyval := upload_event (json_string (u "hello")).

Definition nameless_record_world : world :=
  World ∅ {[ u "id-7" := [(u "file_id", VStr (u "id-7")); (u "size", VDecimal (Decimal false 1 0))] ]} [].

(** The records of a listing that carry a given timestamp, in order. *)
Definition stamped (t : pystr) (records : list pyval) : list pyval :=
  List.filter (fun x => pystr_eqb (timestamp_of x) t) records.

Definition keyed_with (t : pystr) (l : list (pyval * pyval)) : list (pyval * pyval) :=
  List.filter (fun p => pystr_eqb (key_text p) t) l.

(** Two records uploaded at the same instant, and an older one. *)
Definition tied_world : world :=
  World ∅
    (<[u "a" := timed_record (u "a") (u "2024-01-02T00:00:00+00:00")]>
       (<[u "b" := timed_record (u "b") (u "2024-01-01T00:00:00+00:00")]>
          (<[u "c" := timed_record (u "c") (u "2024-01-02T00:00:00+00:00")]> ∅)))
    [].

(** The binding [dict.update] leaves for a key: the last one given. *)
Definition last_binding (k : pystr) (h : list (pystr * pyval)) : option pyval :=
  dict_lookup k (rev h).

(** A code point that a text can be encoded with: below 0x110000 and no
    surrogate. *)
Definition is_scalar (c : N) : bool := negb (is_surrogate c) && (c <? 1114112)%N.

(** The number of bytes UTF-8 spends on a code point, and on a text. *)
Definition utf8_width (c : N) : Z :=
  if (c <? 128)%N then 1 else if (c <? 2048)%N then 2 else if (c <? 65536)%N then 3 else 4.

Definition utf8_size (s : pystr) : Z := fold_right (fun c n => utf8_width c + n) 0 s.

(** An upload of the two characters of a euro sign and a letter, which
    UTF-8 writes in four bytes. *)
Definition euro_upload_event : pyval :=
  upload_event (upload_text (u "a.txt") (json_string [8364; 97]%N)).

Definition euro_upload_body : list (pystr * pyval) :=
  [(u "file_name", VStr (u "a.txt")); (u "file_content", VStr [8364; 97]%N)].

(** * Properties *)

(** ** Decimal numbers *)

Lemma dec_cmp_refl d : dec_cmp d d = Eq.
Proof. unfold dec_cmp. apply Z.compare_refl. Qed.

Lemma to_integral_test d :
  dec_eqb d (to_integral_value d) = dec_is_integral d.
Proof.
  unfold dec_eqb, to_integral_value, dec_is_integral.
  destruct (Z.leb_spec 0 (dec_exp d)) as [Hle|Hlt]; simpl.
  - now rewrite dec_cmp_refl.
  - set (k := Z.to_N (- dec_exp d)).
    set (p := (10 ^ k)%N).
    assert (Hp : (0 < p)%N).
    { unfold p. apply N.neq_0_lt_0, N.pow_nonzero. discriminate. }
    pose proof (N.div_mod (dec_int d) p ltac:(lia)) as Hdm.
    pose proof (N.mod_lt (dec_int d) p ltac:(lia)) as Hr.
    set (q := (dec_int d / p)%N) in *. set (r := (dec_int d mod p)%N) in *.
    unfold dec_cmp, dec_signed; cbn [dec_exp dec_sign dec_int].
    rewrite Z.min_l by lia.
    rewrite Z.sub_diag, Z.mul_1_r.
    replace (0 - dec_exp d) with (Z.of_N k) by (unfold k; lia).
    assert (HP : 10 ^ Z.of_N k = Z.of_N p).
    { unfold p. rewrite N2Z.inj_pow. reflexivity. }
    rewrite HP.
    destruct (N.eqb_spec r 0) as [Hr0|Hr0].
    + rewrite Hr0 in *. replace (2 * 0 ?= p)%N with Lt by (symmetry; apply N.compare_lt_iff; lia).
      replace (dec_int d) with (q * p)%N by lia.
      destruct (dec_sign d); rewrite N2Z.inj_mul; rewrite ?Z.mul_opp_l, Z.compare_refl; reflexivity.
    + assert (Hne : forall q', (q' = q \/ q' = q + 1)%N ->
          ((if dec_sign d then - Z.of_N (dec_int d) else Z.of_N (dec_int d)) ?=
           (if dec_sign d then - Z.of_N q' else Z.of_N q') * Z.of_N p) <> Eq).
      { intros q' Hq' Heq. apply Z.compare_eq in Heq.
        assert (dec_int d = q' * p)%N.
        { destruct (dec_sign d); nia. }
        destruct Hq'; subst q'; nia. }
      destruct (2 * r ?= p)%N; [destruct (N.even q)| |];
      match goal with |- match ?c with _ => _ end = _ =>
        destruct c eqn:Hc; try reflexivity; exfalso; revert Hc; apply Hne; auto end.
Qed.

Lemma dec_value_nonneg_exp d :
  0 <= dec_exp d -> (dec_value d == inject_Z (dec_signed d * 10 ^ dec_exp d))%Q.
Proof.
  intros H. unfold dec_value. rewrite inject_Z_mult, Zpower_Qpower by assumption.
  reflexivity.
Qed.

Lemma dec_value_neg_exp d (p : positive) :
  dec_exp d < 0 -> 10 ^ (- dec_exp d) = Zpos p ->
  (dec_value d == dec_signed d # p)%Q.
Proof.
  intros Hlt Hp. unfold dec_value.
  replace (dec_exp d) with (- (- dec_exp d)) at 1 by lia.
  rewrite Qpower_opp, <- Zpower_Qpower by lia. rewrite Hp.
  unfold Qeq; simpl. lia.
Qed.

Lemma pow10_pos (k : Z) : 0 <= k -> exists p, 10 ^ k = Zpos p.
Proof.
  intros H. pose proof (Z.pow_pos_nonneg 10 k ltac:(lia) H).
  destruct (10 ^ k); try lia. eauto.
Qed.

Lemma int_of_decimal_value d :
  dec_is_integral d = true -> (inject_Z (int_of_decimal d) == dec_value d)%Q.
Proof.
  unfold dec_is_integral, int_of_decimal. intros H.
  destruct (Z.leb_spec 0 (dec_exp d)) as [Hle|Hlt]; simpl in H.
  - rewrite dec_value_nonneg_exp by assumption. unfold dec_signed.
    destruct (dec_sign d); apply inject_Z_injective; lia.
  - apply N.eqb_eq in H.
    destruct (pow10_pos (- dec_exp d) ltac:(lia)) as [p Hp].
    rewrite (dec_value_neg_exp d p) by assumption.
    assert (HP : Z.of_N (10 ^ Z.to_N (- dec_exp d)) = Zpos p).
    { rewrite N2Z.inj_pow, Z2N.id by lia. exact Hp. }
    set (P := (10 ^ Z.to_N (- dec_exp d))%N) in *.
    assert (P <> 0)%N by lia.
    pose proof (N.div_mod (dec_int d) P ltac:(assumption)) as Hdm.
    rewrite H, N.add_0_r in Hdm.
    unfold Qeq, dec_signed; simpl.
    rewrite <- HP. destruct (dec_sign d); nia.
Qed.

Lemma non_integral_value d :
  dec_is_integral d = false -> ~ exists z, (dec_value d == inject_Z z)%Q.
Proof.
  unfold dec_is_integral. intros H [z Hz].
  apply orb_false_iff in H as [He Hm].
  apply Z.leb_gt in He. apply N.eqb_neq in Hm.
  destruct (pow10_pos (- dec_exp d) ltac:(lia)) as [p Hp].
  rewrite (dec_value_neg_exp d p) in Hz by assumption.
  assert (HP : Z.of_N (10 ^ Z.to_N (- dec_exp d)) = Zpos p).
  { rewrite N2Z.inj_pow, Z2N.id by lia. exact Hp. }
  set (P := (10 ^ Z.to_N (- dec_exp d))%N) in *.
  unfold Qeq in Hz; simpl in Hz.
  apply Hm. apply N.Div0.mod_divides.
  exists (Z.abs_N z). unfold dec_signed in Hz.
  destruct (dec_sign d); nia.
Qed.

(** ** Floating-point numbers *)

Lemma pow2_Qpower (e : Z) : (pow2 e == Qpower 2 e)%Q.
Proof.
  destruct e as [|p|p]; simpl pow2.
  - reflexivity.
  - change 2%Q with (inject_Z 2). rewrite Zpower_Qpower by lia. reflexivity.
  - change (Z.neg p) with (- Z.pos p). rewrite Qpower_opp.
    change 2%Q with (inject_Z 2). rewrite <- Zpower_Qpower by lia.
    rewrite <- Pos2Z.inj_pow. reflexivity.
Qed.

Lemma pow2_pos (e : Z) : (0 < pow2 e)%Q.
Proof.
  rewrite pow2_Qpower. apply Qpower_0_lt. reflexivity.
Qed.

Lemma pow2_add (a b : Z) : (pow2 (a + b) == pow2 a * pow2 b)%Q.
Proof.
  rewrite !pow2_Qpower. apply Qpower_plus. discriminate.
Qed.

Lemma pow2_inject (e : Z) : 0 <= e -> (pow2 e == inject_Z (2 ^ e))%Q.
Proof.
  intros H. rewrite pow2_Qpower. change 2%Q with (inject_Z 2).
  rewrite Zpower_Qpower by assumption. reflexivity.
Qed.

Lemma pow2_ge_1 (e : Z) : 0 <= e -> (1 <= pow2 e)%Q.
Proof.
  intros H. rewrite pow2_inject by assumption.
  change 1%Q with (inject_Z 1). rewrite <- Zle_Qle.
  pose proof (Z.pow_pos_nonneg 2 e ltac:(lia) H). lia.
Qed.

Lemma pow2_le (a b : Z) : a <= b -> (pow2 a <= pow2 b)%Q.
Proof.
  intros H. replace b with (a + (b - a)) by lia. rewrite pow2_add.
  pose proof (pow2_pos a). pose proof (pow2_ge_1 (b - a) ltac:(lia)). nra.
Qed.

Lemma round_half_even_spec (num den : Z) :
  0 < den ->
  2 * Z.abs (num - round_half_even num den * den) <= den /\
  (2 * Z.abs (num - round_half_even num den * den) = den ->
   Z.even (round_half_even num den) = true).
Proof.
  intros Hden. unfold round_half_even.
  pose proof (Z.div_mod num den ltac:(lia)) as Hdm.
  pose proof (Z.mod_pos_bound num den Hden) as Hr.
  set (q := num / den) in *. set (r := num mod den) in *.
  destruct (Z.compare_spec (2 * r) den) as [He|Hl|Hg].
  - destruct (Z.even q) eqn:Hq.
    + split; [lia|auto].
    + split; [lia|]. intros _. rewrite Z.even_add, Hq. reflexivity.
  - split; [lia|]. intros H. lia.
  - split; [lia|]. intros H. lia.
Qed.

Lemma round_half_even_nearest (num den n : Z) :
  0 < den ->
  Z.abs (num - round_half_even num den * den) <= Z.abs (num - n * den) /\
  (Z.abs (num - round_half_even num den * den) = Z.abs (num - n * den) ->
   n <> round_half_even num den -> Z.even (round_half_even num den) = true).
Proof.
  intros Hden. destruct (round_half_even_spec num den Hden) as [H1 H2].
  set (m := round_half_even num den) in *.
  destruct (Z.eq_dec n m) as [->|Hne].
  - split; [lia|]. intros _ H. now elim H.
  - assert (Hd : den <= Z.abs ((n - m) * den)).
    { rewrite Z.abs_mul. assert (1 <= Z.abs (n - m)) by lia. nia. }
    replace ((n - m) * den) with ((num - m * den) - (num - n * den)) in Hd by ring.
    split; [lia|]. intros Heq _. apply H2. lia.
Qed.

Lemma scaled_forms (n d e : Z) :
  exists s : Q, (0 < s)%Q /\
    (inject_Z (scaled_num n e) == inject_Z n * s)%Q /\
    (inject_Z (scaled_den d e) == inject_Z d * pow2 e * s)%Q.
Proof.
  unfold scaled_num, scaled_den. destruct (Z.ltb_spec e 0) as [Hlt|Hge].
  - exists (pow2 (- e)). split; [apply pow2_pos|]. split.
    + rewrite inject_Z_mult, pow2_inject by lia. reflexivity.
    + rewrite <- Qmult_assoc, <- pow2_add. replace (e + - e) with 0 by lia.
      simpl pow2. ring.
  - exists 1%Q. split; [reflexivity|]. split.
    + ring.
    + rewrite inject_Z_mult, pow2_inject by lia. ring.
Qed.

Lemma scaled_den_pos (d e : Z) : 0 < d -> 0 < scaled_den d e.
Proof.
  intros H. unfold scaled_den. destruct (e <? 0) eqn:He; [assumption|].
  apply Z.ltb_ge in He. pose proof (Z.pow_pos_nonneg 2 e ltac:(lia) He). nia.
Qed.

Lemma log2_bounds (n : Z) :
  0 < n -> (pow2 (Z.log2 n) <= inject_Z n /\ inject_Z n < 2 * pow2 (Z.log2 n))%Q.
Proof.
  intros H. destruct (Z.log2_spec n H) as [Hl Hu].
  pose proof (Z.log2_nonneg n) as Hn.
  rewrite Z.pow_succ_r in Hu by assumption.
  rewrite pow2_inject by assumption. split.
  - now rewrite <- Zle_Qle.
  - change 2%Q with (inject_Z 2). rewrite <- inject_Z_mult, <- Zlt_Qlt. assumption.
Qed.

Lemma binary64_exponent_spec (n d : Z) :
  0 < n -> 0 < d ->
  -1074 <= binary64_exponent n d /\
  (inject_Z n < inject_Z (2 ^ 53) * pow2 (binary64_exponent n d) * inject_Z d)%Q /\
  (-1074 < binary64_exponent n d ->
   (inject_Z (2 ^ 52) * pow2 (binary64_exponent n d) * inject_Z d <= inject_Z n)%Q).
Proof.
  intros Hn Hd. unfold binary64_exponent.
  destruct (log2_bounds n Hn) as [HA1 HA2]. destruct (log2_bounds d Hd) as [HB1 HB2].
  set (a := Z.log2 n) in *. set (b := Z.log2 d) in *.
  set (e0 := a - b - 52).
  assert (HA : (pow2 a == pow2 e0 * pow2 b * inject_Z (2 ^ 52))%Q).
  { replace a with (e0 + b + 52) at 1 by (unfold e0; lia).
    rewrite !pow2_add, (pow2_inject 52) by lia. reflexivity. }
  assert (H53 : (inject_Z (2 ^ 53) == 2 * inject_Z (2 ^ 52))%Q) by reflexivity.
  assert (Hc : (0 < inject_Z (2 ^ 52))%Q) by reflexivity.
  pose proof (pow2_pos a) as HPa. pose proof (pow2_pos b) as HPb. pose proof (pow2_pos e0) as HP0.
  assert (HN : (0 < inject_Z n)%Q) by (change 0%Q with (inject_Z 0); now rewrite <- Zlt_Qlt).
  assert (HD : (0 < inject_Z d)%Q) by (change 0%Q with (inject_Z 0); now rewrite <- Zlt_Qlt).
  destruct (scaled_forms n d e0) as (s & Hs & Hsn & Hsd).
  set (e1 := if scaled_num n e0 <? 2 ^ 52 * scaled_den d e0 then e0 - 1 else e0).
  assert (He1 : (inject_Z n < inject_Z (2 ^ 53) * pow2 e1 * inject_Z d /\
                 inject_Z (2 ^ 52) * pow2 e1 * inject_Z d <= inject_Z n)%Q).
  { unfold e1.
    destruct (Z.ltb_spec (scaled_num n e0) (2 ^ 52 * scaled_den d e0)) as [Ht|Ht].
    - assert (Ht' : (inject_Z n * s < inject_Z (2 ^ 52) * (inject_Z d * pow2 e0 * s))%Q).
      { rewrite <- Hsn, <- Hsd, <- inject_Z_mult, <- Zlt_Qlt. exact Ht. }
      assert (HP : (pow2 e0 == 2 * pow2 (e0 - 1))%Q).
      { replace e0 with (1 + (e0 - 1)) at 1 by lia. rewrite pow2_add. reflexivity. }
      pose proof (pow2_pos (e0 - 1)) as HP1.
      revert HA H53 Hc Ht'. generalize (inject_Z (2 ^ 52)) (inject_Z (2 ^ 53)).
      intros c52 c53 HA H53 Hc Ht'.
      revert HA1 HA2 HB1 HB2 HA HP HPa HPb HP0 HP1 HN HD Hs Ht'.
      generalize (pow2 a) (pow2 b) (pow2 e0) (pow2 (e0 - 1)) (inject_Z n) (inject_Z d).
      intros A B P0 P1 N D. intros.
      assert (HNu : (N < c52 * (D * P0))%Q).
      { apply (Qmult_lt_r _ _ s Hs). lra. }
      split.
      + assert (c53 * P1 * D == c52 * (D * P0))%Q by (rewrite H53, HP; ring). lra.
      + assert (HK : (0 < c52 * P1)%Q) by (apply Qmult_lt_0_compat; assumption).
        assert (c52 * P1 * D < c52 * P1 * (2 * B))%Q by (apply Qmult_lt_l; assumption).
        assert (c52 * P1 * (2 * B) == A)%Q by (rewrite HA, HP; ring).
        lra.
    - assert (Ht' : (inject_Z (2 ^ 52) * (inject_Z d * pow2 e0 * s) <= inject_Z n * s)%Q).
      { rewrite <- Hsn, <- Hsd, <- inject_Z_mult, <- Zle_Qle. exact Ht. }
      revert HA H53 Hc Ht'. generalize (inject_Z (2 ^ 52)) (inject_Z (2 ^ 53)).
      intros c52 c53 HA H53 Hc Ht'.
      revert HA1 HA2 HB1 HB2 HA HPa HPb HP0 HN HD Hs Ht'.
      generalize (pow2 a) (pow2 b) (pow2 e0) (inject_Z n) (inject_Z d).
      intros A B P0 N D. intros.
      assert (HNl : (c52 * (D * P0) <= N)%Q).
      { apply (Qmult_le_r _ _ s Hs). lra. }
      split.
      + assert (HK : (0 < c52 * P0)%Q) by (apply Qmult_lt_0_compat; assumption).
        assert (c52 * P0 * B <= c52 * P0 * D)%Q by (apply Qmult_le_l; assumption).
        assert (c52 * P0 * B == A)%Q by (rewrite HA; ring).
        assert (c53 * P0 * D == 2 * (c52 * P0 * D))%Q by (rewrite H53; ring).
        lra.
      + assert (c52 * P0 * D == c52 * (D * P0))%Q by ring. lra. }
  destruct He1 as [Hu Hl].
  destruct (Z.max_spec e1 (-1074)) as [[Hlt ->]|[Hge ->]].
  - split; [lia|]. split; [|lia].
    pose proof (pow2_le e1 (-1074) ltac:(lia)) as Hle.
    pose proof (pow2_pos e1) as HP1.
    assert (Hc53 : (0 < inject_Z (2 ^ 53))%Q) by reflexivity.
    revert Hu Hc53. generalize (inject_Z (2 ^ 53)). intros c53 Hu Hc53.
    revert Hle HP1 Hu. generalize (pow2 e1) (pow2 (-1074)). intros P1 Pm Hle HP1 Hu.
    assert (HK : (0 < c53 * inject_Z d)%Q) by (apply Qmult_lt_0_compat; assumption).
    assert (c53 * inject_Z d * P1 <= c53 * inject_Z d * Pm)%Q by (apply Qmult_le_l; assumption).
    lra.
  - split; [lia|]. split; [exact Hu|]. intros _. exact Hl.
Qed.

Lemma Qabs_scaled (K X : Q) (a : Z) :
  (0 < K)%Q -> (inject_Z a == K * X)%Q -> (inject_Z (Z.abs a) == K * Qabs X)%Q.
Proof.
  intros HK H. change (inject_Z (Z.abs a)) with (Qabs (inject_Z a)).
  rewrite H, Qabs_Qmult, (Qabs_pos K) by (apply Qlt_le_weak; assumption). reflexivity.
Qed.

Lemma Qabs_le_scaled (K X Y : Q) (a b : Z) :
  (0 < K)%Q -> (inject_Z a == K * X)%Q -> (inject_Z b == K * Y)%Q ->
  Z.abs a <= Z.abs b -> (Qabs X <= Qabs Y)%Q.
Proof.
  intros HK Ha Hb Hab. apply (Qmult_le_l _ _ K HK).
  rewrite <- (Qabs_scaled K X a), <- (Qabs_scaled K Y b) by assumption.
  now rewrite <- Zle_Qle.
Qed.

Lemma Qabs_eq_scaled (K X Y : Q) (a b : Z) :
  (0 < K)%Q -> (inject_Z a == K * X)%Q -> (inject_Z b == K * Y)%Q ->
  (Qabs X == Qabs Y)%Q -> Z.abs a = Z.abs b.
Proof.
  intros HK Ha Hb Hab. apply inject_Z_injective.
  rewrite (Qabs_scaled K X a), (Qabs_scaled K Y b) by assumption.
  now rewrite Hab.
Qed.

Lemma rounding_frame (n d : Z) (x : Q) :
  0 < n -> 0 < d -> (x * inject_Z d == inject_Z n)%Q ->
  let e := binary64_exponent n d in
  let num := scaled_num n e in
  let den := scaled_den d e in
  let m := round_half_even num den in
  0 < den /\ -1074 <= e /\ num < 2 ^ 53 * den /\ (-1074 < e -> 2 ^ 52 * den <= num) /\
  0 <= m <= 2 ^ 53 /\ (-1074 < e -> 2 ^ 52 <= m) /\
  exists K : Q, (0 < K)%Q /\ (inject_Z den == K * pow2 e)%Q /\
    forall k : Z, (inject_Z (num - k * den) == K * (x - inject_Z k * pow2 e))%Q.
Proof.
  intros Hn Hd Hx e num den m.
  destruct (binary64_exponent_spec n d Hn Hd) as (He & Hu & Hl). fold e in He, Hu, Hl.
  destruct (scaled_forms n d e) as (s & Hs & Hsn & Hsd). fold num in Hsn. fold den in Hsd.
  assert (Hden : 0 < den) by now apply scaled_den_pos.
  assert (HD : (0 < inject_Z d)%Q) by (change 0%Q with (inject_Z 0); now rewrite <- Zlt_Qlt).
  assert (Hnum : num < 2 ^ 53 * den).
  { rewrite Zlt_Qlt, inject_Z_mult, Hsn, Hsd.
    apply (Qmult_lt_r _ _ s Hs) in Hu. lra. }
  assert (Hlow : -1074 < e -> 2 ^ 52 * den <= num).
  { intros H. specialize (Hl H). rewrite Zle_Qle, inject_Z_mult, Hsn, Hsd.
    apply (Qmult_le_r _ _ s Hs) in Hl. lra. }
  assert (Hn0 : 0 < num).
  { rewrite Zlt_Qlt, Hsn. change (inject_Z 0) with 0%Q.
    apply Qmult_lt_0_compat; [|assumption].
    change 0%Q with (inject_Z 0). now rewrite <- Zlt_Qlt. }
  destruct (round_half_even_spec num den Hden) as [Hm _]. fold m in Hm.
  repeat split; try assumption.
  - nia.
  - nia.
  - intros H. specialize (Hlow H). nia.
  - exists (inject_Z d * s)%Q. split; [now apply Qmult_lt_0_compat|]. split.
    + rewrite Hsd. ring.
    + intros k. unfold Z.sub. rewrite inject_Z_plus, inject_Z_opp, inject_Z_mult, Hsn, Hsd, <- Hx.
      ring.
Qed.

Lemma rounding_nearest (n d : Z) (x g : Q) :
  0 < n -> 0 < d -> (x * inject_Z d == inject_Z n)%Q -> binary64_value g ->
  let e := binary64_exponent n d in
  let m := round_half_even (scaled_num n e) (scaled_den d e) in
  (Qabs (x - inject_Z m * pow2 e) <= Qabs (x - g))%Q /\
  ((Qabs (x - inject_Z m * pow2 e) == Qabs (x - g))%Q ->
   ~ (g == inject_Z m * pow2 e)%Q -> Z.even m = true).
Proof.
  intros Hn Hd Hx (M & E & HM & HE & Hg) e m.
  destruct (rounding_frame n d x Hn Hd Hx)
    as (Hden & He & Hnum & Hlow & Hm & Hmlow & K & HK & HKd & HKk).
  fold e in Hden, He, Hnum, Hlow, Hm, Hmlow, HKd, HKk.
  set (num := scaled_num n e) in *. set (den := scaled_den d e) in *. fold m in Hm, Hmlow.
  destruct (Z_le_gt_dec e E) as [HeE|HeE].
  - (* [g] is a multiple of [2^e] *)
    set (k := M * 2 ^ (E - e)).
    assert (Hgk : (g == inject_Z k * pow2 e)%Q).
    { rewrite Hg. unfold k. rewrite inject_Z_mult, <- (pow2_inject (E - e)) by lia.
      rewrite <- Qmult_assoc, <- pow2_add. replace (E - e + e) with E by lia. reflexivity. }
    destruct (round_half_even_nearest num den k Hden) as [H1 H2]. fold m in H1, H2.
    split.
    + apply (Qabs_le_scaled K _ _ (num - m * den) (num - k * den) HK).
      * apply HKk.
      * rewrite Hgk. apply HKk.
      * exact H1.
    + intros Heq Hne. apply H2.
      * apply (Qabs_eq_scaled K (x - inject_Z m * pow2 e) (x - g)); try assumption.
        -- apply HKk.
        -- rewrite Hgk. apply HKk.
      * intros Hkm. apply Hne. rewrite Hgk, Hkm. reflexivity.
  - (* [g] lies below the binade of [x] *)
    assert (Hlt : -1074 < e) by lia.
    specialize (Hlow Hlt). specialize (Hmlow Hlt).
    set (t := 2 ^ (e - E)).
    assert (Ht : 2 <= t).
    { unfold t. change 2 with (2 ^ 1) at 1. apply Z.pow_le_mono_r; lia. }
    assert (HPe : (pow2 e == inject_Z t * pow2 E)%Q).
    { unfold t. rewrite <- pow2_inject, <- pow2_add by lia.
      replace (e - E + E) with e by lia. reflexivity. }
    assert (HtQ : (0 < inject_Z t)%Q).
    { change 0%Q with (inject_Z 0). rewrite <- Zlt_Qlt. lia. }
    assert (HKt : (0 < K * inject_Z t)%Q) by now apply Qmult_lt_0_compat.
    assert (Ha : (inject_Z (t * (num - m * den)) == K * inject_Z t * (x - inject_Z m * pow2 e))%Q).
    { rewrite inject_Z_mult, HKk. ring. }
    assert (Hb : (inject_Z (t * num - M * den) == K * inject_Z t * (x - g))%Q).
    { unfold Z.sub. rewrite inject_Z_plus, inject_Z_opp, !inject_Z_mult.
      pose proof (HKk 0) as H0. rewrite Z.mul_0_l, Z.sub_0_r in H0.
      rewrite H0, HKd, Hg, HPe. change (inject_Z 0) with 0%Q. ring. }
    destruct (round_half_even_nearest num den (2 ^ 52) Hden) as [H1 _]. fold m in H1.
    assert (Hstrict : Z.abs (t * (num - m * den)) < Z.abs (t * num - M * den)).
    { assert (M * den < t * (2 ^ 52 * den)) by nia.
      rewrite Z.abs_mul. nia. }
    split.
    + apply (Qabs_le_scaled (K * inject_Z t) _ _ _ _ HKt Ha Hb). lia.
    + intros Heq _. pose proof (Qabs_eq_scaled (K * inject_Z t) _ _ _ _ HKt Ha Hb Heq). lia.
Qed.

Lemma frame_le (K P x : Q) (den num a b : Z) :
  (0 < K)%Q -> (inject_Z den == K * P)%Q -> (inject_Z num == K * x)%Q ->
  a * den <= b * num -> (inject_Z a * P <= inject_Z b * x)%Q.
Proof.
  intros HK Hd Hn H. apply (Qmult_le_l _ _ K HK).
  rewrite Zle_Qle, !inject_Z_mult, Hd, Hn in H. lra.
Qed.

Lemma frame_ge (K P x : Q) (den num a b : Z) :
  (0 < K)%Q -> (inject_Z den == K * P)%Q -> (inject_Z num == K * x)%Q ->
  b * num <= a * den -> (inject_Z b * x <= inject_Z a * P)%Q.
Proof.
  intros HK Hd Hn H. apply (Qmult_le_l _ _ K HK).
  rewrite Zle_Qle, !inject_Z_mult, Hd, Hn in H. lra.
Qed.

Lemma frame_lt (K P x : Q) (den num a b : Z) :
  (0 < K)%Q -> (inject_Z den == K * P)%Q -> (inject_Z num == K * x)%Q ->
  b * num < a * den -> (inject_Z b * x < inject_Z a * P)%Q.
Proof.
  intros HK Hd Hn H. apply (Qmult_lt_l _ _ K HK).
  rewrite Zlt_Qlt, !inject_Z_mult, Hd, Hn in H. lra.
Qed.

Lemma rounding_range (n d : Z) (x : Q) :
  0 < n -> 0 < d -> (x * inject_Z d == inject_Z n)%Q ->
  let e := binary64_exponent n d in
  let m := round_half_even (scaled_num n e) (scaled_den d e) in
  (971 < e \/ (e = 971 /\ m = 2 ^ 53) -> (binary64_overflow <= x)%Q) /\
  (e <= 970 \/ (e = 971 /\ m < 2 ^ 53) -> (x < binary64_overflow)%Q).
Proof.
  intros Hn Hd Hx e m.
  destruct (rounding_frame n d x Hn Hd Hx)
    as (Hden & He & Hnum & Hlow & Hm & Hmlow & K & HK & HKd & HKk).
  fold e in Hden, He, Hnum, Hlow, Hm, Hmlow, HKd, HKk.
  set (num := scaled_num n e) in *. set (den := scaled_den d e) in *. fold m in Hm, Hmlow.
  assert (HKn : (inject_Z num == K * x)%Q).
  { pose proof (HKk 0) as H0. rewrite Z.mul_0_l, Z.sub_0_r in H0. rewrite H0.
    change (inject_Z 0) with 0%Q. ring. }
  destruct (round_half_even_spec num den Hden) as [Hr Hev]. fold m in Hr, Hev.
  pose proof (pow2_pos e) as HPe.
  unfold binary64_overflow. split.
  - intros [Hbig|[H971 Hm53]].
    + pose proof (frame_le K (pow2 e) x den num (2 ^ 52) 1 HK HKd HKn ltac:(lia)) as H.
      pose proof (pow2_le 972 e ltac:(lia)) as Hp. rewrite (pow2_inject 972) in Hp by lia.
      assert (Hc : (inject_Z (2 ^ 1024 - 2 ^ 970) <= inject_Z (2 ^ 52) * inject_Z (2 ^ 972))%Q).
      { rewrite <- inject_Z_mult, <- Zle_Qle. vm_compute. discriminate. }
      assert (H52 : (0 < inject_Z (2 ^ 52))%Q) by reflexivity.
      apply (Qmult_le_l _ _ _ H52) in Hp.
      change (inject_Z 1) with 1%Q in H.
      revert H Hp Hc. generalize (inject_Z (2 ^ 1024 - 2 ^ 970)) (inject_Z (2 ^ 52)) (inject_Z (2 ^ 972)) (pow2 e).
      intros. lra.
    + pose proof (frame_le K (pow2 e) x den num (2 ^ 54 - 1) 2 HK HKd HKn ltac:(lia)) as H.
      rewrite H971, (pow2_inject 971), <- (inject_Z_mult (2 ^ 54 - 1)) in H by lia.
      assert (Hc : (inject_Z ((2 ^ 54 - 1) * 2 ^ 971) == 2 * inject_Z (2 ^ 1024 - 2 ^ 970))%Q).
      { change 2%Q with (inject_Z 2). rewrite <- inject_Z_mult. apply inject_Z_injective.
        vm_compute. reflexivity. }
      rewrite Hc in H. change (inject_Z 2) with 2%Q in H.
      revert H. generalize (inject_Z (2 ^ 1024 - 2 ^ 970)). intros. lra.
  - intros [Hsmall|[H971 Hm53]].
    + pose proof (frame_ge K (pow2 e) x den num (2 ^ 54 + 1) 2 HK HKd HKn ltac:(nia)) as H.
      pose proof (pow2_le e 970 ltac:(lia)) as Hp. rewrite (pow2_inject 970) in Hp by lia.
      assert (Hc : (inject_Z (2 ^ 54 + 1) * inject_Z (2 ^ 970) < 2 * inject_Z (2 ^ 1024 - 2 ^ 970))%Q).
      { change 2%Q with (inject_Z 2). rewrite <- !inject_Z_mult, <- Zlt_Qlt.
        vm_compute. reflexivity. }
      assert (H54 : (0 < inject_Z (2 ^ 54 + 1))%Q) by reflexivity.
      apply (Qmult_le_l _ _ _ H54) in Hp.
      change (inject_Z 2) with 2%Q in H.
      revert H Hp Hc.
      generalize (inject_Z (2 ^ 1024 - 2 ^ 970)) (inject_Z (2 ^ 54 + 1)) (inject_Z (2 ^ 970)) (pow2 e).
      intros. lra.
    + assert (Hz : 2 * num < (2 ^ 54 - 1) * den).
      { destruct (Z.eq_dec m (2 ^ 53 - 1)) as [Hmm|Hmm].
        - assert (Hodd : Z.even m = false) by (rewrite Hmm; reflexivity).
          assert (2 * Z.abs (num - m * den) <> den).
          { intros Ht. rewrite (Hev Ht) in Hodd. discriminate. }
          nia.
        - nia. }
      pose proof (frame_lt K (pow2 e) x den num (2 ^ 54 - 1) 2 HK HKd HKn Hz) as H.
      rewrite H971, (pow2_inject 971), <- (inject_Z_mult (2 ^ 54 - 1)) in H by lia.
      assert (Hc : (inject_Z ((2 ^ 54 - 1) * 2 ^ 971) == 2 * inject_Z (2 ^ 1024 - 2 ^ 970))%Q).
      { change 2%Q with (inject_Z 2). rewrite <- inject_Z_mult. apply inject_Z_injective.
        vm_compute. reflexivity. }
      rewrite Hc in H. change (inject_Z 2) with 2%Q in H.
      revert H. generalize (inject_Z (2 ^ 1024 - 2 ^ 970)). intros. lra.
Qed.

Lemma pack_binary64_sign (s : bool) (m e : Z) : float_sign (pack_binary64 s m e) = s.
Proof.
  unfold pack_binary64.
  destruct (if m =? 2 ^ 53 then 2 ^ 52 else m); try reflexivity.
  now destruct (_ <=? 971).
Qed.

Lemma pack_binary64_nearest (x : Q) (s : bool) (m e : Z) :
  0 <= m <= 2 ^ 53 -> -1074 <= e -> (-1074 < e -> 2 ^ 52 <= m) ->
  (forall g, binary64_value g ->
     (Qabs (x - inject_Z m * pow2 e) <= Qabs (x - g))%Q /\
     ((Qabs (x - inject_Z m * pow2 e) == Qabs (x - g))%Q ->
      ~ (g == inject_Z m * pow2 e)%Q -> Z.even m = true)) ->
  (971 < e \/ (e = 971 /\ m = 2 ^ 53) -> (binary64_overflow <= x)%Q) ->
  (e <= 970 \/ (e = 971 /\ m < 2 ^ 53) -> (x < binary64_overflow)%Q) ->
  nearest_binary64 x (pack_binary64 s m e).
Proof.
  intros Hm He Hlow Hnear Hover Hunder. unfold pack_binary64.
  destruct (Z.eqb_spec m (2 ^ 53)) as [Hm53|Hm53].
  - change (2 ^ 52) with (Zpos (2 ^ 52)). cbv beta iota zeta.
    assert (Hmag : (inject_Z (Zpos (2 ^ 52)) * pow2 (e + 1) == inject_Z m * pow2 e)%Q).
    { rewrite Hm53, Z.add_comm, pow2_add. change (pow2 1) with 2%Q.
      change (inject_Z (2 ^ 53)) with (inject_Z (Zpos (2 ^ 52)) * 2)%Q. ring. }
    destruct (Z.leb_spec (e + 1) 971) as [Hle|Hgt].
    + unfold nearest_binary64, canonical_binary64, float_magnitude, even_mantissa. split; [|split; [|split]].
      * split; [reflexivity|]. split; [lia|]. left. reflexivity.
      * apply Hunder. lia.
      * intros g Hg. rewrite Hmag. now apply Hnear.
      * intros. reflexivity.
    + unfold nearest_binary64, canonical_binary64, float_magnitude, even_mantissa. apply Hover. lia.
  - destruct m as [|p|p]; [| |lia].
    + unfold nearest_binary64, canonical_binary64, float_magnitude, even_mantissa. split; [exact I|]. split; [|split].
      * apply Hunder. lia.
      * intros g Hg. destruct (Hnear g Hg) as [H _].
        assert (H0 : (inject_Z 0 * pow2 e == 0)%Q) by ring.
        rewrite H0 in H. exact H.
      * intros. exact I.
    + destruct (Z.leb_spec e 971) as [Hle|Hgt].
      * unfold nearest_binary64, canonical_binary64, float_magnitude, even_mantissa. split; [|split; [|split]].
        -- split; [lia|]. split; [lia|]. destruct (Z.eq_dec e (-1074)); [now right|left; apply Hlow; lia].
        -- apply Hunder. lia.
        -- intros g Hg. now apply Hnear.
        -- intros g Hg Hne Heq. now apply (Hnear g Hg).
      * unfold nearest_binary64, canonical_binary64, float_magnitude, even_mantissa. apply Hover. lia.
Qed.

Lemma round_binary64_nearest (s : bool) (n d : Z) (x : Q) :
  0 <= n -> 0 < d -> (x * inject_Z d == inject_Z n)%Q ->
  float_sign (round_binary64 s n d) = s /\ nearest_binary64 x (round_binary64 s n d).
Proof.
  intros Hn Hd Hx. unfold round_binary64.
  destruct (Z.eqb_spec n 0) as [Hn0|Hn0].
  - split; [reflexivity|].
    assert (Hx0 : (x == 0)%Q).
    { rewrite Hn0 in Hx. change (inject_Z 0) with 0%Q in Hx.
      apply Qmult_integral in Hx. destruct Hx as [Hx|Hx]; [exact Hx|].
      exfalso. unfold Qeq in Hx. simpl in Hx. lia. }
    unfold nearest_binary64, canonical_binary64, float_magnitude, even_mantissa.
    split; [exact I|]. split; [|split].
    + rewrite Hx0. reflexivity.
    + intros g _. rewrite Hx0. apply Qabs_nonneg.
    + intros. exact I.
  - assert (Hpos : 0 < n) by lia. cbv zeta.
    split; [apply pack_binary64_sign|].
    destruct (rounding_frame n d x Hpos Hd Hx) as (_ & He & _ & _ & Hm & Hmlow & _).
    destruct (rounding_range n d x Hpos Hd Hx) as [Hover Hunder].
    apply pack_binary64_nearest; try assumption.
    intros g Hg. now apply rounding_nearest.
Qed.

Lemma dec_magnitude (d : decimal) :
  (Qabs (dec_value d) == inject_Z (Z.of_N (dec_int d)) * Qpower (inject_Z 10) (dec_exp d))%Q.
Proof.
  unfold dec_value. rewrite Qabs_Qmult.
  assert (H10 : (0 <= Qpower (inject_Z 10) (dec_exp d))%Q).
  { apply Qpower_pos. discriminate. }
  rewrite (Qabs_pos _ H10).
  change (Qabs (inject_Z (dec_signed d))) with (inject_Z (Z.abs (dec_signed d))).
  replace (Z.abs (dec_signed d)) with (Z.of_N (dec_int d)); [reflexivity|].
  unfold dec_signed. destruct (dec_sign d); lia.
Qed.

Lemma float_of_decimal_nearest (d : decimal) :
  float_sign (float_of_decimal d) = dec_sign d /\
  nearest_binary64 (Qabs (dec_value d)) (float_of_decimal d).
Proof.
  unfold float_of_decimal.
  destruct (Z.leb_spec 0 (dec_exp d)) as [Hle|Hlt].
  - apply round_binary64_nearest.
    + pose proof (Z.pow_nonneg 10 (dec_exp d) ltac:(lia)). lia.
    + lia.
    + rewrite dec_magnitude, inject_Z_mult, Zpower_Qpower by assumption.
      change (inject_Z 1) with 1%Q. ring.
  - apply round_binary64_nearest.
    + lia.
    + apply Z.pow_pos_nonneg; lia.
    + rewrite dec_magnitude, Zpower_Qpower by lia.
      rewrite <- Qmult_assoc, <- Qpower_plus by discriminate.
      replace (dec_exp d + - dec_exp d) with 0 by lia. simpl Qpower. ring.
Qed.

(** Some conversions: 0.1 and 2.5; a tie, [2^53 + 1], that goes to the
    even mantissa; the least subnormal; a negative underflow and an
    overflow. *)
Example float_of_decimal_samples :
  float_of_decimal (Decimal false 1 (-1)) = S754_finite false 7205759403792794 (-56) /\
  float_of_decimal (Decimal false 25 (-1)) = S754_finite false 5629499534213120 (-51) /\
  float_of_decimal (Decimal false 9007199254740993 0) = S754_finite false 4503599627370496 1 /\
  float_of_decimal (Decimal false 5 (-324)) = S754_finite false 1 (-1074) /\
  float_of_decimal (Decimal true 1 (-400)) = S754_zero true /\
  float_of_decimal (Decimal false 1 400) = S754_infinity false.
Proof. repeat split; vm_compute; reflexivity. Qed.

(** ** The numeric normalizer *)

Lemma convert_decimals_no_decimal (v : pyval) :
  has_decimal (_convert_decimals v) = false.
Proof.
  induction v as [| | | | | l IH | d IH | d] using pyval_nested_ind; simpl; try reflexivity.
  - induction IH as [|x l Hx _ IHl]; simpl; [reflexivity|].
    now rewrite Hx, IHl.
  - induction IH as [|kv d Hkv _ IHd]; simpl; [reflexivity|].
    now rewrite Hkv, IHd.
  - now destruct (dec_eqb d (to_integral_value d)).
Qed.

(** C5. The numeric normalizer maps a list element by element, in order;
    maps every value of a dict and keeps its keys; turns a decimal with a
    zero fractional part into the integer of the same value and any other
    decimal into its floating-point representation: the float of the
    decimal's sign whose magnitude is the binary64 number nearest to the
    decimal's, ties going to the even mantissa, and an infinity from the
    overflow threshold on; leaves every other value as it is; and its
    result holds no decimal at any depth. *)
Theorem convert_decimals_normalizes :
  (forall l, _convert_decimals (VList l) = VList (map _convert_decimals l)) /\
  (forall d, exists d',
      _convert_decimals (VDict d) = VDict d' /\
      map fst d' = map fst d /\
      map snd d' = map _convert_decimals (map snd d)) /\
  (forall d, _convert_decimals (VDecimal d) =
             if dec_is_integral d then VInt (int_of_decimal d)
             else VFloat (float_of_decimal d)) /\
  (forall d, if dec_is_integral d
             then (inject_Z (int_of_decimal d) == dec_value d)%Q
             else ~ exists z, (dec_value d == inject_Z z)%Q) /\
  (forall d, float_sign (float_of_decimal d) = dec_sign d /\
             nearest_binary64 (Qabs (dec_value d)) (float_of_decimal d)) /\
  (_convert_decimals VNone = VNone /\
   (forall b, _convert_decimals (VBool b) = VBool b) /\
   (forall z, _convert_decimals (VInt z) = VInt z) /\
   (forall f, _convert_decimals (VFloat f) = VFloat f) /\
   (forall s, _convert_decimals (VStr s) = VStr s)) /\
  (forall v, has_decimal (_convert_decimals v) = false).
Proof.
  repeat split; try reflexivity.
  - intros d. eexists. split; [reflexivity|].
    rewrite !map_map. split; reflexivity.
  - intros d. simpl. now rewrite to_integral_test.
  - intros d. destruct (dec_is_integral d) eqn:H.
    + now apply int_of_decimal_value.
    + now apply non_integral_value.
  - apply float_of_decimal_nearest.
  - apply float_of_decimal_nearest.
  - apply convert_decimals_no_decimal.
Qed.

(** ** The JSON decoder on the text of an upload *)

Lemma scanstring_plain (s rest acc : pystr) :
  forallb plain_char s = true ->
  scanstring (s ++ 34%N :: rest) acc = Some (rev acc ++ s, rest).
Proof.
  revert acc. induction s as [|c s IH]; intros acc H.
  - simpl. now rewrite app_nil_r.
  - cbn [forallb] in H. apply andb_prop in H as [Hc Hs].
    unfold plain_char in Hc.
    apply andb_prop in Hc as [Hc H92]. apply andb_prop in Hc as [H34 H32].
    apply negb_true_iff in H34, H32, H92.
    change ((c :: s) ++ 34%N :: rest) with (c :: (s ++ 34%N :: rest)).
    cbn [scanstring]. rewrite H34, H32, H92. rewrite IH by assumption.
    cbn [rev]. now rewrite <- app_assoc.
Qed.

Lemma scan_once_string (f : nat) (s t r : pystr) :
  scanstring s [] = Some (t, r) ->
  scan_once (S f) (34%N :: s) = Some (VStr t, r).
Proof. intros H. cbn [scan_once]. change (34 =? 34)%N with true. cbn iota. now rewrite H. Qed.

Lemma scan_once_object (f : nat) (s : pystr) :
  scan_once (S f) (123%N :: 34%N :: s) = parse_members f s [].
Proof. reflexivity. Qed.

Lemma parse_members_next (f : nat) (s k v r : pystr) (acc : list (pystr * pyval)) :
  scanstring s [] = Some (k, 58%N :: 34%N :: v ++ 34%N :: 44%N :: 34%N :: r) ->
  forallb plain_char v = true ->
  parse_members (S (S f)) s acc = parse_members (S f) r (dict_set k (VStr v) acc).
Proof.
  intros Hk Hv. cbn [parse_members]. rewrite Hk.
  change (skip_ws (58%N :: ?x)) with (58%N :: x).
  cbn iota. change (58 =? 58)%N with true. cbn iota.
  change (skip_ws (34%N :: ?x)) with (34%N :: x).
  rewrite (scan_once_string f _ v (44%N :: 34%N :: r)).
  - reflexivity.
  - now rewrite scanstring_plain.
Qed.

Lemma parse_members_last (f : nat) (s k v : pystr) (acc : list (pystr * pyval)) :
  scanstring s [] = Some (k, 58%N :: 34%N :: v ++ 34%N :: [125%N]) ->
  forallb plain_char v = true ->
  parse_members (S (S f)) s acc = Some (VDict (dict_set k (VStr v) acc), []).
Proof.
  intros Hk Hv. cbn [parse_members]. rewrite Hk.
  change (skip_ws (58%N :: ?x)) with (58%N :: x).
  cbn iota. change (58 =? 58)%N with true. cbn iota.
  change (skip_ws (34%N :: ?x)) with (34%N :: x).
  rewrite (scan_once_string f _ v [125%N]).
  - reflexivity.
  - now rewrite scanstring_plain.
Qed.

Lemma json_loads_upload_text (file_name content : pystr) :
  forallb plain_char file_name = true -> forallb plain_char content = true ->
  json_loads (VStr (upload_text file_name (json_string content))) =
    Ok (VDict [(u "file_name", VStr file_name); (u "file_content", VStr content)]).
Proof.
  intros Hn Hc.
  assert (Ht : upload_text file_name (json_string content) =
               123%N :: 34%N :: u "file_name" ++ 34%N :: 58%N :: 34%N :: file_name
               ++ 34%N :: 44%N :: 34%N :: u "file_content" ++ 34%N :: 58%N :: 34%N
               :: content ++ 34%N :: [125%N]).
  { unfold upload_text, json_string.
    repeat (rewrite <- ?app_assoc, <- ?app_comm_cons; cbn [app]).
    reflexivity. }
  rewrite Ht. clear Ht. cbn [json_loads].
  match goal with |- context [json_fuel ?t] =>
    assert (Hf : exists f, json_fuel t = S (S (S (S f))))
      by (exists (json_fuel t - 4)%nat; unfold json_fuel; cbn [length]; lia);
    destruct Hf as [f Hf]; rewrite Hf; clear Hf end.
  change (skip_ws (123%N :: ?x)) with (123%N :: x).
  rewrite scan_once_object.
  erewrite (parse_members_next _ _ (u "file_name") file_name);
    [|rewrite scanstring_plain by reflexivity; reflexivity|assumption].
  erewrite (parse_members_last _ _ (u "file_content") content);
    [|rewrite scanstring_plain by reflexivity; reflexivity|assumption].
  reflexivity.
Qed.

Lemma json_body_sized (n : nat) :
  _json_body (sized_upload_event n) = Ok (VDict (sized_upload_body n)).
Proof.
  unfold _json_body, sized_upload_event, upload_event.
  change (py_get _ (u "body") VNone) with
    (Ok (VStr (upload_text (u "a.txt") (json_string (repeat 97%N n))))).
  cbn [mbind result_bind rbind].
  rewrite json_loads_upload_text; [reflexivity|reflexivity|].
  induction n; [reflexivity|exact IHn].
Qed.

Lemma utf8_encode_letters (n : nat) :
  utf8_encode (repeat 97%N n) = Some (repeat (byte_of_N 97) n).
Proof.
  induction n as [|n IH]; [reflexivity|].
  change (repeat 97%N (S n)) with (97%N :: repeat 97%N n).
  cbn [utf8_encode]. rewrite IH. reflexivity.
Qed.

Lemma sized_upload_size (n : nat) :
  (data ← encode_content (VStr (repeat 97%N n)); py_len data) = Ok (Z.of_nat n).
Proof.
  unfold encode_content. rewrite utf8_encode_letters.
  cbn [mbind result_bind rbind py_len]. now rewrite repeat_length.
Qed.

(** ** The body parser *)

Lemma json_body_never_raises (event : pyval) : exists v, _json_body event = Ok v.
Proof.
  unfold _json_body, rcatch.
  match goal with |- exists v, match ?r with _ => _ end = _ => destruct r end; eauto.
Qed.

Lemma json_body_absent (event : list (pystr * pyval)) :
  dict_lookup (u "body") event = None -> _json_body (VDict event) = Ok (VDict []).
Proof. intros H. unfold _json_body. simpl. now rewrite H. Qed.

Lemma json_body_decoded (event : list (pystr * pyval)) (b v : pyval) :
  dict_lookup (u "body") event = Some b -> json_loads b = Ok v ->
  _json_body (VDict event) = Ok v.
Proof.
  intros H Hv. unfold _json_body. simpl. rewrite H.
  destruct b; simpl in *; try discriminate; now rewrite ?Hv.
Qed.

Lemma json_body_undecodable (event : list (pystr * pyval)) (b : pyval) (e : exn) :
  dict_lookup (u "body") event = Some b -> json_loads b = Raise e ->
  _json_body (VDict event) = Ok (VDict []).
Proof.
  intros H Hv. unfold _json_body. simpl. rewrite H.
  destruct b; simpl in *; try reflexivity; now rewrite ?Hv.
Qed.


(** C3. The body parser does not always return a mapping: for a body
    that is the JSON text of an array, decoding succeeds, the [except]
    clause does not run and the decoded list itself is returned; the
    upload handler then fails on its first [body.get]. *)
Theorem json_body_returns_decoded_array :
  _json_body array_body_event = Ok (VList [VInt 1]) /\
  is_dict (VList [VInt 1]) = false /\
  forall E w,
    handle_upload E array_body_event w = (Raise (AttributeError (VList [VInt 1]) (u "get")), w).
Proof.
  split; [vm_compute; reflexivity|]. split; [reflexivity|].
  intros E w. reflexivity.
Qed.



(** ** The request normalizer *)

Lemma parse_request_cases (event : list (pystr * pyval)) :
  py_truthy (request_context event) = false \/ is_dict (request_context event) = true ->
  _parse_request (VDict event) =
    Ok (match descriptor_method event with
        | Some m => (m, field_or_empty (u "rawPath") event)
        | None => (field_or_empty (u "httpMethod") event, field_or_empty (u "path") event)
        end).
Proof.
  unfold request_context, field, descriptor_method, _parse_request, field_or_empty, py_or.
  cbn [py_get mbind result_bind rbind].
  destruct (dict_lookup (u "requestContext") event) as [rc|]; cbn [py_truthy].
  - intros [H|H].
    + rewrite H. cbn [py_get mbind result_bind rbind dict_lookup].
      destruct rc; try reflexivity. destruct d; [reflexivity|discriminate].
    + destruct rc; try discriminate.
      destruct d as [|kv d]; [reflexivity|]. cbn [py_truthy py_get rbind].
      destruct (dict_lookup (u "http") (kv :: d)) as [h|]; [|reflexivity].
      destruct h; try reflexivity.
      unfold dict_contains. cbn [py_get rbind].
      destruct (dict_lookup (u "method") d0) eqn:Hm;
        cbn [mbind result_bind rbind py_get]; rewrite ?Hm; reflexivity.
  - intros _. reflexivity.
Qed.

(** C4 as stated fails: a request context that is a non-empty text has
    no [get], and the normalizer raises. *)
Lemma parse_request_raises_on_text_context :
  _parse_request text_context_event = Raise (AttributeError (VStr (u "x")) (u "get")).
Proof. reflexivity. Qed.

(** C4, amended. For every event record whose request context is
    missing, falsy or a mapping, the request normalizer returns a
    (method, path) pair without raising: the descriptor's method and the
    raw path when the context carries an HTTP descriptor with a method,
    the direct method and path otherwise; a missing field gives the empty
    text, a present one is returned as it is stored, so the pair is a
    pair of texts whenever the fields hold texts. *)
Theorem parse_request_normalizes (event : list (pystr * pyval)) :
  py_truthy (request_context event) = false \/ is_dict (request_context event) = true ->
  exists method path,
    _parse_request (VDict event) = Ok (method, path) /\
    (method, path) =
      match descriptor_method event with
      | Some m => (m, field_or_empty (u "rawPath") event)
      | None => (field_or_empty (u "httpMethod") event, field_or_empty (u "path") event)
      end /\
    (request_fields_are_text event = true -> is_str method = true /\ is_str path = true).
Proof.
  intros H. rewrite (parse_request_cases event H).
  unfold request_fields_are_text, field_or_empty.
  destruct (descriptor_method event) as [m|]; eexists _, _;
    (split; [reflexivity|split; [reflexivity|]]); cbn [text_or_missing];
    intros Ht; repeat (apply andb_prop in Ht as [Ht ?]).
  - split; [assumption|]. now destruct (dict_lookup (u "rawPath") event).
  - split.
    + now destruct (dict_lookup (u "httpMethod") event).
    + now destruct (dict_lookup (u "path") event).
Qed.

Lemma parse_request_normalizes_witness :
  exists method path,
    _parse_request sample_fields_event = Ok (method, path) /\
    (method, path) = (VStr (u "GET"), VStr (u "/files/abc")) /\
    (true = true -> is_str method = true /\ is_str path = true).
Proof.
  apply (parse_request_normalizes
           [(u "requestContext", VDict [(u "http", VDict [(u "method", VStr (u "GET"))])]);
            (u "rawPath", VStr (u "/files/abc")); (u "httpMethod", VStr (u "POST"))]).
  right. reflexivity.
Defined.

(** ** The handlers, case by case *)

Lemma dict_lookup_map (f : pyval -> pyval) (k : pystr) (d : list (pystr * pyval)) :
  dict_lookup k (map (fun kv => (fst kv, f (snd kv))) d) = option_map f (dict_lookup k d).
Proof.
  induction d as [|[k' v] d IH]; simpl; [reflexivity|].
  destruct (pystr_eqb k k'); [reflexivity|exact IH].
Qed.


Lemma handle_download_cases E fid w :
  let w1 := record_call (GetItem (TABLE_NAME E) [(u "file_id", VStr fid)]) w in
  handle_download E fid w =
  match get_item_error E with
  | Some e => (Ok (respond 500 (error_body (u "DynamoDB read failed: " ++ exn_str e))), w1)
  | None =>
      match table w !! fid with
      | None | Some [] => (Ok (respond 404 (error_body (u "File not found"))), w1)
      | Some item =>
          match dict_lookup (u "file_name") item with
          | None => (Raise (Exn "KeyError" (u "'" ++ u "file_name" ++ u "'")), w1)
          | Some fn0 =>
              let fn := _convert_decimals fn0 in
              let w2 := record_call
                          (GeneratePresignedUrl (u "get_object") (BUCKET_NAME E)
                             (download_key E fid fn) 3600) w1 in
              match presign_error E with
              | Some e =>
                  (Ok (respond 500
                         (error_body (u "Could not generate download URL: " ++ exn_str e))), w2)
              | None => (Ok (respond 200 (download_body E fid fn)), w2)
              end
          end
      end
  end.
Proof.
  intros w1. unfold handle_download, table_get_item.
  unfold mbind, M_bind, bind, try_except, lift, mret, M_ret, ret.
  fold w1. destruct (get_item_error E) as [e|]; [reflexivity|].
  change (dict_lookup (u "file_id") [(u "file_id", VStr fid)]) with (Some (VStr fid)).
  cbn beta iota. change (table w1) with (table w).
  destruct (table w !! fid) as [item|]; [|reflexivity].
  destruct item as [|kv item]; [reflexivity|].
  set (it := kv :: item).
  change (py_get (VDict [(u "Item", VDict it)]) (u "Item") VNone) with (Ok (VDict it)).
  cbn beta iota.
  change (py_truthy (VDict it)) with true. cbn [negb]. cbn beta iota.
  cbn [_convert_decimals py_getitem]. rewrite dict_lookup_map.
  destruct (dict_lookup (u "file_name") it) as [fn0|]; [|reflexivity].
  cbn [option_map]. cbn beta iota. unfold s3_generate_presigned_url.
  destruct (presign_error E) as [e|]; [reflexivity|].
  unfold _resp, json_dumps.
  cbn [has_decimal existsb snd]. rewrite convert_decimals_no_decimal. reflexivity.
Qed.

Lemma handle_upload_cases E event body w :
  _json_body event = Ok (VDict body) ->
  handle_upload E event w =
  let file_name := field (u "file_name") body in
  let file_content := field (u "file_content") body in
  if negb (py_truthy file_name) || is_none file_content then
    (Ok (respond 400 (error_body (u "Provide file_name and file_content"))), w)
  else
    match encode_content file_content with
    | Raise e => (Raise e, w)
    | Ok data =>
        match py_len data with
        | Raise e => (Raise e, w)
        | Ok size_bytes =>
            if size_bytes >? MAX_BYTES then
              (Ok (respond 413 (error_body (u "File too large (>20MB)"))), w)
            else
              let w1 := record_call (upload_put_object E body data) w in
              match put_object_error E with
              | Some e =>
                  (Ok (respond 500 (error_body (u "S3 upload failed: " ++ exn_str e))), w1)
              | None =>
                  let w2 := World (<[(BUCKET_NAME E, upload_key E file_name)
                                      := upload_object E body data]> (blobs w))
                              (table w) (calls w1) in
                  let w3 := record_call (PutItem (TABLE_NAME E) (upload_item E body size_bytes)) w2 in
                  match put_item_error E with
                  | Some e =>
                      (Ok (respond 500 (error_body (u "DynamoDB write failed: " ++ exn_str e))),
                       w3)
                  | None =>
                      (_resp 200 (VDict [(u "file_id", VStr (uuid4 E));
                                         (u "file_name", file_name)]) None,
                       World (blobs w3)
                         (<[uuid4 E := map (fun kv => (fst kv, ddb_typed (snd kv)))
                                         (upload_item E body size_bytes)]> (table w3))
                         (calls w3))
                  end
              end
        end
    end.
Proof.
  intros Hbody. unfold handle_upload. rewrite Hbody.
  unfold mbind, M_bind, bind, try_except, lift, mret, M_ret, ret.
  cbn [py_get]. fold (field (u "file_name") body) (field (u "file_content") body)
    (field (u "content_type") body).
  cbv zeta. 
  destruct (negb (py_truthy (field (u "file_name") body)) || is_none (field (u "file_content") body));
    [reflexivity|].
  destruct (encode_content (field (u "file_content") body)) as [data|e]; [|reflexivity].
  destruct (py_len data) as [n|e]; [|reflexivity].
  destruct (n >? MAX_BYTES); [reflexivity|].
  unfold s3_put_object, table_put_item.
  destruct (put_object_error E) as [e|]; [reflexivity|].
  destruct (put_item_error E) as [e|]; reflexivity.
Qed.

(** ** The router *)

Lemma router_get_files E event w :
  _parse_request event = Ok (VStr (u "GET"), VStr (u "/files")) ->
  lambda_handler E event w = handle_list E w.
Proof.
  intros H. unfold lambda_handler. rewrite H. reflexivity.
Qed.

Lemma router_get_files_slash E event w :
  _parse_request event = Ok (VStr (u "GET"), VStr (u "/files/")) ->
  lambda_handler E event w = handle_download E [] w.
Proof.
  intros H. unfold lambda_handler. rewrite H. reflexivity.
Qed.

Lemma handle_download_outcome E fid w :
  (forall r, fst (handle_download E fid w) = Ok r ->
     (exists fields, body r = JsonText (VDict fields)) /\
     r <> respond 404 (error_body (u "Not Found"))) /\
  exists cs, calls (snd (handle_download E fid w)) = calls w ++ cs /\
             forallb is_scan cs = false.
Proof.
  rewrite handle_download_cases. cbv zeta.
  destruct (get_item_error E) as [e|].
  { split; [intros r [= <-]; split; [eexists; reflexivity|discriminate]|].
    eexists [_]. split; reflexivity. }
  assert (H404 : forall w' : world,
    (forall r, fst (Ok (respond 404 (error_body (u "File not found"))), w') = Ok r ->
       (exists fields, body r = JsonText (VDict fields)) /\
       r <> respond 404 (error_body (u "Not Found")))).
  { intros w' r [= <-]. split; [eexists; reflexivity|discriminate]. }
  destruct (table w !! fid) as [[|kv item]|].
  - split; [apply H404|]. eexists [_]. split; reflexivity.
  - destruct (dict_lookup (u "file_name") (kv :: item)) as [fn|].
    + destruct (presign_error E) as [e|].
      * split; [intros r [= <-]; split; [eexists; reflexivity|discriminate]|].
        eexists [_; _]. cbn [snd record_call calls]. rewrite <- app_assoc.
        split; reflexivity.
      * split; [intros r [= <-]; split; [eexists; reflexivity|discriminate]|].
        eexists [_; _]. cbn [snd record_call calls]. rewrite <- app_assoc.
        split; reflexivity.
    + split; [discriminate|]. eexists [_]. split; reflexivity.
  - split; [apply H404|]. eexists [_]. split; reflexivity.
Qed.

(** C10. GET on the exact path /files goes to the list handler; GET on
    /files/ goes to the download handler, with the empty text as the
    identifier: the answer is whatever that handler gives, a record and
    never a sequence, never the router's own 404, and the table is never
    scanned. *)
Theorem router_files_and_files_slash (E : env) (event : pyval) (w : world) :
  (_parse_request event = Ok (VStr (u "GET"), VStr (u "/files")) ->
   lambda_handler E event w = handle_list E w) /\
  (_parse_request event = Ok (VStr (u "GET"), VStr (u "/files/")) ->
   lambda_handler E event w = handle_download E [] w /\
   (forall r, fst (lambda_handler E event w) = Ok r ->
      (exists fields, body r = JsonText (VDict fields)) /\
      r <> respond 404 (error_body (u "Not Found"))) /\
   exists cs, calls (snd (lambda_handler E event w)) = calls w ++ cs /\
              forallb is_scan cs = false).
Proof.
  split; intros H.
  - now apply router_get_files.
  - rewrite (router_get_files_slash E event w H).
    split; [reflexivity|]. apply handle_download_outcome.
Qed.

Lemma router_files_and_files_slash_witness :
  lambda_handler sample_env (v2_event (u "GET") (u "/files") []) sample_world
    = handle_list sample_env sample_world /\
  lambda_handler sample_env (v1_event (u "GET") (u "/files/") []) sample_world
    = handle_download sample_env [] sample_world.
Proof.
  split.
  - apply (proj1 (router_files_and_files_slash sample_env _ sample_world)). reflexivity.
  - apply (proj2 (router_files_and_files_slash sample_env _ sample_world)). reflexivity.
Defined.


(** ** The download handler *)

(** C8. A download whose metadata read succeeds: when no record is
    stored under the identifier the answer is 404 with the error File not
    found; when a record is stored, with a file name, the handler asks
    for a pre-signed read URL, valid for 3600 seconds, of the blob under
    the key made of the identifier, an underscore and the record's file
    name, and when that succeeds it answers 200 with the identifier, the
    file name and the URL. *)
Theorem download_resolves_record (E : env) (file_id : pystr) (w : world) :
  get_item_error E = None ->
  let w1 := record_call (GetItem (TABLE_NAME E) [(u "file_id", VStr file_id)]) w in
  (table w !! file_id = None ->
   handle_download E file_id w = (Ok (respond 404 (error_body (u "File not found"))), w1)) /\
  (forall item file_name,
     table w !! file_id = Some item ->
     dict_lookup (u "file_name") item = Some file_name ->
     presign_error E = None ->
     let name := _convert_decimals file_name in
     let key := file_id ++ u "_" ++ py_format E name in
     handle_download E file_id w =
       (Ok (respond 200
              (VDict [(u "file_id", VStr file_id);
                      (u "file_name", name);
                      (u "download_url", VStr (presigned_url E (BUCKET_NAME E) key 3600))])),
        record_call (GeneratePresignedUrl (u "get_object") (BUCKET_NAME E) key 3600) w1) /\
     (forall s, file_name = VStr s -> name = VStr s /\ key = file_id ++ u "_" ++ s)).
Proof.
  intros Hget w1. split.
  - intros Hnone. rewrite handle_download_cases, Hget, Hnone. reflexivity.
  - intros item file_name Hitem Hname Hsign name key. split.
    + rewrite handle_download_cases, Hget, Hitem.
      destruct item as [|kv item]; [discriminate|].
      rewrite Hname. cbv zeta. rewrite Hsign. reflexivity.
    + intros s ->. split; reflexivity.
Qed.

Lemma download_resolves_record_witness :
  handle_download sample_env (u "id-9") sample_world =
    (Ok (respond 404 (error_body (u "File not found"))),
     record_call (GetItem (u "files") [(u "file_id", VStr (u "id-9"))]) sample_world) /\
  fst (handle_download sample_env (u "id-0") sample_world) =
    Ok (respond 200
          (VDict [(u "file_id", VStr (u "id-0"));
                  (u "file_name", VStr (u "notes.txt"));
                  (u "download_url", VStr (u "https://bucket/id-0_notes.txt"))])).
Proof.
  pose proof (download_resolves_record sample_env (u "id-9") sample_world eq_refl) as [H9 _].
  pose proof (download_resolves_record sample_env (u "id-0") sample_world eq_refl) as [_ H0].
  split.
  - apply H9. vm_compute. reflexivity.
  - destruct (H0 sample_record (VStr (u "notes.txt"))) as [H _];
      [vm_compute; reflexivity|reflexivity|reflexivity|].
    rewrite H. reflexivity.
Defined.

(** ** The upload handler *)

Lemma upload_reaches_store E event body content data n w :
  _json_body event = Ok (VDict body) ->
  py_truthy (field (u "file_name") body) = true ->
  dict_lookup (u "file_content") body = Some content ->
  is_none content = false ->
  encode_content content = Ok data ->
  py_len data = Ok n ->
  n <= MAX_BYTES ->
  (exists rest, calls (snd (handle_upload E event w))
                = calls w ++ upload_put_object E body data :: rest) /\
  (forall r, fst (handle_upload E event w) = Ok r -> statusCode r = 200 \/ statusCode r = 500).
Proof.
  intros Hbody Hname Hcontent Hnone Henc Hlen Hn.
  rewrite (handle_upload_cases E event body w Hbody). cbv zeta.
  assert (Hfc : field (u "file_content") body = content)
    by (unfold field; now rewrite Hcontent).
  rewrite Hname, Hfc, Hnone. cbn [negb orb].
  rewrite Henc, Hlen.
  replace (n >? MAX_BYTES) with false by (symmetry; rewrite Z.gtb_ltb; apply Z.ltb_ge; lia).
  destruct (put_object_error E) as [e|].
  { split; [exists []; reflexivity|]. intros r [= <-]. now right. }
  destruct (put_item_error E) as [e|].
  { split; [eexists [_]; cbn [snd record_call calls]; now rewrite <- app_assoc|].
    intros r [= <-]. now right. }
  split; [eexists [_]; cbn [snd record_call calls]; now rewrite <- app_assoc|].
  intros r. unfold _resp. destruct (json_dumps _); cbn; [|discriminate].
  intros [= <-]. now left.
Qed.

(** C2. An upload whose parsed body lacks a file name, has an empty one,
    or has no file content (missing or null) is answered 400 with the
    error Provide file_name and file_content, and nothing is written: the
    world is left as it was.  An empty text as content is accepted: with
    a name, the handler goes on to write the (empty) blob and the answer
    is not this error. *)
Theorem upload_requires_name_and_content (E : env) (event : pyval)
    (body : list (pystr * pyval)) (w : world) :
  _json_body event = Ok (VDict body) ->
  ((dict_lookup (u "file_name") body = None \/
    dict_lookup (u "file_name") body = Some (VStr []) \/
    dict_lookup (u "file_content") body = None \/
    dict_lookup (u "file_content") body = Some VNone) ->
   handle_upload E event w =
     (Ok (respond 400 (error_body (u "Provide file_name and file_content"))), w)) /\
  (py_truthy (field (u "file_name") body) = true ->
   dict_lookup (u "file_content") body = Some (VStr []) ->
   (exists rest, calls (snd (handle_upload E event w))
                 = calls w ++ upload_put_object E body (Bytes []) :: rest) /\
   (forall r, fst (handle_upload E event w) = Ok r -> statusCode r = 200 \/ statusCode r = 500)).
Proof.
  intros Hbody. split.
  - intros H. rewrite (handle_upload_cases E event body w Hbody). cbv zeta.
    unfold field.
    destruct H as [H|[H|[H|H]]]; rewrite H; cbn [py_truthy negb orb is_none];
      rewrite ?orb_true_r; reflexivity.
  - intros Hname Hcontent.
    apply (upload_reaches_store E event body (VStr []) (Bytes []) 0 w); try assumption;
      try reflexivity.
    unfold MAX_BYTES. lia.
Qed.

Lemma upload_requires_name_and_content_witness :
  handle_upload sample_env nameless_upload_event empty_world =
    (Ok (respond 400 (error_body (u "Provide file_name and file_content"))), empty_world) /\
  exists rest, calls (snd (handle_upload sample_env empty_content_event empty_world))
               = calls empty_world
                 ++ upload_put_object sample_env
                      [(u "file_name", VStr (u "a.txt")); (u "file_content", VStr [])]
                      (Bytes []) :: rest.
Proof.
  split.
  - apply (proj1 (upload_requires_name_and_content sample_env nameless_upload_event
                    [(u "file_content", VStr (u "hello"))] empty_world
                    ltac:(vm_compute; reflexivity))).
    left. reflexivity.
  - apply (proj2 (upload_requires_name_and_content sample_env empty_content_event
                    [(u "file_name", VStr (u "a.txt")); (u "file_content", VStr [])]
                    empty_world ltac:(vm_compute; reflexivity)));
      reflexivity.
Defined.

(** C1. An upload whose parsed body has a non-empty file name and a
    content, of byte length [n] once a text content is encoded: when [n]
    exceeds 20 * 1024 * 1024 the answer is 413 with the error File too
    large (>20MB) and nothing is written; the cap is exclusive, so at
    exactly 20 * 1024 * 1024 bytes the size check passes and the handler
    goes on to write the blob. *)
Theorem upload_size_cap (E : env) (event : pyval) (body : list (pystr * pyval))
    (content : pyval) (data : payload) (n : Z) (w : world) :
  _json_body event = Ok (VDict body) ->
  py_truthy (field (u "file_name") body) = true ->
  dict_lookup (u "file_content") body = Some content ->
  is_none content = false ->
  encode_content content = Ok data ->
  py_len data = Ok n ->
  MAX_BYTES = 20 * 1024 * 1024 /\
  (n > MAX_BYTES ->
   handle_upload E event w = (Ok (respond 413 (error_body (u "File too large (>20MB)"))), w)) /\
  (n = MAX_BYTES ->
   (exists rest, calls (snd (handle_upload E event w))
                 = calls w ++ upload_put_object E body data :: rest) /\
   (forall r, fst (handle_upload E event w) = Ok r -> statusCode r = 200 \/ statusCode r = 500)).
Proof.
  intros Hbody Hname Hcontent Hnone Henc Hlen.
  split; [reflexivity|]. split.
  - intros Hn. rewrite (handle_upload_cases E event body w Hbody). cbv zeta.
    assert (Hfc : field (u "file_content") body = content)
      by (unfold field; now rewrite Hcontent).
    rewrite Hname, Hfc, Hnone. cbn [negb orb].
    rewrite Henc, Hlen.
    replace (n >? MAX_BYTES) with true by (symmetry; rewrite Z.gtb_ltb; apply Z.ltb_lt; lia).
    reflexivity.
  - intros Hn.
    apply (upload_reaches_store E event body content data n w); try assumption. lia.
Qed.

Lemma encode_letters (n : nat) :
  encode_content (VStr (repeat 97%N n)) = Ok (Bytes (repeat (byte_of_N 97) n)).
Proof. unfold encode_content. now rewrite utf8_encode_letters. Qed.

Lemma upload_size_cap_witness :
  handle_upload sample_env (sized_upload_event (Z.to_nat (MAX_BYTES + 1))) empty_world =
    (Ok (respond 413 (error_body (u "File too large (>20MB)"))), empty_world) /\
  exists rest, calls (snd (handle_upload sample_env (sized_upload_event (Z.to_nat MAX_BYTES))
                             empty_world))
               = calls empty_world
                 ++ upload_put_object sample_env (sized_upload_body (Z.to_nat MAX_BYTES))
                      (Bytes (repeat (byte_of_N 97) (Z.to_nat MAX_BYTES))) :: rest.
Proof.
  split.
  - apply (upload_size_cap sample_env _ _ _ _ _ empty_world
             (json_body_sized (Z.to_nat (MAX_BYTES + 1))) eq_refl eq_refl eq_refl
             (encode_letters _) eq_refl).
    rewrite repeat_length, Z2Nat.id; unfold MAX_BYTES; lia.
  - apply (upload_size_cap sample_env _ _ _ _ _ empty_world
             (json_body_sized (Z.to_nat MAX_BYTES)) eq_refl eq_refl eq_refl
             (encode_letters _) eq_refl).
    rewrite repeat_length, Z2Nat.id; unfold MAX_BYTES; lia.
Defined.

(** C7. When the blob write succeeds and the metadata write that follows
    fails, the upload is answered 500 with the error DynamoDB write
    failed: and the text of the failure; the blob is neither deleted nor
    rolled back: it stays in the blob store under the key made of the
    identifier, an underscore and the file name, while the metadata table
    is as it was before, and the only requests made are the two
    writes. *)
Theorem upload_leaves_orphan_blob (E : env) (event : pyval) (body : list (pystr * pyval))
    (content : pyval) (data : payload) (n : Z) (e : exn) (w : world) :
  _json_body event = Ok (VDict body) ->
  py_truthy (field (u "file_name") body) = true ->
  dict_lookup (u "file_content") body = Some content ->
  is_none content = false ->
  encode_content content = Ok data ->
  py_len data = Ok n ->
  n <= MAX_BYTES ->
  put_object_error E = None ->
  put_item_error E = Some e ->
  let key := uuid4 E ++ u "_" ++ py_format E (field (u "file_name") body) in
  exists w',
    handle_upload E event w =
      (Ok (respond 500 (error_body (u "DynamoDB write failed: " ++ exn_str e))), w') /\
    blobs w' !! (BUCKET_NAME E, key) = Some (upload_object E body data) /\
    (forall k, k <> (BUCKET_NAME E, key) -> blobs w' !! k = blobs w !! k) /\
    table w' = table w /\
    calls w' = calls w ++ [upload_put_object E body data;
                           PutItem (TABLE_NAME E) (upload_item E body n)] /\
    (forall name, dict_lookup (u "file_name") body = Some (VStr name) ->
                  key = uuid4 E ++ u "_" ++ name).
Proof.
  intros Hbody Hname Hcontent Hnone Henc Hlen Hn Hput Hitem key.
  rewrite (handle_upload_cases E event body w Hbody). cbv zeta.
  assert (Hfc : field (u "file_content") body = content)
    by (unfold field; now rewrite Hcontent).
  rewrite Hname, Hfc, Hnone. cbn [negb orb].
  rewrite Henc, Hlen.
  replace (n >? MAX_BYTES) with false by (symmetry; rewrite Z.gtb_ltb; apply Z.ltb_ge; lia).
  rewrite Hput, Hitem.
  eexists. split; [reflexivity|].
  cbn [record_call blobs table calls]. fold key.
  split; [apply lookup_insert_eq|].
  split; [intros k Hk; now apply lookup_insert_ne|].
  split; [reflexivity|].
  split; [now rewrite <- app_assoc|].
  intros name Hn'. unfold key, field. now rewrite Hn'.
Qed.

Lemma upload_leaves_orphan_blob_witness :
  exists w',
    handle_upload table_rejecting_env small_upload_event empty_world =
      (Ok (respond 500 (error_body (u "DynamoDB write failed: throttled"))), w') /\
    blobs w' !! (u "bucket", u "id-1_a.txt") =
      Some (S3Object (Bytes (map byte_of_N (u "hello"))) (VStr (u "text/plain"))
              [(u "file-id", VStr (u "id-1")); (u "original-name", VStr (u "a.txt"))]) /\
    table w' = ∅.
Proof.
  destruct (upload_leaves_orphan_blob table_rejecting_env small_upload_event small_upload_body
              (VStr (u "hello")) (Bytes (map byte_of_N (u "hello"))) 5
              (Exn "ClientError" (u "throttled")) empty_world)
    as (w' & H & Hblob & _ & Htable & _);
    try reflexivity; [unfold MAX_BYTES; lia|].
  exists w'. split; [exact H|]. split; [exact Hblob|exact Htable].
Defined.

Lemma upload_raises_without_len E event body content w :
  _json_body event = Ok (VDict body) ->
  py_truthy (field (u "file_name") body) = true ->
  dict_lookup (u "file_content") body = Some content ->
  has_no_len content = true ->
  handle_upload E event w =
    (Raise (TypeError (u "object of type '" ++ type_name content ++ u "' has no len()")), w).
Proof.
  intros Hbody Hname Hcontent Hlen.
  rewrite (handle_upload_cases E event body w Hbody). cbv zeta.
  assert (Hfc : field (u "file_content") body = content)
    by (unfold field; now rewrite Hcontent).
  rewrite Hname, Hfc. destruct content; try discriminate; reflexivity.
Qed.

(** C9 as stated fails: an array has a length, so an upload whose
    content is an array passes the size check and reaches the blob
    store; when the store refuses the write the handler answers 500. *)
Lemma upload_array_content_is_answered :
  fst (lambda_handler s3_rejecting_env array_content_event empty_world) =
    Ok (respond 500 (error_body
          (u "S3 upload failed: Parameter validation failed: Invalid type for parameter Body"))).
Proof. vm_compute. reflexivity. Qed.

(** C9, amended. For an upload whose file content is present and is a
    JSON number or boolean (a value that is neither text nor bytes and
    has no length), the content passes the null check, is neither encoded
    nor rejected, and taking its length raises a [TypeError] that no
    handler catches: it leaves [handle_upload], and [lambda_handler] when
    the request is routed there, instead of a response; nothing is
    written. *)
Theorem upload_number_content_raises (E : env) (event : pyval) (body : list (pystr * pyval))
    (content : pyval) (w : world) :
  _json_body event = Ok (VDict body) ->
  py_truthy (field (u "file_name") body) = true ->
  dict_lookup (u "file_content") body = Some content ->
  has_no_len content = true ->
  let e := TypeError (u "object of type '" ++ type_name content ++ u "' has no len()") in
  handle_upload E event w = (Raise e, w) /\
  (_parse_request event = Ok (VStr (u "POST"), VStr (u "/upload")) ->
   lambda_handler E event w = (Raise e, w)).
Proof.
  intros Hbody Hname Hcontent Hlen e.
  pose proof (upload_raises_without_len E event body content w Hbody Hname Hcontent Hlen) as H.
  split; [exact H|].
  intros Hroute. unfold lambda_handler. rewrite Hroute.
  change ((lift (Ok (VStr (u "POST"), VStr (u "/upload"))) ≫= _) w)
    with (handle_upload E event w).
  exact H.
Qed.

Lemma upload_number_content_raises_witness :
  lambda_handler sample_env number_content_event empty_world =
    (Raise (TypeError (u "object of type 'int' has no len()")), empty_world).
Proof.
  apply (upload_number_content_raises sample_env number_content_event
           [(u "file_name", VStr (u "a.txt")); (u "file_content", VInt 5)] (VInt 5) empty_world);
    reflexivity.
Defined.

(** ** The list handler *)

Lemma pystr_ltb_asym (a b : pystr) : pystr_ltb a b = true -> pystr_ltb b a = false.
Proof.
  revert b. induction a as [|x a IH]; intros [|y b]; simpl; try congruence.
  destruct (N.ltb_spec x y), (N.ltb_spec y x); try congruence; try lia. apply IH.
Qed.

Lemma pystr_ltb_negtrans (a b c : pystr) :
  pystr_ltb a c = true -> pystr_ltb a b = true \/ pystr_ltb b c = true.
Proof.
  revert b c. induction a as [|x a IH]; intros [|y b] [|z c]; simpl; try congruence; auto;
    repeat match goal with
           | |- context [N.ltb ?p ?q] => destruct (N.ltb_spec p q)
           end; auto; try congruence; try lia.
Qed.

Lemma pystr_ltb_nil (a : pystr) : pystr_ltb [] a = false -> a = [].
Proof. destruct a; simpl; congruence. Qed.

Lemma sort_insert_text (x : pyval * pyval) (l : list (pyval * pyval)) :
  is_str (fst x) = true -> Forall (fun p => is_str (fst p) = true) l ->
  StronglySorted keyed_ascending l ->
  exists r, sort_insert x l = Ok r /\ r ≡ₚ x :: l /\ StronglySorted keyed_ascending r.
Proof.
  intros Hx Hl Hs. induction l as [|y l IH].
  - exists [x]. repeat split; [reflexivity|]. repeat constructor.
  - apply Forall_cons in Hl as [Hy Hl]. apply StronglySorted_cons in Hs as [Hyl Hs].
    destruct x as [kx vx], y as [ky vy]. cbn [fst] in Hx, Hy.
    destruct kx as [| | | |sx| | |]; try discriminate.
    destruct ky as [| | | |sy| | |]; try discriminate.
    cbn [sort_insert fst py_lt mbind result_bind rbind].
    destruct (pystr_ltb sx sy) eqn:Hlt.
    + eexists. split; [reflexivity|]. split; [reflexivity|].
      apply StronglySorted_cons. split; [|now apply StronglySorted_cons].
      constructor; [now apply pystr_ltb_asym|].
      eapply Forall_impl; [exact Hyl|]. intros [kz vz] Hz.
      unfold keyed_ascending in *. cbn [key_text fst] in *.
      destruct (pystr_ltb (key_text (kz, vz)) sx) eqn:Hzx; [|reflexivity].
      destruct (pystr_ltb_negtrans _ sy _ Hzx) as [H|H].
      * congruence.
      * apply pystr_ltb_asym in Hlt. congruence.
    + destruct (IH Hl Hs) as (r & Hr & Hperm & Hsorted).
      rewrite Hr. eexists. split; [reflexivity|].
      split; [rewrite Hperm; apply Permutation_swap|].
      apply StronglySorted_cons. split; [|assumption].
      rewrite Hperm. constructor; [exact Hlt|exact Hyl].
Qed.

Lemma sort_keyed_text (l acc : list (pyval * pyval)) :
  Forall (fun p => is_str (fst p) = true) l ->
  Forall (fun p => is_str (fst p) = true) acc ->
  StronglySorted keyed_ascending acc ->
  exists r, sort_keyed acc l = Ok r /\ r ≡ₚ acc ++ l /\ StronglySorted keyed_ascending r.
Proof.
  revert acc. induction l as [|x l IH]; intros acc Hl Hacc Hs.
  - exists acc. rewrite app_nil_r. auto.
  - apply Forall_cons in Hl as [Hx Hl].
    destruct (sort_insert_text x acc Hx Hacc Hs) as (acc' & Hins & Hperm & Hs').
    destruct (IH acc') as (r & Hr & Hperm' & Hsorted); [assumption| |assumption|].
    { rewrite Hperm. now constructor. }
    exists r. cbn [sort_keyed mbind result_bind rbind]. rewrite Hins.
    split; [exact Hr|]. split; [|assumption].
    rewrite Hperm', Hperm. cbn. now rewrite Permutation_middle.
Qed.

Lemma StronglySorted_rev {A} (R : relation A) (l : list A) :
  StronglySorted R l -> StronglySorted (flip R) (rev l).
Proof.
  induction 1 as [|x l Hs IH Hx]; [constructor|]. cbn [rev].
  apply StronglySorted_app_2; [|assumption|repeat constructor].
  intros x1 x2 H1 H2. apply list_elem_of_singleton in H2 as ->.
  unfold flip. rewrite Forall_forall in Hx. apply Hx.
  apply list_elem_of_In. apply list_elem_of_In in H1. now apply in_rev.
Qed.

Lemma StronglySorted_map_snd (l : list (pyval * pyval)) :
  Forall (fun p => key_text p = timestamp_of (snd p)) l ->
  StronglySorted keyed_ascending l ->
  StronglySorted (flip newest_first) (map snd l).
Proof.
  intros Hk Hs. induction Hs as [|p l Hs IH Hp]; [constructor|].
  apply Forall_cons in Hk as [Hkp Hk]. cbn [map]. constructor; [now apply IH|].
  apply Forall_map. rewrite Forall_forall in *. intros q Hq.
  unfold flip, newest_first. rewrite <- Hkp, <- (Hk q Hq). now apply Hp.
Qed.

Lemma converted_timed_record (item : list (pystr * pyval)) :
  timestamp_is_text item = true ->
  py_get (_convert_decimals (VDict item)) (u "upload_timestamp") (VStr [])
    = Ok (VStr (timestamp_of (_convert_decimals (VDict item)))).
Proof.
  unfold timestamp_is_text. cbn [_convert_decimals py_get timestamp_of].
  rewrite dict_lookup_map.
  destruct (dict_lookup (u "upload_timestamp") item) as [v|]; [|reflexivity].
  destruct v; try discriminate. reflexivity.
Qed.

Lemma keyed_timed_records (items : list (list (pystr * pyval))) :
  Forall (fun item => timestamp_is_text item = true) items ->
  keyed (fun x => py_get x (u "upload_timestamp") (VStr []))
        (map _convert_decimals (map VDict items))
  = Ok (map (fun x => (VStr (timestamp_of x), x)) (map _convert_decimals (map VDict items))).
Proof.
  induction 1 as [|item items Hitem _ IH]; [reflexivity|].
  cbn [map keyed]. rewrite converted_timed_record by assumption.
  cbn [mbind result_bind rbind]. fold (map (A:=pyval)). 
  change (keyed _ (map _convert_decimals (map VDict items)) ≫= _)
    with (rbind (keyed (fun x => py_get x (u "upload_timestamp") (VStr []))
                   (map _convert_decimals (map VDict items)))
            (fun r => Ok ((VStr (timestamp_of (_convert_decimals (VDict item))),
                           _convert_decimals (VDict item)) :: r))).
  rewrite IH. reflexivity.
Qed.

Lemma sort_timed_records (items : list (list (pystr * pyval))) :
  Forall (fun item => timestamp_is_text item = true) items ->
  exists out,
    py_sort_reverse (fun x => py_get x (u "upload_timestamp") (VStr []))
      (VList (map _convert_decimals (map VDict items))) = Ok (VList out) /\
    out ≡ₚ map _convert_decimals (map VDict items) /\
    StronglySorted newest_first out.
Proof.
  intros Hitems. unfold py_sort_reverse.
  rewrite (keyed_timed_records items Hitems). cbn [mbind result_bind rbind].
  set (xs := map _convert_decimals (map VDict items)).
  set (ks := map (fun x => (VStr (timestamp_of x), x)) xs).
  assert (Hstr : Forall (fun p : pyval * pyval => is_str (fst p) = true) (rev ks)).
  { apply Forall_forall. intros p Hp. apply list_elem_of_In, in_rev, in_map_iff in Hp.
    destruct Hp as (x & <- & _). reflexivity. }
  assert (Hkey : Forall (fun p => key_text p = timestamp_of (snd p)) (rev ks)).
  { apply Forall_forall. intros p Hp. apply list_elem_of_In, in_rev, in_map_iff in Hp.
    destruct Hp as (x & <- & _). reflexivity. }
  destruct (sort_keyed_text (rev ks) [] Hstr (Forall_nil_2 _) (SSorted_nil _))
    as (r & Hr & Hperm & Hsorted).
  rewrite Hr. cbn [rbind]. eexists. split; [reflexivity|]. split.
  - rewrite <- Permutation_rev, Hperm. cbn [app].
    rewrite <- Permutation_rev. unfold ks. rewrite map_map. cbn [snd].
    now rewrite map_id.
  - assert (Hkey' : Forall (fun p => key_text p = timestamp_of (snd p)) r)
      by now rewrite Hperm.
    apply (StronglySorted_rev (flip newest_first)).
    now apply StronglySorted_map_snd.
Qed.

Lemma no_decimal_converted_list (out : list pyval) (xs : list pyval) :
  out ≡ₚ map _convert_decimals xs -> has_decimal (VList out) = false.
Proof.
  intros Hperm. cbn [has_decimal]. apply not_true_is_false. intros H.
  apply existsb_exists in H as (x & Hx & Hd).
  apply list_elem_of_In in Hx. rewrite Hperm in Hx.
  apply list_elem_of_In, in_map_iff in Hx as (y & <- & _).
  rewrite convert_decimals_no_decimal in Hd. discriminate.
Qed.

(** C6. When the scan succeeds and every stored timestamp is a text, the
    list handler answers 200 with the scanned records, numbers
    normalized, in descending lexicographic order of their timestamps; a
    record without the field counts as having the empty timestamp and
    so is followed only by records whose timestamp is empty too; when
    the table is empty the answer is the empty sequence. *)
Theorem list_newest_first (E : env) (w : world) :
  scan_error E = None ->
  forallb (fun kv => timestamp_is_text (snd kv)) (map_to_list (table w)) = true ->
  exists out,
    handle_list E w = (Ok (respond 200 (VList out)), record_call (Scan (TABLE_NAME E)) w) /\
    out ≡ₚ map _convert_decimals (scanned_records w) /\
    StronglySorted newest_first out /\
    (forall before record after fields,
       out = before ++ record :: after ->
       record = VDict fields -> dict_lookup (u "upload_timestamp") fields = None ->
       Forall (fun later => timestamp_of later = []) after) /\
    (table w = ∅ -> out = []).
Proof.
  intros Hscan Htext.
  set (items := map snd (map_to_list (table w))).
  assert (Hitems : Forall (fun item => timestamp_is_text item = true) items).
  { apply Forall_forall. intros item Hitem.
    apply list_elem_of_In, in_map_iff in Hitem as (kv & <- & Hkv).
    rewrite forallb_forall in Htext. now apply Htext. }
  assert (Hrec : scanned_records w = map VDict items).
  { unfold scanned_records, items. now rewrite map_map. }
  destruct (sort_timed_records items Hitems) as (out & Hsort & Hperm & Hsorted).
  exists out. rewrite Hrec. split; [|split; [exact Hperm|split; [exact Hsorted|split]]].
  - unfold handle_list, try_except, table_scan, mbind, M_bind, bind, lift. rewrite Hscan.
    change (table (record_call (Scan (TABLE_NAME E)) w)) with (table w).
    fold (scanned_records w). rewrite Hrec.
    change (py_get _ (u "Items") (VList [])) with (Ok (VList (map VDict items))).
    cbn [_convert_decimals]. rewrite Hsort.
    unfold _resp, json_dumps. rewrite (no_decimal_converted_list _ _ Hperm). reflexivity.
  - intros before record after fields -> -> Hmissing.
    apply StronglySorted_app_1_r, StronglySorted_cons in Hsorted as [Hafter _].
    eapply Forall_impl; [exact Hafter|]. intros later Hlater.
    unfold newest_first in Hlater. cbn [timestamp_of] in Hlater. rewrite Hmissing in Hlater.
    now apply pystr_ltb_nil.
  - intros Hempty. apply Permutation_nil_r. rewrite Hperm. unfold items.
    now rewrite Hempty, map_to_list_empty.
Qed.

Lemma list_newest_first_witness :
  exists out,
    handle_list sample_env listing_world =
      (Ok (respond 200 (VList out)), record_call (Scan (u "files")) listing_world) /\
    map timestamp_of out =
      [u "2024-01-03T00:00:00+00:00"; u "2024-01-02T00:00:00+00:00";
       u "2024-01-01T00:00:00+00:00"; []] /\
    StronglySorted newest_first out.
Proof.
  destruct (list_newest_first sample_env listing_world eq_refl)
    as (out & H & _ & Hsorted & _); [vm_compute; reflexivity|].
  exists out. split; [exact H|]. split; [|exact Hsorted].
  assert (Hrun : exists l, fst (handle_list sample_env listing_world) = Ok (respond 200 (VList l))
                           /\ map timestamp_of l =
                              [u "2024-01-03T00:00:00+00:00"; u "2024-01-02T00:00:00+00:00";
                               u "2024-01-01T00:00:00+00:00"; []]).
  { eexists. split; vm_compute; reflexivity. }
  destruct Hrun as (l & Hl & Hts). rewrite H in Hl. cbn [fst] in Hl.
  injection Hl as <-. exact Hts.
Defined.

(** * Further properties *)

(** ** What the decoder never yields *)

Lemma match_number_no_decimal (s : pystr) (v : pyval) (r : pystr) :
  match_number s = Some (v, r) -> has_decimal v = false.
Proof.
  unfold match_number. intros H.
  repeat match type of H with
         | context [let '(_, _) := ?x in _] => destruct x
         | context [match ?x with _ => _ end] => destruct x
         end; try discriminate; injection H as <- _; reflexivity.
Qed.

Lemma existsb_reverse {A} (f : A -> bool) (l : list A) :
  existsb f (rev l) = existsb f l.
Proof.
  induction l as [|x l IH]; [reflexivity|].
  cbn [rev existsb]. rewrite existsb_app, IH. cbn [existsb].
  now rewrite orb_false_r, orb_comm.
Qed.

Lemma dict_set_no_decimal (k : pystr) (v : pyval) (d : list (pystr * pyval)) :
  has_decimal v = false -> has_decimal (VDict d) = false ->
  has_decimal (VDict (dict_set k v d)) = false.
Proof.
  intros Hv. induction d as [|[k' v'] d IH]; cbn [dict_set has_decimal existsb snd].
  - now rewrite Hv.
  - intros H. apply orb_false_iff in H as [Hv' Hd].
    destruct (pystr_eqb k k'); cbn [existsb snd].
    + now rewrite Hv, Hd.
    + rewrite Hv'. now apply IH.
Qed.

Lemma scan_once_no_decimal (fuel : nat) :
  (forall s v r, scan_once fuel s = Some (v, r) -> has_decimal v = false) /\
  (forall s acc v r, has_decimal (VList acc) = false ->
     parse_elements fuel s acc = Some (v, r) -> has_decimal v = false) /\
  (forall s acc v r, has_decimal (VDict acc) = false ->
     parse_members fuel s acc = Some (v, r) -> has_decimal v = false).
Proof.
  induction fuel as [|fuel (IHv & IHe & IHm)]; [repeat split; discriminate|].
  repeat split.
  - intros s v r H. cbn [scan_once] in H.
    destruct s as [|c s]; [discriminate|].
    destruct (c =? 34)%N.
    { destruct (scanstring s []) as [[t r']|]; [|discriminate]. now injection H as <- _. }
    destruct (c =? 123)%N.
    { destruct (skip_ws s) as [|c' r']; [discriminate|].
      destruct (c' =? 125)%N; [now injection H as <- _|].
      destruct (c' =? 34)%N; [|discriminate]. eapply IHm; [|exact H]. reflexivity. }
    destruct (c =? 91)%N.
    { destruct (skip_ws s) as [|c' r']; [discriminate|].
      destruct (c' =? 93)%N; [now injection H as <- _|].
      eapply IHe; [|exact H]. reflexivity. }
    destruct (strip_prefix (u "null") (c :: s)); [now injection H as <- _|].
    destruct (strip_prefix (u "true") (c :: s)); [now injection H as <- _|].
    destruct (strip_prefix (u "false") (c :: s)); [now injection H as <- _|].
    destruct (strip_prefix (u "NaN") (c :: s)); [now injection H as <- _|].
    destruct (strip_prefix (u "Infinity") (c :: s)); [now injection H as <- _|].
    destruct (strip_prefix (u "-Infinity") (c :: s)); [now injection H as <- _|].
    eapply match_number_no_decimal; exact H.
  - intros s acc v r Hacc H. cbn [parse_elements] in H.
    destruct (scan_once fuel s) as [[x r1]|] eqn:Hx; [|discriminate].
    apply IHv in Hx.
    assert (Hacc' : has_decimal (VList (x :: acc)) = false).
    { cbn [has_decimal existsb] in *. now rewrite Hx, Hacc. }
    destruct (skip_ws r1) as [|c r2]; [discriminate|].
    destruct (c =? 93)%N.
    { injection H as <- _. change (existsb has_decimal (rev (x :: acc)) = false).
      rewrite existsb_reverse. exact Hacc'. }
    destruct (c =? 44)%N; [|discriminate]. eapply IHe; [exact Hacc'|exact H].
  - intros s acc v r Hacc H. cbn [parse_members] in H.
    destruct (scanstring s []) as [[k r1]|]; [|discriminate].
    destruct (skip_ws r1) as [|c r2]; [discriminate|].
    destruct (c =? 58)%N; [|discriminate].
    destruct (scan_once fuel (skip_ws r2)) as [[x r3]|] eqn:Hx; [|discriminate].
    apply IHv in Hx. pose proof (dict_set_no_decimal k x acc Hx Hacc) as Hacc'.
    destruct (skip_ws r3) as [|c' r4]; [discriminate|].
    destruct (c' =? 125)%N; [now injection H as <- _|].
    destruct (c' =? 44)%N; [|discriminate].
    destruct (skip_ws r4) as [|c'' r5]; [discriminate|].
    destruct (c'' =? 34)%N; [|discriminate]. eapply IHm; [exact Hacc'|exact H].
Qed.

Lemma json_loads_no_decimal (s v : pyval) :
  json_loads s = Ok v -> has_decimal v = false.
Proof.
  unfold json_loads. intros H. destruct s; try discriminate.
  assert (Hscan : match scan_once (json_fuel s) (skip_ws s) with
                  | Some (v', r) => match skip_ws r with [] => Ok v' | _ :: _ => Raise JSONDecodeError end
                  | None => Raise JSONDecodeError
                  end = Ok v).
  { destruct s as [|c s']; [exact H|].
    destruct c as [|p]; [exact H|].
    repeat (destruct p as [p|p|]; try exact H); discriminate. }
  destruct (scan_once (json_fuel s) (skip_ws s)) as [[v' r]|] eqn:Hv; [|discriminate].
  destruct (skip_ws r); [|discriminate]. injection Hscan as <-.
  eapply (proj1 (scan_once_no_decimal _)); exact Hv.
Qed.

Lemma json_body_no_decimal (event v : pyval) :
  _json_body event = Ok v -> has_decimal v = false.
Proof.
  unfold _json_body, rcatch. intros H.
  destruct (py_get event (u "body") VNone) as [b|e] eqn:Hb; cbn [mbind result_bind rbind] in H.
  - destruct (match b with VNone => Ok (VDict []) | _ => json_loads b end) as [v'|e] eqn:Hv.
    + injection H as <-. destruct b;
        try (eapply json_loads_no_decimal; exact Hv). now injection Hv as <-.
    + now injection H as <-.
  - now injection H as <-.
Qed.

(** ** Routes *)

Lemma lambda_handler_routes (E : env) (event method path : pyval) (w : world) :
  _parse_request event = Ok (method, path) ->
  lambda_handler E event w =
    if py_eq method (VStr (u "GET"))
       && (py_eq path (VStr (u "/")) || py_eq path (VStr (u "/health"))) then
      (Ok (respond 200 (VDict [(u "status", VStr (u "ok"))])), w)
    else if py_eq method (VStr (u "POST")) && py_eq path (VStr (u "/upload")) then
      handle_upload E event w
    else if py_eq method (VStr (u "GET")) && py_eq path (VStr (u "/files")) then
      handle_list E w
    else if py_eq method (VStr (u "GET")) then
      match py_startswith path (u "/files/") with
      | Raise e => (Raise e, w)
      | Ok true =>
          match py_split_once path (u "/files/") with
          | Raise e => (Raise e, w)
          | Ok parts =>
              match py_index parts 1 with
              | Raise e => (Raise e, w)
              | Ok rest => handle_download E (unquote E rest) w
              end
          end
      | Ok false => (Ok (respond 404 (error_body (u "Not Found"))), w)
      end
    else (Ok (respond 404 (error_body (u "Not Found"))), w).
Proof.
  intros H. unfold lambda_handler. rewrite H.
  unfold mbind, M_bind, bind, lift. cbn [fst snd].
  destruct (py_eq method (VStr (u "GET")) &&
            (py_eq path (VStr (u "/")) || py_eq path (VStr (u "/health")))); [reflexivity|].
  destruct (py_eq method (VStr (u "POST")) && py_eq path (VStr (u "/upload"))); [reflexivity|].
  destruct (py_eq method (VStr (u "GET")) && py_eq path (VStr (u "/files"))); [reflexivity|].
  destruct (py_eq method (VStr (u "GET"))); [|reflexivity].
  destruct (py_startswith path (u "/files/")) as [[|]|e]; reflexivity.
Qed.

(** X1. GET on / or on /health is answered 200 with the status ok,
    whatever the state of the stores and whether or not their calls
    would fail: no request is made and the world is left as it was. *)
Theorem health_check_is_ok (E : env) (event : pyval) (path : pystr) (w : world) :
  _parse_request event = Ok (VStr (u "GET"), VStr path) ->
  path = u "/" \/ path = u "/health" ->
  lambda_handler E event w = (Ok (respond 200 (VDict [(u "status", VStr (u "ok"))])), w).
Proof.
  intros H Hpath. rewrite (lambda_handler_routes E event _ _ w H).
  destruct Hpath as [-> | ->]; reflexivity.
Qed.

Lemma health_check_is_ok_witness :
  lambda_handler broken_env (v2_event (u "GET") (u "/health") []) sample_world =
    (Ok (respond 200 (VDict [(u "status", VStr (u "ok"))])), sample_world).
Proof. apply (health_check_is_ok broken_env _ (u "/health")); [reflexivity|now right]. Defined.

(** X2. A request whose method and path are texts for which the router
    has no route is answered 404 with the error Not Found, and nothing is
    requested of the stores.  The method is compared as it is written, so
    a lower-case get has no route. *)
Theorem unrouted_request_is_not_found (E : env) (event : pyval) (method path : pystr)
    (w : world) :
  _parse_request event = Ok (VStr method, VStr path) ->
  routed method path = false ->
  lambda_handler E event w = (Ok (respond 404 (error_body (u "Not Found"))), w).
Proof.
  intros H Hr. rewrite (lambda_handler_routes E event _ _ w H).
  unfold routed in Hr. cbn [py_eq py_startswith].
  destruct (pystr_eqb method (u "GET")); cbn [andb orb] in *.
  - apply orb_false_iff in Hr as [Hr Hpost].
    apply orb_false_iff in Hr as [Hr Hprefix].
    apply orb_false_iff in Hr as [Hr Hfiles].
    apply orb_false_iff in Hr as [Hroot Hhealth].
    rewrite Hroot, Hhealth, Hfiles, Hpost. cbn [orb andb].
    destruct (strip_prefix (u "/files/") path); [discriminate|reflexivity].
  - rewrite Hr. reflexivity.
Qed.

Lemma unrouted_request_is_not_found_witness :
  lambda_handler sample_env (v1_event (u "get") (u "/files") []) sample_world =
    (Ok (respond 404 (error_body (u "Not Found"))), sample_world) /\
  lambda_handler sample_env (v1_event (u "DELETE") (u "/files/id-0") []) sample_world =
    (Ok (respond 404 (error_body (u "Not Found"))), sample_world).
Proof.
  split.
  - apply (unrouted_request_is_not_found sample_env _ (u "get") (u "/files")); reflexivity.
  - apply (unrouted_request_is_not_found sample_env _ (u "DELETE") (u "/files/id-0")); reflexivity.
Defined.

Lemma strip_prefix_app (p r : pystr) : strip_prefix p (p ++ r) = Some r.
Proof. induction p as [|c p IH]; [reflexivity|]. cbn. now rewrite N.eqb_refl. Qed.

Lemma split_once_prefix (sep r : pystr) : split_once sep (sep ++ r) = [[]; r].
Proof.
  destruct (sep ++ r) eqn:Heq; cbn [split_once]; rewrite <- ?Heq, strip_prefix_app; reflexivity.
Qed.

Lemma unquote_plain (E : env) (s : pystr) :
  existsb (N.eqb 37) s = false -> unquote E s = s.
Proof. unfold unquote. now intros ->. Qed.

(** X3. GET on a path that starts with /files/ goes to the download
    handler with everything after that first prefix, percent-decoded, as
    the identifier: later slashes and later occurrences of /files/ stay
    in it, and a rest without a percent sign is passed as it is. *)
Theorem download_route_takes_rest_of_path (E : env) (event : pyval) (rest : pystr)
    (w : world) :
  _parse_request event = Ok (VStr (u "GET"), VStr (u "/files/" ++ rest)) ->
  lambda_handler E event w = handle_download E (unquote E rest) w /\
  (existsb (N.eqb 37) rest = false -> lambda_handler E event w = handle_download E rest w).
Proof.
  intros H. rewrite (lambda_handler_routes E event _ _ w H).
  cbn [py_startswith py_split_once]. rewrite strip_prefix_app, split_once_prefix.
  assert (Hne : forall q : pystr, (length q < 7)%nat ->
                py_eq (VStr (u "/files/" ++ rest)) (VStr q) = false).
  { intros q Hq. cbn [py_eq]. unfold pystr_eqb. apply bool_decide_eq_false. intros Heq.
    rewrite <- Heq, length_app in Hq. cbn in Hq. lia. }
  rewrite (Hne (u "/")), (Hne (u "/files")) by (cbn; lia).
  assert (Hh : py_eq (VStr (u "/files/" ++ rest)) (VStr (u "/health")) = false).
  { cbn [py_eq]. unfold pystr_eqb. apply bool_decide_eq_false. intros Heq. discriminate Heq. }
  rewrite Hh.
  assert (Hu : py_eq (VStr (u "/files/" ++ rest)) (VStr (u "/upload")) = false).
  { cbn [py_eq]. unfold pystr_eqb. apply bool_decide_eq_false. intros Heq. discriminate Heq. }
  rewrite Hu. rewrite !andb_false_r. cbn [orb andb py_index].
  change (py_eq (VStr (u "GET")) (VStr (u "GET"))) with true. cbv iota.
  match goal with |- ?lhs = _ /\ _ =>
    change lhs with (handle_download E (unquote E rest) w) end.
  split; [reflexivity|]. intros Hp. now rewrite unquote_plain.
Qed.

Lemma download_route_takes_rest_of_path_witness :
  lambda_handler sample_env (v2_event (u "GET") (u "/files/a/files/b") []) sample_world =
    handle_download sample_env (u "a/files/b") sample_world.
Proof.
  apply (download_route_takes_rest_of_path sample_env _ (u "a/files/b") sample_world);
    reflexivity.
Defined.

(** X4. When the method is GET and the path field of the event is not a
    text, no comparison with a route matches and the test for the
    /files/ prefix raises an [AttributeError] that the router does not
    catch; nothing is requested of the stores. *)
Theorem get_with_untyped_path_raises (E : env) (event path : pyval) (w : world) :
  _parse_request event = Ok (VStr (u "GET"), path) ->
  is_str path = false ->
  lambda_handler E event w = (Raise (AttributeError path (u "startswith")), w).
Proof.
  intros H Hp. rewrite (lambda_handler_routes E event _ _ w H).
  destruct path; try discriminate; reflexivity.
Qed.

Lemma get_with_untyped_path_raises_witness :
  lambda_handler sample_env (VDict [(u "httpMethod", VStr (u "GET")); (u "path", VInt 5)])
    sample_world
  = (Raise (AttributeError (VInt 5) (u "startswith")), sample_world).
Proof. apply get_with_untyped_path_raises; reflexivity. Defined.

(** ** Uploads: failures, success and edge cases *)

Lemma field_no_decimal (k : pystr) (d : list (pystr * pyval)) :
  has_decimal (VDict d) = false -> has_decimal (field k d) = false.
Proof.
  unfold field. induction d as [|[k' v] d IH]; [reflexivity|].
  cbn [has_decimal existsb snd dict_lookup]. intros H.
  apply orb_false_iff in H as [Hv Hd].
  destruct (pystr_eqb k k'); [exact Hv|now apply IH].
Qed.

Lemma upload_preamble E event body content data n w :
  _json_body event = Ok (VDict body) ->
  py_truthy (field (u "file_name") body) = true ->
  dict_lookup (u "file_content") body = Some content ->
  is_none content = false ->
  encode_content content = Ok data ->
  py_len data = Ok n ->
  n <= MAX_BYTES ->
  handle_upload E event w =
    let w1 := record_call (upload_put_object E body data) w in
    match put_object_error E with
    | Some e => (Ok (respond 500 (error_body (u "S3 upload failed: " ++ exn_str e))), w1)
    | None =>
        let w2 := World (<[(BUCKET_NAME E, upload_key E (field (u "file_name") body))
                            := upload_object E body data]> (blobs w))
                    (table w) (calls w1) in
        let w3 := record_call (PutItem (TABLE_NAME E) (upload_item E body n)) w2 in
        match put_item_error E with
        | Some e =>
            (Ok (respond 500 (error_body (u "DynamoDB write failed: " ++ exn_str e))), w3)
        | None =>
            (Ok (respond 200 (VDict [(u "file_id", VStr (uuid4 E));
                                     (u "file_name", field (u "file_name") body)])),
             World (blobs w3)
               (<[uuid4 E := map (fun kv => (fst kv, ddb_typed (snd kv)))
                               (upload_item E body n)]> (table w3))
               (calls w3))
        end
    end.
Proof.
  intros Hbody Hname Hcontent Hnone Henc Hlen Hn.
  rewrite (handle_upload_cases E event body w Hbody). cbv zeta.
  assert (Hfc : field (u "file_content") body = content)
    by (unfold field; now rewrite Hcontent).
  rewrite Hname, Hfc, Hnone. cbn [negb orb].
  rewrite Henc, Hlen.
  replace (n >? MAX_BYTES) with false by (symmetry; rewrite Z.gtb_ltb; apply Z.ltb_ge; lia).
  destruct (put_object_error E); [reflexivity|].
  destruct (put_item_error E); [reflexivity|].
  unfold _resp, json_dumps. cbn [has_decimal existsb snd].
  rewrite (field_no_decimal _ body (json_body_no_decimal _ _ Hbody)). reflexivity.
Qed.

(** X5. When the blob write fails, a valid upload is answered 500 with
    the error S3 upload failed: and the text of the failure; the metadata
    write is not attempted, and both stores are as they were. *)
Theorem upload_blob_failure_writes_nothing (E : env) (event : pyval)
    (body : list (pystr * pyval)) (content : pyval) (data : payload) (n : Z) (e : exn)
    (w : world) :
  _json_body event = Ok (VDict body) ->
  py_truthy (field (u "file_name") body) = true ->
  dict_lookup (u "file_content") body = Some content ->
  is_none content = false ->
  encode_content content = Ok data ->
  py_len data = Ok n ->
  n <= MAX_BYTES ->
  put_object_error E = Some e ->
  exists w',
    handle_upload E event w =
      (Ok (respond 500 (error_body (u "S3 upload failed: " ++ exn_str e))), w') /\
    blobs w' = blobs w /\ table w' = table w /\
    calls w' = calls w ++ [upload_put_object E body data].
Proof.
  intros Hbody Hname Hcontent Hnone Henc Hlen Hn Hput.
  rewrite (upload_preamble E event body content data n w) by assumption.
  cbv zeta. rewrite Hput. eexists. split; [reflexivity|]. repeat split.
Qed.

Lemma upload_blob_failure_writes_nothing_witness :
  exists w',
    handle_upload broken_env small_upload_event sample_world =
      (Ok (respond 500 (error_body (u "S3 upload failed: s3 unreachable"))), w') /\
    blobs w' = blobs sample_world /\ table w' = table sample_world /\
    calls w' = calls sample_world
               ++ [upload_put_object broken_env small_upload_body
                     (Bytes (map byte_of_N (u "hello")))].
Proof.
  apply (upload_blob_failure_writes_nothing broken_env small_upload_event small_upload_body
           (VStr (u "hello")) (Bytes (map byte_of_N (u "hello"))) 5
           (Exn "EndpointConnectionError" (u "s3 unreachable")) sample_world);
    try reflexivity.
  unfold MAX_BYTES. lia.
Defined.

(** X6. A valid upload whose two writes succeed is answered 200 with
    the identifier drawn and the file name.  The blob is stored under the
    key made of the identifier, an underscore and the name, with the
    content type given, or text/plain when the body has none, and the
    identifier and the name as its metadata; the record is stored under
    the identifier, its size being the byte length of the blob; every
    other blob and record is left as it was. *)
Theorem upload_stores_blob_and_record (E : env) (event : pyval)
    (body : list (pystr * pyval)) (content : pyval) (data : payload) (n : Z) (w : world) :
  _json_body event = Ok (VDict body) ->
  py_truthy (field (u "file_name") body) = true ->
  dict_lookup (u "file_content") body = Some content ->
  is_none content = false ->
  encode_content content = Ok data ->
  py_len data = Ok n ->
  n <= MAX_BYTES ->
  put_object_error E = None ->
  put_item_error E = None ->
  let file_name := field (u "file_name") body in
  let content_type :=
    if py_truthy (field (u "content_type") body) then field (u "content_type") body
    else VStr (u "text/plain") in
  let key := uuid4 E ++ u "_" ++ py_format E file_name in
  exists w',
    handle_upload E event w =
      (Ok (respond 200 (VDict [(u "file_id", VStr (uuid4 E)); (u "file_name", file_name)])),
       w') /\
    blobs w' = <[(BUCKET_NAME E, key)
                 := S3Object data content_type
                      [(u "file-id", VStr (uuid4 E)); (u "original-name", file_name)]]>
                 (blobs w) /\
    table w' = <[uuid4 E
                 := [(u "file_id", VStr (uuid4 E));
                     (u "file_name", ddb_typed file_name);
                     (u "size", VDecimal (Decimal false (Z.to_N n) 0));
                     (u "upload_timestamp", VStr (utcnow_isoformat E));
                     (u "content_type", ddb_typed content_type)]]> (table w) /\
    calls w' = calls w ++ [upload_put_object E body data;
                           PutItem (TABLE_NAME E) (upload_item E body n)].
Proof.
  intros Hbody Hname Hcontent Hnone Henc Hlen Hn Hput Hitem file_name content_type key.
  rewrite (upload_preamble E event body content data n w) by assumption.
  cbv zeta. rewrite Hput, Hitem. eexists. split; [reflexivity|].
  assert (Hn0 : 0 <= n).
  { destruct data as [b|v]; cbn [py_len] in Hlen.
    - injection Hlen as <-. lia.
    - destruct v; try discriminate; injection Hlen as <-; lia. }
  cbn [record_call blobs table calls]. split; [reflexivity|]. split.
  - cbn [upload_item map fst snd ddb_typed].
    replace (n <? 0) with false by (symmetry; apply Z.ltb_ge; lia).
    replace (Z.abs_N n) with (Z.to_N n) by lia. reflexivity.
  - now rewrite <- app_assoc.
Qed.

Lemma upload_stores_blob_and_record_witness :
  exists w',
    handle_upload sample_env small_upload_event sample_world =
      (Ok (respond 200 (VDict [(u "file_id", VStr (u "id-1"));
                               (u "file_name", VStr (u "a.txt"))])), w') /\
    blobs w' !! (u "bucket", u "id-1_a.txt") =
      Some (S3Object (Bytes (map byte_of_N (u "hello"))) (VStr (u "text/plain"))
              [(u "file-id", VStr (u "id-1")); (u "original-name", VStr (u "a.txt"))]) /\
    table w' !! u "id-1" =
      Some [(u "file_id", VStr (u "id-1")); (u "file_name", VStr (u "a.txt"));
            (u "size", VDecimal (Decimal false 5 0));
            (u "upload_timestamp", VStr (u "2024-01-01T00:00:00+00:00"));
            (u "content_type", VStr (u "text/plain"))] /\
    table w' !! u "id-0" = Some sample_record.
Proof.
  destruct (upload_stores_blob_and_record sample_env small_upload_event small_upload_body
              (VStr (u "hello")) (Bytes (map byte_of_N (u "hello"))) 5 sample_world)
    as (w' & H & Hblobs & Htable & _);
    try reflexivity; [unfold MAX_BYTES; lia|].
  exists w'. split; [exact H|]. rewrite Hblobs, Htable.
  split; [apply lookup_insert_eq|]. split; [apply lookup_insert_eq|].
  vm_compute. reflexivity.
Defined.

(** X18. When the request body decodes to a JSON value that is not an
    object (an array, a text, a number, a boolean or null), the upload
    handler raises an [AttributeError] at its first [body.get], which
    nothing catches; nothing is written. *)
Theorem upload_non_object_body_raises (E : env) (event v : pyval) (w : world) :
  _json_body event = Ok v ->
  is_dict v = false ->
  handle_upload E event w = (Raise (AttributeError v (u "get")), w).
Proof.
  intros Hbody Hv. unfold handle_upload. rewrite Hbody.
  destruct v; try discriminate; reflexivity.
Qed.

Lemma upload_non_object_body_raises_witness :
  handle_upload sample_env text_body_event sample_world =
    (Raise (AttributeError (VStr (u "hello")) (u "get")), sample_world).
Proof. apply upload_non_object_body_raises; reflexivity. Defined.

Lemma utf8_encode_cp_surrogate (c : N) : is_surrogate c = true -> utf8_encode_cp c = None.
Proof.
  unfold is_surrogate, utf8_encode_cp. intros H.
  pose proof H as H'. apply andb_prop in H' as [Hlo Hhi].
  apply N.leb_le in Hlo, Hhi.
  replace (c <? 128)%N with false by (symmetry; apply N.ltb_ge; lia).
  replace (c <? 2048)%N with false by (symmetry; apply N.ltb_ge; lia).
  replace (c <? 65536)%N with true by (symmetry; apply N.ltb_lt; lia).
  now rewrite H.
Qed.

Lemma utf8_encode_surrogate (s : pystr) :
  existsb is_surrogate s = true -> utf8_encode s = None.
Proof.
  induction s as [|c s IH]; [discriminate|]. cbn [existsb utf8_encode]. intros H.
  apply orb_prop in H as [H|H].
  - now rewrite utf8_encode_cp_surrogate.
  - rewrite IH by assumption. now destruct (utf8_encode_cp c).
Qed.

(** X17. An upload whose content is a text holding a surrogate code
    point, which the JSON escape of a lone surrogate produces, passes
    validation and then raises [UnicodeEncodeError] when the content is
    encoded; the exception is not caught and nothing is written. *)
Theorem upload_lone_surrogate_raises (E : env) (event : pyval) (body : list (pystr * pyval))
    (s : pystr) (w : world) :
  _json_body event = Ok (VDict body) ->
  py_truthy (field (u "file_name") body) = true ->
  dict_lookup (u "file_content") body = Some (VStr s) ->
  existsb is_surrogate s = true ->
  exists msg,
    handle_upload E event w = (Raise (Exn "UnicodeEncodeError" msg), w).
Proof.
  intros Hbody Hname Hcontent Hs.
  rewrite (handle_upload_cases E event body w Hbody). cbv zeta.
  assert (Hfc : field (u "file_content") body = VStr s)
    by (unfold field; now rewrite Hcontent).
  rewrite Hname, Hfc. cbn [negb orb is_none encode_content].
  rewrite (utf8_encode_surrogate s Hs). eexists. reflexivity.
Qed.

Lemma upload_lone_surrogate_raises_witness :
  exists msg,
    handle_upload sample_env surrogate_content_event sample_world =
      (Raise (Exn "UnicodeEncodeError" msg), sample_world).
Proof.
  apply (upload_lone_surrogate_raises sample_env surrogate_content_event
           [(u "file_name", VStr (u "a.txt")); (u "file_content", VStr [55296%N])]
           [55296%N] sample_world); reflexivity.
Defined.

Lemma utf8_encode_cp_width (c : N) :
  is_scalar c = true ->
  exists b, utf8_encode_cp c = Some b /\ Z.of_nat (length b) = utf8_width c.
Proof.
  unfold is_scalar, is_surrogate, utf8_encode_cp, utf8_width. intros H.
  apply andb_prop in H as [Hs Hc]. apply negb_true_iff in Hs. rewrite Hs, Hc.
  repeat match goal with
         | |- context [if ?x then _ else _] => destruct x
         end; eexists; split; reflexivity.
Qed.

Lemma utf8_encode_size (s : pystr) :
  forallb is_scalar s = true ->
  exists b, utf8_encode s = Some b /\ Z.of_nat (length b) = utf8_size s.
Proof.
  induction s as [|c s IH]; cbn [forallb utf8_encode utf8_size fold_right]; intros H.
  - exists []. split; reflexivity.
  - apply andb_prop in H as [Hc Hs].
    destruct (utf8_encode_cp_width c Hc) as (bc & -> & Hbc).
    destruct (IH Hs) as (bs & -> & Hbs).
    exists (bc ++ bs). split; [reflexivity|].
    rewrite length_app, Nat2Z.inj_add, Hbc, Hbs. reflexivity.
Qed.

Lemma utf8_size_chars (s : pystr) :
  Z.of_nat (length s) <= utf8_size s /\
  (utf8_size s = Z.of_nat (length s) <-> forallb (fun c => (c <? 128)%N) s = true).
Proof.
  induction s as [|c s [IH1 IH2]]; cbn [length forallb utf8_size fold_right].
  - split; [lia|]. split; reflexivity.
  - fold (utf8_size s).
    assert (Hw : 1 <= utf8_width c /\ (utf8_width c = 1 <-> (c <? 128)%N = true)).
    { unfold utf8_width. destruct (c <? 128)%N; [split; [lia|tauto]|].
      destruct (c <? 2048)%N; [|destruct (c <? 65536)%N]; (split; [lia|split; [lia|discriminate]]). }
    destruct Hw as [Hw1 Hw2]. split; [lia|].
    rewrite andb_true_iff, <- Hw2, <- IH2. lia.
Qed.

(** X16. The size the upload handler checks and records for a text
    content is the length of its UTF-8 encoding, one to four bytes for
    each character by its code point, and not the number of characters:
    the upload is refused with 413 when that length exceeds the cap, and
    otherwise, both writes succeeding, the blob holds that many bytes and
    the record's size is that length.  The length is at least the number
    of characters and equals it only for ASCII text. *)
Theorem upload_size_counts_utf8_bytes (E : env) (event : pyval) (body : list (pystr * pyval))
    (s : pystr) (w : world) :
  _json_body event = Ok (VDict body) ->
  py_truthy (field (u "file_name") body) = true ->
  dict_lookup (u "file_content") body = Some (VStr s) ->
  forallb is_scalar s = true ->
  (utf8_size s > MAX_BYTES ->
   handle_upload E event w = (Ok (respond 413 (error_body (u "File too large (>20MB)"))), w)) /\
  (utf8_size s <= MAX_BYTES -> put_object_error E = None -> put_item_error E = None ->
   exists b item,
     blobs (snd (handle_upload E event w))
       !! (BUCKET_NAME E, upload_key E (field (u "file_name") body))
       = Some (upload_object E body (Bytes b)) /\
     Z.of_nat (length b) = utf8_size s /\
     table (snd (handle_upload E event w)) !! uuid4 E = Some item /\
     dict_lookup (u "size") item = Some (VDecimal (Decimal false (Z.to_N (utf8_size s)) 0))) /\
  Z.of_nat (length s) <= utf8_size s /\
  (utf8_size s = Z.of_nat (length s) <-> forallb (fun c => (c <? 128)%N) s = true).
Proof.
  intros Hbody Hname Hcontent Hs.
  destruct (utf8_encode_size s Hs) as (b & Hb & Hlen).
  assert (Henc : encode_content (VStr s) = Ok (Bytes b)).
  { unfold encode_content. now rewrite Hb. }
  assert (Hpl : py_len (Bytes b) = Ok (utf8_size s)).
  { cbn [py_len]. now rewrite Hlen. }
  split; [|split; [|apply utf8_size_chars]].
  - intros Hbig. rewrite (handle_upload_cases E event body w Hbody). cbv zeta.
    assert (Hfc : field (u "file_content") body = VStr s)
      by (unfold field; now rewrite Hcontent).
    rewrite Hname, Hfc. cbn [negb orb is_none].
    rewrite Henc, Hpl.
    replace (utf8_size s >? MAX_BYTES) with true
      by (symmetry; rewrite Z.gtb_ltb; apply Z.ltb_lt; lia).
    reflexivity.
  - intros Hsmall Hput Hitem.
    rewrite (upload_preamble E event body (VStr s) (Bytes b) (utf8_size s) w)
      by (try assumption; reflexivity).
    cbv zeta. rewrite Hput, Hitem. cbn [snd record_call blobs table calls].
    exists b. eexists. split; [apply lookup_insert_eq|]. split; [exact Hlen|].
    split; [apply lookup_insert_eq|].
    pose proof (proj1 (utf8_size_chars s)) as Hge.
    cbn [upload_item map fst snd ddb_typed dict_lookup].
    replace (utf8_size s <? 0) with false by (symmetry; apply Z.ltb_ge; lia).
    replace (Z.abs_N (utf8_size s)) with (Z.to_N (utf8_size s)) by lia.
    reflexivity.
Qed.

Lemma upload_size_counts_utf8_bytes_witness :
  length [8364; 97]%N = 2%nat /\
  exists item,
    table (snd (handle_upload sample_env euro_upload_event sample_world)) !! u "id-1"
      = Some item /\
    dict_lookup (u "size") item = Some (VDecimal (Decimal false 4 0)).
Proof.
  split; [reflexivity|].
  destruct (upload_size_counts_utf8_bytes sample_env euro_upload_event euro_upload_body
              [8364; 97]%N sample_world) as (_ & H & _); try reflexivity.
  destruct H as (b & item & _ & _ & Ht & Hsz);
    try reflexivity; [unfold MAX_BYTES; vm_compute; discriminate|].
  exists item. split; [exact Ht|exact Hsz].
Defined.

(** ** Lists and downloads: failures and effects *)

Lemma resp_ok (status : Z) (b : pyval) (r : response) :
  _resp status b None = Ok r -> r = respond status b.
Proof.
  unfold _resp, json_dumps. destruct (has_decimal b); [discriminate|].
  now intros [= <-].
Qed.

Lemma resp_error_body (status : Z) (msg : pystr) :
  _resp status (error_body msg) None = Ok (respond status (error_body msg)).
Proof. reflexivity. Qed.

Lemma handle_list_cases (E : env) (w : world) :
  let w1 := record_call (Scan (TABLE_NAME E)) w in
  let failed (e : exn) :=
    (Ok (respond 500 (error_body (u "DynamoDB scan failed: " ++ exn_str e))), w1) in
  handle_list E w =
    match scan_error E with
    | Some e => failed e
    | None =>
        match py_sort_reverse (fun x => py_get x (u "upload_timestamp") (VStr []))
                (VList (map _convert_decimals (scanned_records w))) with
        | Raise e => failed e
        | Ok items =>
            match _resp 200 items None with
            | Ok r => (Ok r, w1)
            | Raise e => failed e
            end
        end
    end.
Proof.
  intros w1 failed. unfold handle_list, try_except, table_scan, mbind, M_bind, bind, lift.
  fold w1. destruct (scan_error E) as [e|]; [reflexivity|].
  change (table w1) with (table w). fold (scanned_records w).
  change (py_get _ (u "Items") (VList [])) with (Ok (VList (scanned_records w))).
  cbn [_convert_decimals].
  destruct (py_sort_reverse _ _) as [items|e]; [|reflexivity].
  destruct (_resp 200 items None); reflexivity.
Qed.


(** X11. Failures of the download handler's two calls are answered, not
    raised: a failing metadata read gives 500 with the error DynamoDB
    read failed:, and, for a stored record with a file name, a failing
    pre-signing gives 500 with the error Could not generate download
    URL:, each followed by the text of the failure. *)
Theorem download_failures_are_answered (E : env) (file_id : pystr) (w : world) :
  let w1 := record_call (GetItem (TABLE_NAME E) [(u "file_id", VStr file_id)]) w in
  (forall e, get_item_error E = Some e ->
     handle_download E file_id w =
       (Ok (respond 500 (error_body (u "DynamoDB read failed: " ++ exn_str e))), w1)) /\
  (forall item file_name e,
     get_item_error E = None ->
     table w !! file_id = Some item ->
     dict_lookup (u "file_name") item = Some file_name ->
     presign_error E = Some e ->
     exists w2,
       handle_download E file_id w =
         (Ok (respond 500 (error_body (u "Could not generate download URL: " ++ exn_str e))),
          w2) /\
       calls w2 = calls w1
                  ++ [GeneratePresignedUrl (u "get_object") (BUCKET_NAME E)
                        (file_id ++ u "_" ++ py_format E (_convert_decimals file_name)) 3600]).
Proof.
  intros w1. split.
  - intros e He. rewrite handle_download_cases, He. reflexivity.
  - intros item file_name e Hget Hitem Hname Hsign.
    rewrite handle_download_cases, Hget, Hitem.
    destruct item as [|kv item]; [discriminate|].
    rewrite Hname. cbv zeta. rewrite Hsign. eexists. split; reflexivity.
Qed.

Lemma download_failures_are_answered_witness :
  handle_download broken_env (u "id-0") sample_world =
    (Ok (respond 500 (error_body (u "DynamoDB read failed: dynamodb unreachable"))),
     record_call (GetItem (u "files") [(u "file_id", VStr (u "id-0"))]) sample_world).
Proof.
  apply (proj1 (download_failures_are_answered broken_env (u "id-0") sample_world)
           (Exn "EndpointConnectionError" (u "dynamodb unreachable"))).
  reflexivity.
Defined.

(** X12. The file name is read from the record outside both [try]
    blocks: for a stored, non-empty record without a file name the
    download handler raises a [KeyError] that nothing catches, after the
    metadata read and before any pre-signing. *)
Theorem download_record_without_name_raises (E : env) (file_id : pystr)
    (item : list (pystr * pyval)) (w : world) :
  get_item_error E = None ->
  table w !! file_id = Some item ->
  item <> [] ->
  dict_lookup (u "file_name") item = None ->
  handle_download E file_id w =
    (Raise (Exn "KeyError" (u "'file_name'")),
     record_call (GetItem (TABLE_NAME E) [(u "file_id", VStr file_id)]) w).
Proof.
  intros Hget Hitem Hne Hname. rewrite handle_download_cases, Hget, Hitem.
  destruct item as [|kv item]; [congruence|]. rewrite Hname. reflexivity.
Qed.

Lemma download_record_without_name_raises_witness :
  handle_download sample_env (u "id-7") nameless_record_world =
    (Raise (Exn "KeyError" (u "'file_name'")),
     record_call (GetItem (u "files") [(u "file_id", VStr (u "id-7"))]) nameless_record_world).
Proof.
  apply (download_record_without_name_raises sample_env (u "id-7")
           [(u "file_id", VStr (u "id-7")); (u "size", VDecimal (Decimal false 1 0))]);
    try reflexivity; discriminate.
Defined.

(** X13. Listing and downloading only read: whatever their outcome, the
    blob store and the metadata table are left exactly as they were. *)
Theorem reads_leave_stores_unchanged (E : env) (file_id : pystr) (w : world) :
  (blobs (snd (handle_list E w)) = blobs w /\ table (snd (handle_list E w)) = table w) /\
  (blobs (snd (handle_download E file_id w)) = blobs w /\
   table (snd (handle_download E file_id w)) = table w).
Proof.
  split.
  - rewrite handle_list_cases. cbv zeta.
    destruct (scan_error E); [split; reflexivity|].
    destruct (py_sort_reverse _ _) as [items|]; [|split; reflexivity].
    destruct (_resp 200 items None); split; reflexivity.
  - rewrite handle_download_cases. cbv zeta.
    destruct (get_item_error E); [split; reflexivity|].
    destruct (table w !! file_id) as [[|kv item]|]; try (split; reflexivity).
    destruct (dict_lookup (u "file_name") (kv :: item)); [|split; reflexivity].
    destruct (presign_error E); split; reflexivity.
Qed.

Lemma handle_upload_answers (E : env) (event : pyval) (w : world) (r : response) :
  fst (handle_upload E event w) = Ok r ->
  headers r = json_headers /\ known_status (statusCode r) = true.
Proof.
  destruct (json_body_never_raises event) as [v Hv].
  destruct (is_dict v) eqn:Hd.
  - destruct v; try discriminate.
    rewrite (handle_upload_cases E event d w Hv). cbv zeta.
    repeat match goal with
           | |- context [if ?c then _ else _] => destruct c
           | |- context [match encode_content ?c with _ => _ end] => destruct (encode_content c)
           | |- context [match py_len ?c with _ => _ end] => destruct (py_len c)
           | |- context [match put_object_error ?c with _ => _ end] => destruct (put_object_error c)
           | |- context [match put_item_error ?c with _ => _ end] => destruct (put_item_error c)
           end; cbn [fst]; try discriminate; try (intros [= <-]; split; reflexivity).
    intros Hr. apply resp_ok in Hr as ->. split; reflexivity.
  - unfold handle_upload. rewrite Hv. destruct v; try discriminate; cbn; discriminate.
Qed.

Lemma handle_download_answers (E : env) (file_id : pystr) (w : world) (r : response) :
  fst (handle_download E file_id w) = Ok r ->
  headers r = json_headers /\ known_status (statusCode r) = true.
Proof.
  rewrite handle_download_cases. cbv zeta.
  destruct (get_item_error E); [intros [= <-]; split; reflexivity|].
  destruct (table w !! file_id) as [[|kv item]|]; try (intros [= <-]; split; reflexivity).
  destruct (dict_lookup (u "file_name") (kv :: item)); [|discriminate].
  destruct (presign_error E); intros [= <-]; split; reflexivity.
Qed.

Lemma handle_list_answers (E : env) (w : world) (r : response) :
  fst (handle_list E w) = Ok r ->
  headers r = json_headers /\ known_status (statusCode r) = true.
Proof.
  rewrite handle_list_cases. cbv zeta.
  destruct (scan_error E); [intros [= <-]; split; reflexivity|].
  destruct (py_sort_reverse _ _) as [items|]; [|intros [= <-]; split; reflexivity].
  destruct (_resp 200 items None) as [r'|] eqn:Hr; [|intros [= <-]; split; reflexivity].
  apply resp_ok in Hr as ->. intros [= <-]. split; reflexivity.
Qed.

(** X9. Every response the entry point returns, from any route and for
    any event, has the one header content-type: application/json and a
    status among 200, 400, 404, 413 and 500. *)
Theorem every_response_is_json (E : env) (event : pyval) (w : world) (r : response) :
  fst (lambda_handler E event w) = Ok r ->
  headers r = [(u "content-type", VStr (u "application/json"))] /\
  known_status (statusCode r) = true.
Proof.
  destruct (_parse_request event) as [[method path]|e] eqn:Hp.
  - rewrite (lambda_handler_routes E event method path w Hp).
    destruct (_ && (_ || _)); [intros [= <-]; split; reflexivity|].
    destruct (_ && _); [apply handle_upload_answers|].
    destruct (_ && _); [apply handle_list_answers|].
    destruct (py_eq method _); [|intros [= <-]; split; reflexivity].
    destruct (py_startswith path _) as [[|]|]; try discriminate;
      [|intros [= <-]; split; reflexivity].
    destruct (py_split_once path _) as [parts|]; [|discriminate].
    destruct (py_index parts 1) as [rest|]; [|discriminate].
    apply handle_download_answers.
  - unfold lambda_handler. rewrite Hp. discriminate.
Qed.

Lemma every_response_is_json_witness :
  headers (respond 200 (download_body sample_env (u "id-0") (VStr (u "notes.txt"))))
    = [(u "content-type", VStr (u "application/json"))] /\
  known_status 200 = true.
Proof.
  apply (every_response_is_json sample_env (v2_event (u "GET") (u "/files/id-0") [])
           sample_world).
  vm_compute. reflexivity.
Defined.

(** ** Round trips *)


(** X7. Upload then download: after a successful upload under a
    non-empty text name, a download of the identifier returned, when its
    two calls succeed, answers 200 with that identifier, that name and
    the URL pre-signed for exactly the key under which the upload stored
    the blob, and the blob stored there is the content uploaded. *)
Theorem upload_then_download (E E' : env) (event : pyval) (body : list (pystr * pyval))
    (name : pystr) (content : pyval) (data : payload) (n : Z) (w : world) :
  _json_body event = Ok (VDict body) ->
  dict_lookup (u "file_name") body = Some (VStr name) ->
  name <> [] ->
  dict_lookup (u "file_content") body = Some content ->
  is_none content = false ->
  encode_content content = Ok data ->
  py_len data = Ok n ->
  n <= MAX_BYTES ->
  put_object_error E = None ->
  put_item_error E = None ->
  BUCKET_NAME E' = BUCKET_NAME E ->
  get_item_error E' = None ->
  presign_error E' = None ->
  let w' := snd (handle_upload E event w) in
  let key := uuid4 E ++ u "_" ++ name in
  fst (handle_download E' (uuid4 E) w') =
    Ok (respond 200
          (VDict [(u "file_id", VStr (uuid4 E));
                  (u "file_name", VStr name);
                  (u "download_url", VStr (presigned_url E' (BUCKET_NAME E) key 3600))])) /\
  exists object, blobs w' !! (BUCKET_NAME E, key) = Some object /\ obj_body object = data.
Proof.
  intros Hbody Hname Hne Hcontent Hnone Henc Hlen Hn Hput Hitem Hbucket Hget Hsign w' key.
  assert (Hfield : field (u "file_name") body = VStr name)
    by (unfold field; now rewrite Hname).
  assert (Htruthy : py_truthy (field (u "file_name") body) = true)
    by (rewrite Hfield; now destruct name).
  unfold w'. rewrite (upload_preamble E event body content data n w) by assumption.
  cbv zeta. rewrite Hput, Hitem. cbn [snd record_call blobs table calls]. split.
  - rewrite handle_download_cases, Hget. cbn [table].
    rewrite lookup_insert_eq. cbn [upload_item map fst snd].
    change (dict_lookup (u "file_name") _) with (Some (ddb_typed (field (u "file_name") body))).
    rewrite Hfield. cbv zeta. rewrite Hsign. unfold download_body, download_key.
    rewrite Hbucket. reflexivity.
  - eexists. split.
    + unfold upload_key. rewrite Hfield. apply lookup_insert_eq.
    + reflexivity.
Qed.

Lemma upload_then_download_witness :
  fst (handle_download sample_env (u "id-1")
         (snd (handle_upload sample_env small_upload_event sample_world))) =
    Ok (respond 200
          (VDict [(u "file_id", VStr (u "id-1"));
                  (u "file_name", VStr (u "a.txt"));
                  (u "download_url", VStr (u "https://bucket/id-1_a.txt"))])).
Proof.
  apply (upload_then_download sample_env sample_env small_upload_event small_upload_body
           (u "a.txt") (VStr (u "hello")) (Bytes (map byte_of_N (u "hello"))) 5 sample_world);
    try reflexivity; [discriminate|unfold MAX_BYTES; lia].
Defined.

Lemma handle_list_text_timestamps (E : env) (w : world) :
  scan_error E = None ->
  forallb (fun kv => timestamp_is_text (snd kv)) (map_to_list (table w)) = true ->
  exists out,
    handle_list E w = (Ok (respond 200 (VList out)), record_call (Scan (TABLE_NAME E)) w) /\
    out ≡ₚ map _convert_decimals (scanned_records w).
Proof.
  intros Hscan Htext.
  set (items := map snd (map_to_list (table w))).
  assert (Hitems : Forall (fun item => timestamp_is_text item = true) items).
  { apply Forall_forall. intros item Hitem.
    apply list_elem_of_In, in_map_iff in Hitem as (kv & <- & Hkv).
    rewrite forallb_forall in Htext. now apply Htext. }
  assert (Hrec : scanned_records w = map VDict items).
  { unfold scanned_records, items. now rewrite map_map. }
  destruct (sort_timed_records items Hitems) as (out & Hsort & Hperm & _).
  exists out. rewrite Hrec. split; [|exact Hperm].
  rewrite handle_list_cases. cbv zeta. rewrite Hscan, Hrec, Hsort.
  unfold _resp, json_dumps. rewrite (no_decimal_converted_list _ _ Hperm). reflexivity.
Qed.

(** X8. Upload then list: after a successful upload under a non-empty
    text name and a text content type, into a table whose timestamps are
    texts, a successful listing answers 200 and contains the record of
    the upload: identifier, name, size as the integer byte length of the
    content, timestamp and content type. *)
Theorem upload_then_list (E E' : env) (event : pyval) (body : list (pystr * pyval))
    (name : pystr) (content : pyval) (data : payload) (n : Z) (w : world) :
  _json_body event = Ok (VDict body) ->
  dict_lookup (u "file_name") body = Some (VStr name) ->
  name <> [] ->
  is_str (upload_content_type body) = true ->
  dict_lookup (u "file_content") body = Some content ->
  is_none content = false ->
  encode_content content = Ok data ->
  py_len data = Ok n ->
  n <= MAX_BYTES ->
  put_object_error E = None ->
  put_item_error E = None ->
  scan_error E' = None ->
  forallb (fun kv => timestamp_is_text (snd kv)) (map_to_list (table w)) = true ->
  let w' := snd (handle_upload E event w) in
  exists out,
    fst (handle_list E' w') = Ok (respond 200 (VList out)) /\
    VDict [(u "file_id", VStr (uuid4 E));
           (u "file_name", VStr name);
           (u "size", VInt n);
           (u "upload_timestamp", VStr (utcnow_isoformat E));
           (u "content_type", upload_content_type body)] ∈ out.
Proof.
  intros Hbody Hname Hne Hct Hcontent Hnone Henc Hlen Hn Hput Hitem Hscan Htext w'.
  assert (Hfield : field (u "file_name") body = VStr name)
    by (unfold field; now rewrite Hname).
  assert (Htruthy : py_truthy (field (u "file_name") body) = true)
    by (rewrite Hfield; now destruct name).
  assert (Hn0 : 0 <= n).
  { destruct data as [b|v]; cbn [py_len] in Hlen.
    - injection Hlen as <-. lia.
    - destruct v; try discriminate; injection Hlen as <-; lia. }
  set (stored := map (fun kv => (fst kv, ddb_typed (snd kv))) (upload_item E body n)).
  assert (Hw' : table w' = <[uuid4 E := stored]> (table w)).
  { unfold w'. rewrite (upload_preamble E event body content data n w) by assumption.
    cbv zeta. rewrite Hput, Hitem. reflexivity. }
  destruct (handle_list_text_timestamps E' w' Hscan) as (out & Hout & Hperm).
  { apply forallb_forall. intros [k item] Hin.
    apply list_elem_of_In, elem_of_map_to_list in Hin. rewrite Hw' in Hin.
    apply lookup_insert_Some in Hin as [[_ <-]|[_ Hin]].
    - reflexivity.
    - rewrite forallb_forall in Htext.
      apply (Htext (k, item)). now apply list_elem_of_In, elem_of_map_to_list. }
  exists out. rewrite Hout. split; [reflexivity|].
  rewrite Hperm. apply list_elem_of_In, in_map_iff.
  exists (VDict stored). split.
  - unfold stored. cbn [upload_item map fst snd ddb_typed _convert_decimals].
    rewrite Hfield. destruct (upload_content_type body); try discriminate.
    cbn [ddb_typed _convert_decimals].
    replace (n <? 0) with false by (symmetry; apply Z.ltb_ge; lia).
    rewrite to_integral_test. cbn [dec_is_integral dec_exp]. cbn [Z.leb Z.compare orb].
    unfold int_of_decimal. cbn [dec_exp dec_sign dec_int Z.leb Z.compare].
    replace (1 * (Z.of_N (Z.abs_N n) * 10 ^ 0)) with n by lia. reflexivity.
  - unfold scanned_records. apply in_map_iff. exists (uuid4 E, stored). split; [reflexivity|].
    apply list_elem_of_In, elem_of_map_to_list. rewrite Hw'. apply lookup_insert_eq.
Qed.

Lemma upload_then_list_witness :
  exists out,
    fst (handle_list sample_env (snd (handle_upload sample_env small_upload_event sample_world)))
      = Ok (respond 200 (VList out)) /\
    VDict [(u "file_id", VStr (u "id-1"));
           (u "file_name", VStr (u "a.txt"));
           (u "size", VInt 5);
           (u "upload_timestamp", VStr (u "2024-01-01T00:00:00+00:00"));
           (u "content_type", VStr (u "text/plain"))] ∈ out.
Proof.
  apply (upload_then_list sample_env sample_env small_upload_event small_upload_body
           (u "a.txt") (VStr (u "hello")) (Bytes (map byte_of_N (u "hello"))) 5 sample_world);
    try reflexivity; try discriminate; unfold MAX_BYTES; lia.
Defined.

(** ** Stability of the listing *)

Lemma pystr_ltb_irrefl (a : pystr) : pystr_ltb a a = false.
Proof.
  destruct (pystr_ltb a a) eqn:H; [|reflexivity].
  pose proof (pystr_ltb_asym a a H). congruence.
Qed.

Lemma filter_all_false {A} (f : A -> bool) (l : list A) :
  (forall a, In a l -> f a = false) -> List.filter f l = [].
Proof.
  induction l as [|a l IH]; [reflexivity|]. intros H. cbn [List.filter].
  rewrite (H a (or_introl eq_refl)). apply IH. intros b Hb. apply H. now right.
Qed.

Lemma sort_insert_stable (t : pystr) (x : pyval * pyval) (l r : list (pyval * pyval)) :
  is_str (fst x) = true -> Forall (fun p => is_str (fst p) = true) l ->
  StronglySorted keyed_ascending l ->
  sort_insert x l = Ok r ->
  keyed_with t r = keyed_with t l ++ keyed_with t [x].
Proof.
  intros Hx Hl Hs. revert r. induction l as [|y l IH]; intros r Hr.
  - injection Hr as <-. reflexivity.
  - apply Forall_cons in Hl as [Hy Hl]. apply StronglySorted_cons in Hs as [Hyl Hs].
    destruct x as [kx vx], y as [ky vy]. cbn [fst] in Hx, Hy.
    destruct kx as [| | | |sx| | |]; try discriminate.
    destruct ky as [| | | |sy| | |]; try discriminate.
    cbn [sort_insert fst py_lt mbind result_bind rbind] in Hr.
    destruct (pystr_ltb sx sy) eqn:Hlt.
    + injection Hr as <-.
      change ((VStr sx, vx) :: (VStr sy, vy) :: l)
        with ([(VStr sx, vx)] ++ (VStr sy, vy) :: l).
      unfold keyed_with at 1. rewrite List.filter_app.
      fold (keyed_with t [(VStr sx, vx)]) (keyed_with t ((VStr sy, vy) :: l)).
      destruct (pystr_eqb sx t) eqn:Ht.
      * apply bool_decide_eq_true in Ht. subst t.
        assert (Hnone : keyed_with sx ((VStr sy, vy) :: l) = []).
        { unfold keyed_with. apply filter_all_false.
          intros [kz vz] Hz. apply bool_decide_eq_false. intros Heq.
          assert (Hlow : pystr_ltb (key_text (kz, vz)) sy = false).
          { destruct Hz as [<-|Hz]; [apply pystr_ltb_irrefl|].
            rewrite Forall_forall in Hyl. apply (Hyl (kz, vz)). now apply list_elem_of_In. }
          rewrite Heq in Hlow. congruence. }
        rewrite Hnone. now rewrite app_nil_r.
      * assert (Hx0 : keyed_with t [(VStr sx, vx)] = []).
        { unfold keyed_with. cbn [List.filter key_text fst]. now rewrite Ht. }
        rewrite Hx0. now rewrite app_nil_r.
    + destruct (sort_insert (VStr sx, vx) l) as [r'|] eqn:Hr'; [|discriminate].
      injection Hr as <-. unfold keyed_with at 1 2. cbn [List.filter].
      fold (keyed_with t r') (keyed_with t l). rewrite (IH Hl Hs r' eq_refl).
      now destruct (pystr_eqb (key_text (VStr sy, vy)) t).
Qed.

Lemma sort_keyed_stable (t : pystr) (l acc r : list (pyval * pyval)) :
  Forall (fun p => is_str (fst p) = true) l ->
  Forall (fun p => is_str (fst p) = true) acc ->
  StronglySorted keyed_ascending acc ->
  sort_keyed acc l = Ok r ->
  keyed_with t r = keyed_with t acc ++ keyed_with t l.
Proof.
  revert acc. induction l as [|x l IH]; intros acc Hl Hacc Hs Hr.
  - injection Hr as <-. now rewrite app_nil_r.
  - apply Forall_cons in Hl as [Hx Hl].
    destruct (sort_insert_text x acc Hx Hacc Hs) as (acc' & Hins & Hperm & Hs').
    cbn [sort_keyed mbind result_bind rbind] in Hr. rewrite Hins in Hr. cbn [rbind] in Hr.
    rewrite (IH acc' Hl) by (try assumption; rewrite Hperm; now constructor).
    rewrite (sort_insert_stable t x acc acc' Hx Hacc Hs Hins).
    rewrite <- app_assoc. change (x :: l) with ([x] ++ l).
    unfold keyed_with at 5. now rewrite List.filter_app.
Qed.

Lemma sorted_records_stable (t : pystr) (items : list (list (pystr * pyval)))
    (out : list pyval) :
  Forall (fun item => timestamp_is_text item = true) items ->
  py_sort_reverse (fun x => py_get x (u "upload_timestamp") (VStr []))
    (VList (map _convert_decimals (map VDict items))) = Ok (VList out) ->
  stamped t out = stamped t (map _convert_decimals (map VDict items)).
Proof.
  intros Hitems. unfold py_sort_reverse.
  rewrite (keyed_timed_records items Hitems). cbn [mbind result_bind rbind].
  set (xs := map _convert_decimals (map VDict items)).
  set (ks := map (fun x => (VStr (timestamp_of x), x)) xs).
  assert (Hstr : Forall (fun p : pyval * pyval => is_str (fst p) = true) (rev ks)).
  { apply Forall_forall. intros p Hp. apply list_elem_of_In, in_rev, in_map_iff in Hp.
    destruct Hp as (x & <- & _). reflexivity. }
  destruct (sort_keyed [] (rev ks)) as [r|] eqn:Hr; [|discriminate].
  intros [= <-].
  pose proof (sort_keyed_stable t (rev ks) [] r Hstr (Forall_nil_2 _) (SSorted_nil _) Hr)
    as Hstable.
  change (keyed_with t [] ++ keyed_with t (rev ks)) with (keyed_with t (rev ks)) in Hstable.
  unfold keyed_with in Hstable at 2. rewrite List.filter_rev in Hstable.
  fold (keyed_with t ks) in Hstable.
  assert (Hswap : forall l : list (pyval * pyval),
            Forall (fun p => key_text p = timestamp_of (snd p)) l ->
            stamped t (map snd l) = map snd (keyed_with t l)).
  { induction 1 as [|p l Hp _ IHl]; [reflexivity|].
    unfold stamped, keyed_with in *. cbn [map List.filter]. rewrite Hp, IHl.
    now destruct (pystr_eqb (timestamp_of (snd p)) t). }
  assert (Hks : Forall (fun p => key_text p = timestamp_of (snd p)) ks).
  { apply Forall_forall. intros p Hp. apply list_elem_of_In, in_map_iff in Hp.
    destruct Hp as (x & <- & _). reflexivity. }
  assert (Hr' : Forall (fun p => key_text p = timestamp_of (snd p)) r).
  { destruct (sort_keyed_text (rev ks) [] Hstr (Forall_nil_2 _) (SSorted_nil _))
      as (r0 & Hr0 & Hperm & _).
    rewrite Hr in Hr0. injection Hr0 as <-. rewrite Hperm. cbn [app].
    apply Forall_forall. intros p Hp. rewrite Forall_forall in Hks. apply Hks.
    apply list_elem_of_In. apply list_elem_of_In in Hp. now apply in_rev. }
  unfold stamped at 1. rewrite List.filter_rev. fold (stamped t (map snd r)).
  rewrite (Hswap r Hr'), Hstable, List.map_rev, rev_involutive.
  rewrite <- (Hswap ks Hks).
  unfold ks. rewrite map_map. cbn [snd]. now rewrite map_id.
Qed.

(** X19. The sort of the listing is stable: records that carry the same
    timestamp (or none) appear in the listing in the order in which the
    scan returned them. *)
Theorem list_keeps_scan_order_on_ties (E : env) (w : world) :
  scan_error E = None ->
  forallb (fun kv => timestamp_is_text (snd kv)) (map_to_list (table w)) = true ->
  exists out,
    handle_list E w = (Ok (respond 200 (VList out)), record_call (Scan (TABLE_NAME E)) w) /\
    forall t, stamped t out = stamped t (map _convert_decimals (scanned_records w)).
Proof.
  intros Hscan Htext.
  set (items := map snd (map_to_list (table w))).
  assert (Hitems : Forall (fun item => timestamp_is_text item = true) items).
  { apply Forall_forall. intros item Hitem.
    apply list_elem_of_In, in_map_iff in Hitem as (kv & <- & Hkv).
    rewrite forallb_forall in Htext. now apply Htext. }
  assert (Hrec : scanned_records w = map VDict items).
  { unfold scanned_records, items. now rewrite map_map. }
  destruct (sort_timed_records items Hitems) as (out & Hsort & Hperm & _).
  exists out. rewrite Hrec. split.
  - rewrite handle_list_cases. cbv zeta. rewrite Hscan, Hrec, Hsort.
    unfold _resp, json_dumps. rewrite (no_decimal_converted_list _ _ Hperm). reflexivity.
  - intros t. now apply sorted_records_stable.
Qed.

Lemma list_keeps_scan_order_on_ties_witness :
  exists out,
    handle_list sample_env tied_world =
      (Ok (respond 200 (VList out)), record_call (Scan (u "files")) tied_world) /\
    stamped (u "2024-01-02T00:00:00+00:00") out =
      stamped (u "2024-01-02T00:00:00+00:00") (map _convert_decimals (scanned_records tied_world)).
Proof.
  destruct (list_keeps_scan_order_on_ties sample_env tied_world eq_refl) as (out & H & Ht);
    [vm_compute; reflexivity|].
  exists out. split; [exact H|apply Ht].
Defined.

(** ** The normalizer, the body parser and the response builder *)

Lemma convert_decimals_fixes_plain (v : pyval) :
  has_decimal v = false -> _convert_decimals v = v.
Proof.
  induction v as [| | | | | l IH | d IH | d] using pyval_nested_ind;
    cbn [has_decimal _convert_decimals]; try reflexivity; try discriminate.
  - intros H. f_equal. induction IH as [|x l Hx _ IHl]; [reflexivity|].
    cbn [existsb] in H. apply orb_false_iff in H as [H1 H2].
    cbn [map]. now rewrite Hx, IHl.
  - intros H. f_equal. induction IH as [|[k x] d Hx _ IHd]; [reflexivity|].
    cbn [existsb snd] in H. apply orb_false_iff in H as [H1 H2].
    cbn [map fst snd] in *. now rewrite Hx, IHd.
Qed.

(** X15. The numeric normalizer is idempotent, and it returns a value
    that holds no decimal exactly as it is. *)
Theorem convert_decimals_idempotent (v : pyval) :
  _convert_decimals (_convert_decimals v) = _convert_decimals v /\
  (has_decimal v = false -> _convert_decimals v = v).
Proof.
  split; [|apply convert_decimals_fixes_plain].
  apply convert_decimals_fixes_plain, convert_decimals_no_decimal.
Qed.

Lemma convert_decimals_idempotent_witness :
  _convert_decimals (VDict sample_record) =
    VDict [(u "file_id", VStr (u "id-0")); (u "file_name", VStr (u "notes.txt"));
           (u "size", VInt 12);
           (u "upload_timestamp", VStr (u "2023-12-31T10:00:00+00:00"));
           (u "content_type", VStr (u "text/plain"))] /\
  _convert_decimals (_convert_decimals (VDict sample_record)) =
    _convert_decimals (VDict sample_record).
Proof.
  split; [vm_compute; reflexivity|].
  apply (proj1 (convert_decimals_idempotent (VDict sample_record))).
Defined.

(** X14. The body parser never raises.  It returns the empty mapping
    when the event is not a record, when the body field is missing or
    null, when the body is not a text, and when decoding the body fails;
    when decoding succeeds it returns the decoded value. *)
Theorem json_body_falls_back_to_empty (event : pyval) :
  (exists v, _json_body event = Ok v) /\
  (is_dict event = false -> _json_body event = Ok (VDict [])) /\
  (forall fields, event = VDict fields ->
     (dict_lookup (u "body") fields = None \/ dict_lookup (u "body") fields = Some VNone ->
      _json_body event = Ok (VDict [])) /\
     (forall b, dict_lookup (u "body") fields = Some b ->
        (is_str b = false -> _json_body event = Ok (VDict [])) /\
        (forall e, json_loads b = Raise e -> _json_body event = Ok (VDict [])) /\
        (forall v, json_loads b = Ok v -> _json_body event = Ok v))).
Proof.
  split; [apply json_body_never_raises|]. split.
  - intros H. destruct event; try discriminate; reflexivity.
  - intros fields ->. split.
    + intros [H|H]; [now apply json_body_absent|].
      unfold _json_body. cbn [py_get]. now rewrite H.
    + intros b Hb. split; [|split].
      * intros Hs. destruct b; try discriminate;
          (eapply json_body_undecodable; [exact Hb|reflexivity]).
      * intros e He. eapply json_body_undecodable; eassumption.
      * intros v Hv. eapply json_body_decoded; eassumption.
Qed.

Lemma json_body_falls_back_to_empty_witness :
  _json_body (upload_event (u "{not json")) = Ok (VDict []) /\
  _json_body (VList []) = Ok (VDict []) /\
  _json_body (VDict [(u "body", VDict [])]) = Ok (VDict []).
Proof.
  split; [|split].
  - destruct (json_body_falls_back_to_empty (upload_event (u "{not json"))) as (_ & _ & H).
    destruct (H _ eq_refl) as [_ Hb]. destruct (Hb (VStr (u "{not json")) eq_refl) as (_ & He & _).
    apply (He JSONDecodeError). vm_compute. reflexivity.
  - apply (json_body_falls_back_to_empty (VList [])). reflexivity.
  - destruct (json_body_falls_back_to_empty (VDict [(u "body", VDict [])])) as (_ & _ & H).
    destruct (H _ eq_refl) as [_ Hb]. destruct (Hb (VDict []) eq_refl) as (Hs & _).
    apply Hs. reflexivity.
Defined.

Lemma dict_lookup_set (k k' : pystr) (v : pyval) (d : list (pystr * pyval)) :
  dict_lookup k (dict_set k' v d) = if pystr_eqb k k' then Some v else dict_lookup k d.
Proof.
  unfold pystr_eqb. induction d as [|[k'' v''] d IH]; cbn [dict_set dict_lookup]; unfold pystr_eqb.
  - reflexivity.
  - repeat case_bool_decide; cbn [dict_lookup]; unfold pystr_eqb;
      repeat case_bool_decide; subst; try congruence;
      rewrite IH; unfold pystr_eqb; now case_bool_decide.
Qed.

Lemma dict_lookup_app (k : pystr) (d1 d2 : list (pystr * pyval)) :
  dict_lookup k (d1 ++ d2) =
    match dict_lookup k d1 with Some v => Some v | None => dict_lookup k d2 end.
Proof.
  induction d1 as [|[k' v] d1 IH]; [reflexivity|]. cbn [app dict_lookup].
  destruct (pystr_eqb k k'); [reflexivity|exact IH].
Qed.

Lemma dict_lookup_update (k : pystr) (h base : list (pystr * pyval)) :
  dict_lookup k (fold_left (fun acc kv => dict_set (fst kv) (snd kv) acc) h base) =
    match last_binding k h with Some v => Some v | None => dict_lookup k base end.
Proof.
  unfold last_binding. revert base. induction h as [|[k' v] h IH]; intros base; [reflexivity|].
  cbn [fold_left fst snd rev]. rewrite IH, dict_lookup_app, dict_lookup_set.
  cbn [dict_lookup]. destruct (dict_lookup k (rev h)); [reflexivity|].
  now destruct (pystr_eqb k k').
Qed.

(** X20. The response builder answers with the text the encoder makes
    of the body and keeps the status; without headers the envelope has
    the one header content-type: application/json, and with headers each
    key ends up with the last value given for it, content-type keeping
    its default unless it is given.  When the encoder refuses the body,
    the builder raises the encoder's exception. *)
Theorem resp_builds_envelope (status : Z) (b : pyval) (h : list (pystr * pyval)) :
  (forall text, json_dumps b = Ok text ->
     _resp status b None = Ok (Response status json_headers text) /\
     exists r,
       _resp status b (Some h) = Ok r /\ statusCode r = status /\ body r = text /\
       forall k, dict_lookup k (headers r) =
                 match last_binding k h with
                 | Some v => Some v
                 | None => dict_lookup k json_headers
                 end) /\
  (forall e hs, json_dumps b = Raise e -> _resp status b hs = Raise e).
Proof.
  unfold _resp. split.
  - intros text ->. split; [reflexivity|]. eexists. split; [reflexivity|].
    split; [reflexivity|]. split; [reflexivity|]. intros k.
    cbn [headers mbind result_bind rbind]. apply dict_lookup_update.
  - intros e hs ->. reflexivity.
Qed.

Lemma resp_builds_envelope_witness :
  exists r,
    _resp 200 (VDict []) (Some [(u "cache-control", VStr (u "no-store"));
                                (u "cache-control", VStr (u "max-age=60"))]) = Ok r /\
    dict_lookup (u "cache-control") (headers r) = Some (VStr (u "max-age=60")) /\
    dict_lookup (u "content-type") (headers r) = Some (VStr (u "application/json")).
Proof.
  destruct (proj1 (resp_builds_envelope 200 (VDict [])
                     [(u "cache-control", VStr (u "no-store"));
                      (u "cache-control", VStr (u "max-age=60"))])
              (JsonText (VDict [])) eq_refl) as (_ & r & Hr & _ & _ & Hk).
  exists r. split; [exact Hr|]. split; rewrite Hk; reflexivity.
Defined.
